(** * TsFlower: the statement and type converter (convert.ts) and its
      rewrite macros (rewrite.ts), embedded and verified.

    The converter is a closure over a source file, a mapper and a type
    checker.  The embedding keeps that shape: the three are the variables
    of one section, and every [convertXxx] of the source is a definition
    of the same name in it.  TypeScript syntax trees live in module [ts],
    the Flow trees built through ast-types in module [flow], the ast-types
    builders ([b.identifier], [b.emptyStatement.from], ...) in module [b],
    and the converter in module [Convert].

    Effects.  A call returns or throws.  Three things throw in the code
    embedded here: [convertName], with an [Error] of its own for a member
    name it does not handle; the ast-types builders, when a value does
    not match the field it is given for ([b.identifier] and
    [b.stringLiteral] on [undefined], [b.exportNamedDeclaration] on a
    specifier that is no [ExportSpecifier]); and the call of a method the
    converter object does not have.  All are caught by the [try] of
    [convertStatement].  The functions on those paths return an
    [Outcome], the others are pure; [console.error] is not modelled.

    Nodes.  A node is a value of the type its [kind] gives it in
    TypeScript.  Where the source reads a field through a cast
    ([name as ts.Identifier], [moduleSpecifier as ts.StringLiteral]) the
    node keeps its own type, and the [text] read from it may be missing.
    [ts.SyntaxKind[kind]], the name of a kind, and the wording of the
    errors of ast-types and of the engine are variables of the
    converter. *)

From Stdlib Require Import List String Ascii Bool Arith NArith Lia DecimalString.
Import ListNotations.
Open Scope string_scope.

Set Implicit Arguments.
Set Warnings "-register-all,-notation-for-abbreviation".

(** ** JavaScript strings *)

(** [String.prototype.slice(start, end)] for offsets that are natural
    numbers: empty when [end <= start] or [start] is past the end, cut at
    the end of the string otherwise.  The characters of a [string] stand
    for the code units of the JavaScript string. *)
Definition slice (s : string) (start end_ : nat) : string :=
  substring start (end_ - start) s.

(** The double-quote character, for the messages that contain it. *)
Definition dquote : string := String (ascii_of_nat 34) EmptyString.

(** A number in a template literal: its decimal digits. *)
Definition showNat (n : nat) : string := NilEmpty.string_of_uint (Nat.to_uint n).

(** Modelled from the spec: util.ts is not among the sources.  Its [some]
    is called on arrays that may be missing ([node.modifiers],
    [symbol?.declarations]) and answers false for those. *)
Definition some {A : Type} (array : option (list A)) (pred : A -> bool) : bool :=
  match array with
  | None => false
  | Some l => existsb pred l
  end.

(** ** TypeScript syntax trees *)

Module ts.

Module SyntaxKind.
(** The members of [ts.SyntaxKind] the converter names, and [Other]
    for the rest of the enumeration. *)
Inductive SyntaxKind : Type :=
(* tokens, keywords, modifiers *)
| NumericLiteral | BigIntLiteral | StringLiteral
| MinusToken | PlusToken | TildeToken | ExclamationToken
| ExportKeyword | DefaultKeyword | DeclareKeyword | AbstractKeyword
| ExtendsKeyword | ImplementsKeyword
| NullKeyword | TrueKeyword | FalseKeyword
| KeyOfKeyword | UniqueKeyword | ReadonlyKeyword
| UnknownKeyword | AnyKeyword | NeverKeyword | UndefinedKeyword
| VoidKeyword | BooleanKeyword | NumberKeyword | StringKeyword
| ObjectKeyword | SymbolKeyword | BigIntKeyword
(* names *)
| Identifier | PrivateIdentifier | QualifiedName | ComputedPropertyName
(* members *)
| PropertySignature | PropertyDeclaration | MethodSignature
| MethodDeclaration | ClassStaticBlockDeclaration | Constructor
| GetAccessor | SetAccessor | CallSignature | ConstructSignature
| IndexSignature | SemicolonClassElement
(* types *)
| TypePredicate | TypeReference | FunctionType | ConstructorType
| TypeQuery | TypeLiteral | ArrayType | TupleType | OptionalType
| RestType | UnionType | IntersectionType | ConditionalType | InferType
| ParenthesizedType | ThisType | TypeOperator | IndexedAccessType
| MappedType | LiteralType | NamedTupleMember | TemplateLiteralType
| TemplateLiteralTypeSpan | ImportType
(* expressions *)
| PropertyAccessExpression | CallExpression | PrefixUnaryExpression
| ExpressionWithTypeArguments
(* statements and declarations *)
| Block | EmptyStatement | VariableStatement | ExpressionStatement
| IfStatement | DoStatement | WhileStatement | ForStatement
| ForInStatement | ForOfStatement | ContinueStatement | BreakStatement
| ReturnStatement | WithStatement | SwitchStatement | LabeledStatement
| ThrowStatement | TryStatement | DebuggerStatement
| VariableDeclaration | VariableDeclarationList | FunctionDeclaration
| ClassDeclaration | InterfaceDeclaration | TypeAliasDeclaration
| EnumDeclaration | ModuleDeclaration | ModuleBlock | CaseBlock
| NamespaceExportDeclaration | ImportEqualsDeclaration
| ImportDeclaration | ImportClause | NamespaceImport | NamedImports
| ImportSpecifier | ExportAssignment | ExportDeclaration | NamedExports
| NamespaceExport | ExportSpecifier | MissingDeclaration
| Other (value : nat).

Scheme Equality for SyntaxKind.
End SyntaxKind.
Notation SyntaxKind := SyntaxKind.SyntaxKind.

(** [pos] and [end] of a node: offsets into the text of the file. *)
Record Span : Type := { pos : nat; end_ : nat }.

Record Identifier : Type := { identifierSpan : Span; text : string }.

(** [ts.EntityNameOrEntityNameExpression] *)
Inductive EntityName : Type :=
| EntityIdentifier (id : Identifier)
| QualifiedName (left : EntityName) (right : Identifier)
| PropertyAccessEntityNameExpression (expression : EntityName) (name : Identifier).

(** [ts.SymbolFlags.Value] and the two [ts.NodeFlags] the converter
    masks with, at their values in the TypeScript enumerations. *)
Definition SymbolFlags_Value : N := 111551.
Definition NodeFlags_Let : N := 1.
Definition NodeFlags_Const : N := 2.

(** A declaration of a symbol: the converter asks only whether it has a
    [typeParameters] list. *)
Record Declaration : Type := { declTypeParameters : option (list string) }.

Record Symbol : Type := {
  symbolId : nat;
  flags : N;
  declarations : option (list Declaration)
}.

Record TypeChecker : Type := {
  getSymbolAtLocation : EntityName -> option Symbol;
  getImmediateAliasedSymbol : Symbol -> option Symbol
}.

Record TypeParameterDeclaration (T : Type) : Type := {
  typeParameterName : Identifier;
  constraint : option T;
  default : option T
}.

(** [ts.BindingName]: an identifier or a binding pattern. *)
Inductive BindingName : Type :=
| BindingIdentifier (id : Identifier)
| BindingPattern.

(** [name.text] of a binding name: a binding pattern has no such
    property. *)
Definition bindingNameText (name : BindingName) : option string :=
  match name with
  | BindingIdentifier id => Some (text id)
  | BindingPattern => None
  end.

Record ParameterDeclaration (T : Type) : Type := {
  dotDotDotToken : bool;
  parameterName : BindingName;
  questionToken : bool;
  parameterType : option T
}.

(** What [convertFunctionType] reads of a [FunctionTypeNode],
    [FunctionDeclaration], [ConstructorDeclaration] or
    [MethodDeclaration]. *)
Record SignatureDeclaration (T : Type) : Type := {
  typeParameters : option (list (TypeParameterDeclaration T));
  parameters : list (ParameterDeclaration T);
  type : option T
}.

(** [ts.PropertyName] *)
Inductive PropertyName : Type :=
| PropertyIdentifier (id : Identifier)
| PropertyPrivateIdentifier (text : string)
| PropertyStringLiteral (text : string)
| PropertyNumericLiteral (text : string)
| PropertyComputedName.

Definition propertyNameKind (name : PropertyName) : SyntaxKind :=
  match name with
  | PropertyIdentifier _ => SyntaxKind.Identifier
  | PropertyPrivateIdentifier _ => SyntaxKind.PrivateIdentifier
  | PropertyStringLiteral _ => SyntaxKind.StringLiteral
  | PropertyNumericLiteral _ => SyntaxKind.NumericLiteral
  | PropertyComputedName => SyntaxKind.ComputedPropertyName
  end.

(** [name.text] of a property name: identifiers, private identifiers and
    literals have a [text]; a computed name has an [expression] and no
    [text]. *)
Definition propertyNameText (name : PropertyName) : option string :=
  match name with
  | PropertyIdentifier id => Some (text id)
  | PropertyPrivateIdentifier text
  | PropertyStringLiteral text
  | PropertyNumericLiteral text => Some text
  | PropertyComputedName => None
  end.

(** Members of a type literal: property signatures, and members of any
    other kind, of which the converter reads the kind alone. *)
Inductive TypeElement (T : Type) : Type :=
| TypeLiteralProperty (name : PropertyName) (questionToken : bool) (type : option T)
| OtherTypeElement (kind : SyntaxKind).
Arguments OtherTypeElement {T} kind.

(** The operand of a [PrefixUnaryExpression] in a literal type. *)
Inductive Operand : Type :=
| OperandNumericLiteral (text : string)
| OtherOperand (kind : SyntaxKind).

(** [node.literal] of a [LiteralTypeNode]. *)
Inductive Literal : Type :=
| NullLiteral
| FalseLiteral
| TrueLiteral
| PrefixUnaryExpression (operator : SyntaxKind) (operand : Operand)
| NumericLiteral (text : string)
| StringLiteral (text : string)
| OtherLiteral (kind : SyntaxKind).

(** Type nodes.  [OtherType] is a type node of any other kind: a keyword
    type, [this], or a kind whose fields the converter never reads. *)
Inductive TypeNode : Type :=
| ParenthesizedType (span : Span) (type : TypeNode)
| LiteralType (span : Span) (literal : Literal)
| TypeQuery (span : Span) (exprName : EntityName)
| TypeOperator (span : Span) (operator : SyntaxKind) (type : TypeNode)
| TypeReference (span : Span) (typeName : EntityName)
    (typeArguments : option (list TypeNode))
| UnionType (span : Span) (types : list TypeNode)
| IntersectionType (span : Span) (types : list TypeNode)
| IndexedAccessType (span : Span) (objectType indexType : TypeNode)
| ArrayType (span : Span) (elementType : TypeNode)
| TupleType (span : Span) (elements : list TypeNode)
| FunctionType (span : Span) (signature : SignatureDeclaration TypeNode)
| TypeLiteral (span : Span) (members : list (TypeElement TypeNode))
| OtherType (span : Span) (kind : SyntaxKind).

Definition typeSpan (node : TypeNode) : Span :=
  match node with
  | ParenthesizedType s _ | LiteralType s _
  | TypeQuery s _ | TypeOperator s _ _ | TypeReference s _ _
  | UnionType s _ | IntersectionType s _ | IndexedAccessType s _ _
  | ArrayType s _ | TupleType s _ | FunctionType s _ | TypeLiteral s _
  | OtherType s _ => s
  end.

(** Members of a class or an interface ([ts.ClassElement | ts.TypeElement]). *)
Inductive Member : Type :=
| Constructor (signature : SignatureDeclaration TypeNode)
| PropertySignature (name : PropertyName) (questionToken : bool)
    (type : option TypeNode)
| PropertyDeclaration (name : PropertyName) (questionToken : bool)
    (type : option TypeNode)
| MethodSignature (name : PropertyName) (questionToken : bool)
    (signature : SignatureDeclaration TypeNode)
| MethodDeclaration (name : PropertyName) (questionToken : bool)
    (signature : SignatureDeclaration TypeNode)
| OtherMember (kind : SyntaxKind).

(** [ts.MemberName]: the name after the dot of a property access. *)
Inductive MemberName : Type :=
| MemberIdentifier (id : Identifier)
| MemberPrivateIdentifier (text : string).

(** Expressions, as far as heritage clauses, [export default] and module
    specifiers look: identifiers, property accesses, the other
    expressions that carry a [text] (a string literal, or another of the
    literal tokens) and the expressions of any other kind, which carry
    none. *)
Inductive Expression : Type :=
| IdentifierExpression (id : Identifier)
| PropertyAccessExpression (expression : Expression) (name : MemberName)
| LiteralExpression (kind : SyntaxKind) (text : string)
| OtherExpression (kind : SyntaxKind).

Definition expressionKind (e : Expression) : SyntaxKind :=
  match e with
  | IdentifierExpression _ => SyntaxKind.Identifier
  | PropertyAccessExpression _ _ => SyntaxKind.PropertyAccessExpression
  | LiteralExpression kind _ => kind
  | OtherExpression kind => kind
  end.

(** [expression.text] *)
Definition expressionText (e : Expression) : option string :=
  match e with
  | IdentifierExpression id => Some (text id)
  | LiteralExpression _ text => Some text
  | PropertyAccessExpression _ _ | OtherExpression _ => None
  end.

Record ExpressionWithTypeArguments : Type := {
  expression : Expression;
  baseTypeArguments : option (list TypeNode)
}.

Record HeritageClause : Type := {
  token : SyntaxKind;
  heritageTypes : list ExpressionWithTypeArguments
}.

Record ImportSpecifier : Type := {
  importPropertyName : option Identifier;
  importName : Identifier
}.

Inductive NamedImportBindings : Type :=
| NamespaceImport (name : Identifier)
| NamedImports (elements : list ImportSpecifier).

Record ImportClause : Type := {
  importClauseModifiers : option (list SyntaxKind);
  importClauseName : option Identifier;
  namedBindings : option NamedImportBindings
}.

Record ExportSpecifier : Type := {
  specIsTypeOnly : bool;
  exportPropertyName : option Identifier;
  exportName : Identifier
}.

Inductive NamedExportBindings : Type :=
| NamespaceExport (name : Identifier)
| NamedExports (elements : list ExportSpecifier).

Record VariableDeclaration : Type := {
  variableName : BindingName;
  variableType : option TypeNode
}.

Record VariableDeclarationList : Type := {
  listFlags : N;
  listDeclarations : list VariableDeclaration
}.

Record ClassLikeDeclaration : Type := {
  className : option Identifier;
  classTypeParameters : option (list (TypeParameterDeclaration TypeNode));
  heritageClauses : option (list HeritageClause);
  members : list Member
}.

(** What every statement node has: its span and its modifiers (the
    kinds of the modifier tokens). *)
Record Node : Type := {
  span : Span;
  modifiers : option (list SyntaxKind)
}.

(** Top-level statements.  The module specifier of an import or export
    is an expression (a string literal, short of a grammar error).
    [OtherStatement] is a statement of any kind whose fields the
    converter never reads, its kind none of those of the other
    constructors. *)
Inductive Statement : Type :=
| ImportDeclaration (node : Node) (importClause : option ImportClause)
    (moduleSpecifier : Expression)
| ExportDeclaration (node : Node) (isTypeOnly : bool)
    (exportClause : option NamedExportBindings)
    (moduleSpecifier : option Expression) (assertClause : bool)
| ExportAssignment (node : Node) (isExportEquals : bool)
    (expression : Expression)
| VariableStatement (node : Node) (declarationList : VariableDeclarationList)
| TypeAliasDeclaration (node : Node) (name : Identifier)
    (typeParameters : option (list (TypeParameterDeclaration TypeNode)))
    (type : TypeNode)
| FunctionDeclaration (node : Node) (name : option Identifier)
    (signature : SignatureDeclaration TypeNode)
| ClassDeclaration (node : Node) (declaration : ClassLikeDeclaration)
| InterfaceDeclaration (node : Node) (declaration : ClassLikeDeclaration)
| OtherStatement (node : Node) (kind : SyntaxKind).

Definition statementNode (statement : Statement) : Node :=
  match statement with
  | ImportDeclaration n _ _ | ExportDeclaration n _ _ _ _
  | ExportAssignment n _ _ | VariableStatement n _
  | TypeAliasDeclaration n _ _ _ | FunctionDeclaration n _ _
  | ClassDeclaration n _ | InterfaceDeclaration n _
  | OtherStatement n _ => n
  end.

Definition kind (statement : Statement) : SyntaxKind :=
  match statement with
  | ImportDeclaration _ _ _ => SyntaxKind.ImportDeclaration
  | ExportDeclaration _ _ _ _ _ => SyntaxKind.ExportDeclaration
  | ExportAssignment _ _ _ => SyntaxKind.ExportAssignment
  | VariableStatement _ _ => SyntaxKind.VariableStatement
  | TypeAliasDeclaration _ _ _ _ => SyntaxKind.TypeAliasDeclaration
  | FunctionDeclaration _ _ _ => SyntaxKind.FunctionDeclaration
  | ClassDeclaration _ _ => SyntaxKind.ClassDeclaration
  | InterfaceDeclaration _ _ => SyntaxKind.InterfaceDeclaration
  | OtherStatement _ kind => kind
  end.

Record SourceFile : Type := {
  sourceText : string;
  fileName : string;
  statements : list Statement
}.

End ts.

(** ** Flow syntax trees (ast-types) *)

Module flow.

(** A comment attached to a node: [value], [leading], [trailing]. *)
Inductive Comment : Type :=
| CommentBlock (value : string) (leading trailing : bool).

Record Identifier (T : Type) : Type := {
  name : string;
  typeAnnotation : option T
}.

(** [K.IdentifierKind | n.QualifiedTypeIdentifier] *)
Inductive TypeIdentifier (T : Type) : Type :=
| Id (id : Identifier T)
| QualifiedTypeIdentifier (qualification : TypeIdentifier T) (id : Identifier T).

(** The key of an object-type property: an identifier or a string literal. *)
Inductive PropertyKey (T : Type) : Type :=
| IdentifierKey (id : Identifier T)
| StringLiteralKey (value : string).

Record ObjectTypeProperty (T : Type) : Type := {
  key : PropertyKey T;
  value : T;
  optional : bool
}.

Record ObjectTypeIndexer (T : Type) : Type := {
  indexerId : Identifier T;
  indexerKey : T;
  indexerValue : T
}.

Record FunctionTypeParam (T : Type) : Type := {
  paramName : option (Identifier T);
  paramTypeAnnotation : T;
  paramOptional : bool
}.

Record TypeParameter (T : Type) : Type := {
  typeParameterName : string;
  bound : option T;
  default : option T
}.

(** The value of a number literal type: [Number(text)] or its negation.
    The converter computes nothing else with numbers. *)
Inductive JsNumber : Type :=
| Number (text : string)
| Negate (x : JsNumber).

Inductive FlowType : Type :=
| MixedTypeAnnotation
| AnyTypeAnnotation
| EmptyTypeAnnotation
| VoidTypeAnnotation
| BooleanTypeAnnotation
| NumberTypeAnnotation
| StringTypeAnnotation
| ThisTypeAnnotation
| NullTypeAnnotation
| ObjectTypeAnnotation (properties : list (ObjectTypeProperty FlowType))
    (indexers : list (ObjectTypeIndexer FlowType))
    (callProperties : list FlowType)
    (inexact : option bool) (exact : bool)
| BooleanLiteralTypeAnnotation (value : bool) (raw : string)
| NumberLiteralTypeAnnotation (value : JsNumber) (raw : string)
| StringLiteralTypeAnnotation (value : string) (raw : string)
| TypeofTypeAnnotation (argument : FlowType)
| GenericTypeAnnotation (id : TypeIdentifier FlowType)
    (typeParameters : option (list FlowType))
    (comments : option (list Comment))
| UnionTypeAnnotation (types : list FlowType)
| IntersectionTypeAnnotation (types : list FlowType)
| ArrayTypeAnnotation (elementType : FlowType)
| TupleTypeAnnotation (types : list FlowType)
| FunctionTypeAnnotation (params : list (FunctionTypeParam FlowType))
    (returnType : FlowType)
    (rest : option (FunctionTypeParam FlowType))
    (typeParameters : option (list (TypeParameter FlowType))).

(** The argument of [b.genericTypeAnnotation.from], which is also what a
    macro returns on success. *)
Record Reference : Type := {
  id : TypeIdentifier FlowType;
  typeParameters : option (list FlowType)
}.

(** ["type" | "value"] *)
Inductive ImportExportKind : Type := type | value_.

Inductive ImportSpecifierNode : Type :=
| ImportSpecifier (imported local : Identifier FlowType) (importKind : ImportExportKind)
| ImportNamespaceSpecifier (local : Identifier FlowType)
| ImportDefaultSpecifier (local : Identifier FlowType).

(** An [ExportSpecifier] has no [exportKind] in ast-types. *)
Inductive ExportSpecifierNode : Type :=
| ExportSpecifier (local exported : Identifier FlowType)
| ExportNamespaceSpecifier (exported : Identifier FlowType).

Record InterfaceExtends : Type := {
  extendsId : TypeIdentifier FlowType;
  extendsTypeParameters : option (list FlowType)
}.

(** The fields shared by [DeclareInterface], [DeclareClass] and
    [InterfaceDeclaration]. *)
Record InterfaceParams : Type := {
  interfaceId : Identifier FlowType;
  interfaceTypeParameters : option (list (TypeParameter FlowType));
  extends : list InterfaceExtends;
  body : FlowType
}.

(** The statement kinds the converter builds, and two of the kinds of
    [K.StatementKind] it never builds ([BlockStatement], [DebuggerStatement]). *)
Inductive StatementNode (S : Type) : Type :=
| EmptyStatement
| ImportDeclaration (specifiers : list ImportSpecifierNode) (source : string)
| ExportAllDeclaration (source : string) (exported : option (Identifier FlowType))
| ExportNamedDeclaration (declaration : option S)
    (specifiers : list ExportSpecifierNode) (source : option string)
| ExportDefaultDeclaration (declaration : Identifier FlowType)
| VariableDeclaration (kind : string) (declarations : list (Identifier FlowType))
| TypeAlias (id : Identifier FlowType)
    (typeParameters : option (list (TypeParameter FlowType)))
    (right : FlowType)
| DeclareFunction (id : Identifier FlowType)
| DeclareInterface (params : InterfaceParams)
| DeclareClass (params : InterfaceParams)
| InterfaceDeclaration (params : InterfaceParams)
| DeclareExportDeclaration (default : bool) (declaration : S)
| BlockStatement (body : list S)
| DebuggerStatement.
Arguments EmptyStatement {S}.
Arguments ImportDeclaration {S} specifiers source.
Arguments ExportAllDeclaration {S} source exported.
Arguments ExportDefaultDeclaration {S} declaration.
Arguments VariableDeclaration {S} kind declarations.
Arguments TypeAlias {S} id typeParameters right.
Arguments DeclareFunction {S} id.
Arguments DeclareInterface {S} params.
Arguments DeclareClass {S} params.
Arguments InterfaceDeclaration {S} params.
Arguments DebuggerStatement {S}.

(** A statement node with the [comments] every ast-types node may carry. *)
Inductive Statement : Type :=
| mkStatement (node : StatementNode Statement) (comments : option (list Comment)).

Definition node (s : Statement) : StatementNode Statement :=
  match s with mkStatement n _ => n end.

Definition comments (s : Statement) : option (list Comment) :=
  match s with mkStatement _ c => c end.

(** [n.X.check(node)] *)
Definition DeclareFunction_check (s : Statement) : bool :=
  match node s with DeclareFunction _ => true | _ => false end.

Definition DeclareClass_check (s : Statement) : bool :=
  match node s with DeclareClass _ => true | _ => false end.

Definition DeclareInterface_check (s : Statement) : bool :=
  match node s with DeclareInterface _ => true | _ => false end.

Definition EmptyStatement_check (s : Statement) : bool :=
  match node s with EmptyStatement => true | _ => false end.

(** [n.Declaration.check]: the node types ast-types derives from
    [Declaration]. *)
Definition Declaration_check (s : Statement) : bool :=
  match node s with
  | ImportDeclaration _ _ | ExportAllDeclaration _ _
  | ExportNamedDeclaration _ _ _ | ExportDefaultDeclaration _
  | VariableDeclaration _ _ | TypeAlias _ _ _
  | DeclareInterface _ | DeclareClass _ | InterfaceDeclaration _
  | DeclareExportDeclaration _ _ => true
  | EmptyStatement | DeclareFunction _ | BlockStatement _
  | DebuggerStatement => false
  end.

Record File : Type := {
  programComments : list Comment;
  programBody : list Statement;
  fileName : string
}.

End flow.

(** ** Exceptions

    A JavaScript call either returns or throws.  What is thrown in the
    code embedded here is an [Error] the converter makes itself, with its
    message; the error of an ast-types builder that found a value not to
    match the field it was given for; or the [TypeError] of the engine for
    the call of something that is no function.  Of an error only the
    [message] is ever read, in the handler of [convertStatement]. *)

(** The field a builder rejected: the [name] of an [Identifier] or the
    [value] of a [StringLiteral], given [undefined]; or the [specifiers]
    of an [ExportNamedDeclaration], given the list kept here. *)
Inductive Mismatch : Type :=
| IdentifierName
| StringLiteralValue
| ExportNamedDeclarationSpecifiers (specifiers : list flow.ExportSpecifierNode).

Inductive Exception : Type :=
| Error (message : string)
| BuilderError (mismatch : Mismatch)
| TypeError (callee : string).

Inductive Outcome (A : Type) : Type :=
| Return (a : A)
| Throw (err : Exception).
Arguments Return {A} a.
Arguments Throw {A} err.

Definition bind {A B : Type} (m : Outcome A) (k : A -> Outcome B) : Outcome B :=
  match m with
  | Return a => k a
  | Throw err => Throw err
  end.

Notation "x <- m ;; k" := (bind m (fun x => k))
  (at level 61, m at next level, right associativity).

(** [try { body } catch (err) { handler(err) }] *)
Definition try_catch {A : Type} (body : Outcome A) (handler : Exception -> Outcome A)
  : Outcome A :=
  match body with
  | Return a => Return a
  | Throw err => handler err
  end.

(** [array.map(f)] for an [f] that may throw: the elements are visited in
    order and the first throw ends the call. *)
Definition mapM {A B : Type} (f : A -> Outcome B) : list A -> Outcome (list B) :=
  fix go (l : list A) : Outcome (list B) :=
    match l with
    | [] => Return []
    | x :: rest => y <- f x ;; ys <- go rest ;; Return (y :: ys)
    end.

(** [object.method(argument)], [callee] being the text of [object.method]:
    when the object has no such property the call throws the
    [TypeError] "[callee] is not a function". *)
Definition call {A B : Type} (callee : string) (method : option (A -> B))
  (argument : A) : Outcome B :=
  match method with
  | Some method => Return (method argument)
  | None => Throw (TypeError callee)
  end.

(** A loop body inside a function either goes on with the loop's state or
    leaves the enclosing function with [return r]. *)
Inductive Loop (R A : Type) : Type :=
| Leave (r : R)
| Next (a : A).
Arguments Leave {R A} r.
Arguments Next {R A} a.

(** ** The ast-types builders the converter calls

    A builder checks each field it is given against the type ast-types
    declares for it, and throws when one does not match.  The builders
    below are total where their Rocq types leave nothing to check; the
    three that the converter calls with a value its TypeScript types do
    not vouch for return an [Outcome]. *)

Module b.
Import flow.

Definition commentBlock (value : string) (leading trailing : bool) : Comment :=
  CommentBlock value leading trailing.

Definition identifier (name : string) : Identifier FlowType :=
  {| flow.name := name; typeAnnotation := None |}.

(** [b.identifier.from({ name, typeAnnotation: b.typeAnnotation(type) })] *)
Definition identifier_from (name : string) (type : FlowType) : Identifier FlowType :=
  {| flow.name := name; typeAnnotation := Some type |}.

(** The same two calls for a [name] that may be [undefined]: the field
    [name] of an [Identifier] is a [string]. *)
Definition identifierOf (name : option string) : Outcome (Identifier FlowType) :=
  match name with
  | Some name => Return (identifier name)
  | None => Throw (BuilderError IdentifierName)
  end.

Definition identifierOf_from (name : option string) (type : FlowType)
  : Outcome (Identifier FlowType) :=
  match name with
  | Some name => Return (identifier_from name type)
  | None => Throw (BuilderError IdentifierName)
  end.

(** [b.stringLiteral(value)] for a [value] that may be [undefined]; the
    literal built is kept as its value. *)
Definition stringLiteral (value : option string) : Outcome string :=
  match value with
  | Some value => Return value
  | None => Throw (BuilderError StringLiteralValue)
  end.

Definition qualifiedTypeIdentifier (qualification : TypeIdentifier FlowType)
  (id : Identifier FlowType) : TypeIdentifier FlowType :=
  QualifiedTypeIdentifier qualification id.

Definition typeParameterInstantiation (params : list FlowType) : list FlowType :=
  params.

Definition genericTypeAnnotation (id : TypeIdentifier FlowType)
  (typeParameters : option (list FlowType)) : FlowType :=
  GenericTypeAnnotation id typeParameters None.

Definition genericTypeAnnotation_from (r : Reference) : FlowType :=
  GenericTypeAnnotation (flow.id r) (flow.typeParameters r) None.

Definition objectTypeProperty (key : PropertyKey FlowType) (value : FlowType)
  (optional : bool) : ObjectTypeProperty FlowType :=
  {| flow.key := key; flow.value := value; flow.optional := optional |}.

Definition objectTypeIndexer (id : Identifier FlowType) (key value : FlowType)
  : ObjectTypeIndexer FlowType :=
  {| indexerId := id; indexerKey := key; indexerValue := value |}.

(** [b.objectTypeAnnotation(properties, indexers, callProperties)] *)
Definition objectTypeAnnotation (properties : list (ObjectTypeProperty FlowType))
  (indexers : list (ObjectTypeIndexer FlowType)) (callProperties : list FlowType)
  : FlowType :=
  ObjectTypeAnnotation properties indexers callProperties None false.

Definition functionTypeParam (name : option (Identifier FlowType))
  (typeAnnotation : FlowType) (optional : bool) : FunctionTypeParam FlowType :=
  {| paramName := name; paramTypeAnnotation := typeAnnotation;
     paramOptional := optional |}.

(** [b.typeParameter(name, null, bound, default)] *)
Definition typeParameter (name : string) (bound default : option FlowType)
  : TypeParameter FlowType :=
  {| typeParameterName := name; flow.bound := bound; flow.default := default |}.

Definition statement (node : StatementNode Statement) : Statement :=
  mkStatement node None.

(** [b.emptyStatement.from({ comments })] *)
Definition emptyStatement_from (comments : list Comment) : Statement :=
  mkStatement EmptyStatement (Some comments).

Definition importDeclaration (specifiers : list ImportSpecifierNode)
  (source : string) : Statement :=
  statement (ImportDeclaration specifiers source).

Definition exportAllDeclaration (source : string)
  (exported : option (Identifier FlowType)) : Statement :=
  statement (ExportAllDeclaration source exported).

Definition exportNamespaceSpecifier (exported : Identifier FlowType)
  : ExportSpecifierNode :=
  ExportNamespaceSpecifier exported.

(** [b.exportSpecifier.from({ local, exported, exportKind })]: [from]
    copies the fields ast-types declares for the node type and no other;
    an [ExportSpecifier] has no [exportKind], and the one given is
    dropped. *)
Definition exportSpecifier_from (local exported : Identifier FlowType)
  (exportKind : ImportExportKind) : ExportSpecifierNode :=
  ExportSpecifier local exported.

Definition isExportSpecifier (specifier : ExportSpecifierNode) : bool :=
  match specifier with
  | ExportSpecifier _ _ => true
  | ExportNamespaceSpecifier _ => false
  end.

(** [b.exportNamedDeclaration(declaration, specifiers = [], source = null)]:
    the field [specifiers] is a list of [ExportSpecifier] nodes, and a list
    with a node of another type in it is rejected. *)
Definition exportNamedDeclaration (declaration : option Statement)
  (specifiers : list ExportSpecifierNode) (source : option string)
  : Outcome Statement :=
  if forallb isExportSpecifier specifiers
  then Return (statement (ExportNamedDeclaration declaration specifiers source))
  else Throw (BuilderError (ExportNamedDeclarationSpecifiers specifiers)).

(** [b.exportNamedDeclaration.from({ declaration, specifiers, source,
    exportKind })]: an [ExportNamedDeclaration] has no [exportKind]
    either. *)
Definition exportNamedDeclaration_from (declaration : option Statement)
  (specifiers : list ExportSpecifierNode) (source : option string)
  (exportKind : ImportExportKind) : Outcome Statement :=
  exportNamedDeclaration declaration specifiers source.

Definition exportDefaultDeclaration (declaration : Identifier FlowType) : Statement :=
  statement (ExportDefaultDeclaration declaration).

(** [b.variableDeclaration(kind, declarators)], each declarator being
    [b.variableDeclarator(id)]. *)
Definition variableDeclaration (kind : string)
  (declarators : list (Identifier FlowType)) : Statement :=
  statement (VariableDeclaration kind declarators).

Definition typeAlias (id : Identifier FlowType)
  (typeParameters : option (list (TypeParameter FlowType)))
  (right : FlowType) : Statement :=
  statement (TypeAlias id typeParameters right).

Definition declareFunction (id : Identifier FlowType) : Statement :=
  statement (DeclareFunction id).

Definition declareInterface_from (params : InterfaceParams) : Statement :=
  statement (DeclareInterface params).

Definition declareClass_from (params : InterfaceParams) : Statement :=
  statement (DeclareClass params).

Definition interfaceDeclaration_from (params : InterfaceParams) : Statement :=
  statement (InterfaceDeclaration params).

Definition declareExportDeclaration (default : bool) (declaration : Statement)
  : Statement :=
  statement (DeclareExportDeclaration default declaration).

End b.

(** ** Outcomes of a macro (convert.ts) *)

Inductive ErrorKind : Type := unimplemented | error.

Record ErrorDescription : Type := {
  kind : ErrorKind;
  description : string
}.

(** [ErrorOr<T> = { kind: "success"; result: T } | ErrorDescription] *)
Inductive ErrorOr (T : Type) : Type :=
| success (result : T)
| failure (e : ErrorDescription).
Arguments success {T} result.
Arguments failure {T} e.

Definition mkError {T : Type} (description : string) : ErrorOr T :=
  failure {| kind := error; description := description |}.

Definition mkUnimplemented {T : Type} (description : string) : ErrorOr T :=
  failure {| kind := unimplemented; description := description |}.

Definition mkSuccess {T : Type} (result : T) : ErrorOr T := success result.

(** The capability object handed to a macro.  The interface of
    convert.ts lists [convertType], [errorType], [unimplementedType] and
    [crudeError], and the object [convertSourceFile] builds has these
    four; rewrite.ts also calls [converter.convertEntityNameAsType], a
    property that an object may therefore have or lack.  [crudeError] is
    left out: no macro of the rewrite tables calls it. *)
Module Converter.
Record Converter : Type := {
  convertType : ts.TypeNode -> Outcome flow.FlowType;
  errorType : ts.TypeNode -> string -> flow.FlowType;
  unimplementedType : ts.TypeNode -> string -> flow.FlowType;
  convertEntityNameAsType :
    option (ts.EntityName -> flow.TypeIdentifier flow.FlowType)
}.
End Converter.
Notation Converter := Converter.Converter.

(** ** The rewrite macros (rewrite.ts) *)

(** [ts.isLiteralTypeNode(t) && ts.isStringLiteral(t.literal)] *)
Definition isStringLiteralType (t : ts.TypeNode) : bool :=
  match t with
  | ts.LiteralType _ (ts.StringLiteral _) => true
  | _ => false
  end.

(** [((t as ts.LiteralTypeNode).literal as ts.StringLiteral).text], read
    only after [isStringLiteralType] has held. *)
Definition stringLiteralTypeText (t : ts.TypeNode) : string :=
  match t with
  | ts.LiteralType _ (ts.StringLiteral text) => text
  | _ => ""
  end.

Definition omittedKey (text : string) : flow.ObjectTypeProperty flow.FlowType :=
  b.objectTypeProperty (flow.StringLiteralKey _ text) flow.MixedTypeAnnotation false.

(** [typeArguments?.length ?? 0] *)
Definition argumentCount (typeArguments : option (list ts.TypeNode)) : nat :=
  match typeArguments with
  | None => 0
  | Some l => List.length l
  end.

(** The subtrahend is built first, the object type converted after it. *)
Definition convertOmit (converter : Converter) (typeName : ts.EntityName)
  (typeArguments : option (list ts.TypeNode)) : Outcome (ErrorOr flow.Reference) :=
  match typeArguments with
  | Some [objectType; keysType] =>
    subtrahend <-
      (let indexed :=
         key <- Converter.convertType converter keysType ;;
         Return (flow.ObjectTypeAnnotation []
                   [b.objectTypeIndexer (b.identifier "key") key
                      flow.MixedTypeAnnotation]
                   [] None true) in
       match keysType with
       | ts.LiteralType _ (ts.StringLiteral text) =>
         Return (flow.ObjectTypeAnnotation [omittedKey text] [] [] None true)
       | ts.UnionType _ types =>
         if forallb isStringLiteralType types
         then Return (flow.ObjectTypeAnnotation
                        (map (fun t => omittedKey (stringLiteralTypeText t)) types)
                        [] [] None true)
         else indexed
       | _ => indexed
       end) ;;
    object <- Converter.convertType converter objectType ;;
    Return (mkSuccess {|
      flow.id := flow.Id (b.identifier "$Diff");
      flow.typeParameters :=
        Some (b.typeParameterInstantiation [object; subtrahend])
    |})
  | _ =>
    Return (mkError ("bad Omit: " ++ showNat (argumentCount typeArguments)
                       ++ " arguments (expected 2)"))
  end.

(** [b.objectTypeAnnotation.from({ properties: [], inexact: true })] *)
Definition inexactEmptyObject : flow.FlowType :=
  flow.ObjectTypeAnnotation [] [] [] (Some true) false.

(** The arguments are converted first; [converter.convertEntityNameAsType]
    is called after them, for the [id] of the result. *)
Definition convertReactComponent (converter : Converter) (typeName : ts.EntityName)
  (typeArguments : option (list ts.TypeNode)) : Outcome (ErrorOr flow.Reference) :=
  let ok args :=
    id <- call "converter.convertEntityNameAsType"
            (Converter.convertEntityNameAsType converter) typeName ;;
    Return (mkSuccess {|
      flow.id := id;
      flow.typeParameters := Some (b.typeParameterInstantiation args)
    |}) in
  match typeArguments with
  | None | Some [] => ok [inexactEmptyObject]
  | Some [propsType] =>
    props <- Converter.convertType converter propsType ;;
    ok [props]
  | Some [propsType; stateType] =>
    props <- Converter.convertType converter propsType ;;
    state <- Converter.convertType converter stateType ;;
    ok [props; state]
  | Some _ =>
    Return (mkError ("bad React.Component: " ++ showNat (argumentCount typeArguments)
                       ++ " arguments (expected 0-2)"))
  end.

Definition convertReactElement (converter : Converter) (typeName : ts.EntityName)
  (typeArguments : option (list ts.TypeNode)) : Outcome (ErrorOr flow.Reference) :=
  let ok args :=
    Return (mkSuccess {|
      flow.id := flow.Id (b.identifier "React$Element");
      flow.typeParameters := Some (b.typeParameterInstantiation args)
    |}) in
  match typeArguments with
  | None | Some [] =>
    ok [b.genericTypeAnnotation (flow.Id (b.identifier "React$ElementType")) None]
  | Some [propsType] =>
    props <- Converter.convertType converter propsType ;;
    ok [b.genericTypeAnnotation (flow.Id (b.identifier "React$ComponentType"))
          (Some (b.typeParameterInstantiation [props]))]
  | Some [propsType; typeType] =>
    type <- Converter.convertType converter typeType ;;
    ok [type]
  | Some _ =>
    Return (mkError ("bad React.Element: " ++ showNat (argumentCount typeArguments)
                       ++ " arguments (expected 0-2)"))
  end.

Definition convertJsxElement : ErrorOr flow.Reference :=
  mkSuccess {|
    flow.id := flow.Id (b.identifier "React$Element");
    flow.typeParameters :=
      Some (b.typeParameterInstantiation [flow.AnyTypeAnnotation])
  |}.

(** The table stores each macro as a closure; the embedding names the
    closures of rewrite.ts and applies them through [convert]. *)
Inductive Macro : Type :=
| OmitMacro
| ReactComponentMacro
| ReactElementMacro
| JsxElementMacro.

Definition convert (macro : Macro) (converter : Converter)
  (typeName : ts.EntityName) (typeArguments : option (list ts.TypeNode))
  : Outcome (ErrorOr flow.Reference) :=
  match macro with
  | OmitMacro => convertOmit converter typeName typeArguments
  | ReactComponentMacro => convertReactComponent converter typeName typeArguments
  | ReactElementMacro => convertReactElement converter typeName typeArguments
  | JsxElementMacro => Return convertJsxElement
  end.

(** Modelled from the spec: mapper.ts is not among the sources.  What
    [mapper.getSymbol] answers is given the two shapes the converter
    switches on ([MapResultType.FixedName] with its [name],
    [MapResultType.TypeReferenceMacro] with its [convert]); the mapper
    itself is a variable of the converter. *)
Inductive MapResult : Type :=
| FixedName (name : string)
| TypeReferenceMacro (macro : Macro).

Record Mapper : Type := {
  getSymbol : ts.Symbol -> option MapResult
}.

(** The entries of the default-library table of rewrite.ts, in the
    mapper's vocabulary. *)
Definition defaultLibraryRewrites : list (string * MapResult) :=
  [("Readonly", FixedName "$ReadOnly");
   ("ReadonlyArray", FixedName "$ReadOnlyArray");
   ("Omit", TypeReferenceMacro OmitMacro)].

(** [Map.prototype.get] on a table built from [Object.entries]. *)
Fixpoint lookupRewrite (table : list (string * MapResult)) (name : string)
  : option MapResult :=
  match table with
  | [] => None
  | (key, rewrite) :: rest =>
    if String.eqb key name then Some rewrite else lookupRewrite rest name
  end.

(** ** The converter (convert.ts) *)

(** Modelled from the spec: [hasModifier] of tsutil.ts is not among the
    sources.  An earlier revision of the converter spells the same test
    in place, as [some(node.modifiers, (mod) => mod.kind === kind)]. *)
Definition hasModifier (node : ts.Statement) (kind : ts.SyntaxKind) : bool :=
  some (ts.modifiers (ts.statementNode node))
       (fun mod_ => ts.SyntaxKind.SyntaxKind_beq mod_ kind).

(** Modelled from the spec: [isEntityNameOrEntityNameExpression] of
    tsutil.ts is not among the sources.  A base of an [extends] clause
    "must be a plain or qualified name (not an arbitrary expression)": an
    identifier, or a property access on such a name by an identifier.  The
    answer carries the expression at the narrowed type. *)
Fixpoint isEntityNameOrEntityNameExpression (e : ts.Expression)
  : option ts.EntityName :=
  match e with
  | ts.IdentifierExpression id => Some (ts.EntityIdentifier id)
  | ts.PropertyAccessExpression e' (ts.MemberIdentifier name) =>
    match isEntityNameOrEntityNameExpression e' with
    | Some entity => Some (ts.PropertyAccessEntityNameExpression entity name)
    | None => None
    end
  | _ => None
  end.

Definition newline : string := String (ascii_of_nat 10) EmptyString.

Definition headerComment : string :=
  " @flow" ++ newline ++ " * @generated by TsFlower" ++ newline ++ " ".

Module Convert.

Section Closure.

(** [ts.SyntaxKind[kind]]: the name TypeScript's reverse mapping gives a
    kind. *)
Variable SyntaxKindName : ts.SyntaxKind -> string.

(** [err.message] for an error that ast-types or the engine has thrown:
    its wording is theirs. *)
Variable libraryMessage : Exception -> string.

Variable sourceFile : ts.SourceFile.
Variable mapper : Mapper.
Variable checker : ts.TypeChecker.

(** [(err as Error).message] *)
Definition errorMessage (err : Exception) : string :=
  match err with
  | Error message => message
  | BuilderError _ | TypeError _ => libraryMessage err
  end.

(** *** Placeholders *)

Definition quotedStatement (node : ts.Statement) : flow.Comment :=
  let text := slice (ts.sourceText sourceFile)
                (ts.pos (ts.span (ts.statementNode node)))
                (ts.end_ (ts.span (ts.statementNode node))) in
  b.commentBlock (" " ++ text ++ " ") false true.

Definition quotedInlineNode (node : ts.TypeNode) : flow.Comment :=
  let text := slice (ts.sourceText sourceFile)
                (ts.pos (ts.typeSpan node)) (ts.end_ (ts.typeSpan node)) in
  b.commentBlock (" " ++ text ++ " ") false true.

(** [{ ...outNode, comments: [...] }] *)
Definition warningStatement (outNode : flow.Statement) (node : ts.Statement)
  (description : string) : flow.Statement :=
  let msg := " tsflower-warning: " ++ description ++ " " in
  flow.mkStatement (flow.node outNode)
    (Some [b.commentBlock msg true false; quotedStatement node]).

Definition unimplementedStatement (node : ts.Statement) (description : string)
  : flow.Statement :=
  let msg := " tsflower-unimplemented: " ++ description ++ " " in
  b.emptyStatement_from [b.commentBlock msg true false; quotedStatement node].

Definition errorStatement (node : ts.Statement) (description : string)
  : flow.Statement :=
  let msg := " tsflower-error: " ++ description ++ " " in
  b.emptyStatement_from [b.commentBlock msg true false; quotedStatement node].

Definition unimplementedType (node : ts.TypeNode) (description : string)
  : flow.FlowType :=
  let msg := " tsflower-unimplemented: " ++ description ++ " " in
  flow.GenericTypeAnnotation (flow.Id (b.identifier "$FlowFixMe")) None
    (Some [quotedInlineNode node; b.commentBlock msg false true]).

Definition errorType (node : ts.TypeNode) (description : string)
  : flow.FlowType :=
  let msg := " tsflower-error: " ++ description ++ " " in
  flow.GenericTypeAnnotation (flow.Id (b.identifier "$FlowFixMe")) None
    (Some [quotedInlineNode node; b.commentBlock msg false true]).

(** *** Names *)

Definition convertIdentifier (node : ts.Identifier) (type : option flow.FlowType)
  : flow.Identifier flow.FlowType :=
  match type with
  | None => b.identifier (ts.text node)
  | Some type => b.identifier_from (ts.text node) type
  end.

(** [convertIdentifier(name as ts.Identifier, type)], for a [name] that
    need not be an identifier: what the function reads is [name.text],
    given here, which the node may lack. *)
Definition convertIdentifierCast (text : option string) (type : option flow.FlowType)
  : Outcome (flow.Identifier flow.FlowType) :=
  match type with
  | None => b.identifierOf text
  | Some type => b.identifierOf_from text type
  end.

Fixpoint convertEntityNameAsType (node : ts.EntityName)
  : flow.TypeIdentifier flow.FlowType :=
  match node with
  | ts.EntityIdentifier id => flow.Id (convertIdentifier id None)
  | ts.QualifiedName left_ right_ =>
    b.qualifiedTypeIdentifier (convertEntityNameAsType left_)
      (convertIdentifier right_ None)
  | ts.PropertyAccessEntityNameExpression expression name =>
    b.qualifiedTypeIdentifier (convertEntityNameAsType expression)
      (convertIdentifier name None)
  end.

(** *** Types

    The functions that call [convertType] back are first written over the
    recursive call, then tied together by the fixpoint. *)

Definition convertLiteralType (node : ts.TypeNode) (literal : ts.Literal)
  : flow.FlowType :=
  match literal with
  | ts.NullLiteral => flow.NullTypeAnnotation
  | ts.FalseLiteral => flow.BooleanLiteralTypeAnnotation false "false"
  | ts.TrueLiteral => flow.BooleanLiteralTypeAnnotation true "true"
  | ts.PrefixUnaryExpression operator operand =>
    match operator with
    | ts.SyntaxKind.MinusToken =>
      match operand with
      | ts.OperandNumericLiteral text =>
        flow.NumberLiteralTypeAnnotation (flow.Negate (flow.Number text)) text
      | ts.OtherOperand kind =>
        errorType node
          ("LiteralTypeNode with unary-minus of " ++ SyntaxKindName kind
             ++ "; expected NumericLiteral")
      end
    | _ =>
      errorType node
        ("LiteralTypeNode with PrefixUnaryExpression operator "
           ++ SyntaxKindName operator ++ "; expected MinusToken")
    end
  | ts.NumericLiteral text =>
    flow.NumberLiteralTypeAnnotation (flow.Number text) text
  | ts.StringLiteral text => flow.StringLiteralTypeAnnotation text text
  | ts.OtherLiteral kind =>
    errorType node ("unexpected literal-type kind: " ++ SyntaxKindName kind)
  end.

Section Knot.

Variable convertType : ts.TypeNode -> Outcome flow.FlowType.

(** The object [convertSourceFile] builds: it has no
    [convertEntityNameAsType]. *)
Definition converterOf : Converter := {|
  Converter.convertType := convertType;
  Converter.errorType := errorType;
  Converter.unimplementedType := unimplementedType;
  Converter.convertEntityNameAsType := None
|}.

(** [type ? convertType(type) : otherwise] *)
Definition convertTypeOr (type : option ts.TypeNode) (otherwise : flow.FlowType)
  : Outcome flow.FlowType :=
  match type with
  | Some type => convertType type
  | None => Return otherwise
  end.

Definition convertTypeArgumentsOver (typeName : ts.EntityName)
  (typeArguments : option (list ts.TypeNode))
  : Outcome (option (list flow.FlowType)) :=
  match typeArguments with
  | Some typeArguments =>
    converted <- mapM convertType typeArguments ;;
    Return (Some (b.typeParameterInstantiation converted))
  | None =>
    let symbol := ts.getSymbolAtLocation checker typeName in
    if some (match symbol with
             | Some symbol => ts.declarations symbol
             | None => None
             end)
            (fun decl => match ts.declTypeParameters decl with
                         | Some _ => true
                         | None => false
                         end)
    then Return (Some (b.typeParameterInstantiation []))
    else Return None
  end.

(** For each parameter the constraint is converted before the default. *)
Definition convertTypeParameterDeclarationOver
  (params : option (list (ts.TypeParameterDeclaration ts.TypeNode)))
  : Outcome (option (list (flow.TypeParameter flow.FlowType))) :=
  match params with
  | None => Return None
  | Some params =>
    converted <-
      mapM (fun param =>
              bound <- match ts.constraint param with
                       | None => Return None
                       | Some constraint =>
                         type <- convertType constraint ;; Return (Some type)
                       end ;;
              default <- match ts.default param with
                         | None => Return None
                         | Some default =>
                           type <- convertType default ;; Return (Some type)
                         end ;;
              Return (b.typeParameter (ts.text (ts.typeParameterName param))
                        bound default))
           params ;;
    Return (Some converted)
  end.

Definition convertTypeOperatorOver (node : ts.TypeNode)
  (operator : ts.SyntaxKind) (type : ts.TypeNode) : Outcome flow.FlowType :=
  match operator with
  | ts.SyntaxKind.KeyOfKeyword =>
    converted <- convertType type ;;
    Return (b.genericTypeAnnotation (flow.Id (b.identifier "$Keys"))
              (Some (b.typeParameterInstantiation [converted])))
  | ts.SyntaxKind.UniqueKeyword | ts.SyntaxKind.ReadonlyKeyword =>
    Return (unimplementedType node ("type operator: " ++ SyntaxKindName operator))
  | _ =>
    Return (errorType node ("unexpected type operator: " ++ SyntaxKindName operator))
  end.

Definition convertTypeReferenceLikeOver (typeName : ts.EntityName)
  (typeArguments : option (list ts.TypeNode)) : Outcome (ErrorOr flow.Reference) :=
  let symbol := ts.getSymbolAtLocation checker typeName in
  let mapped := match symbol with
                | Some symbol => getSymbol mapper symbol
                | None => None
                end in
  match mapped with
  | Some (FixedName name) =>
    typeParameters <- convertTypeArgumentsOver typeName typeArguments ;;
    Return (mkSuccess {|
      flow.id := flow.Id (b.identifier name);
      flow.typeParameters := typeParameters
    |})
  | Some (TypeReferenceMacro macro) =>
    convert macro converterOf typeName typeArguments
  | None =>
    typeParameters <- convertTypeArgumentsOver typeName typeArguments ;;
    Return (mkSuccess {|
      flow.id := convertEntityNameAsType typeName;
      flow.typeParameters := typeParameters
    |})
  end.

Definition convertTypeReferenceOver (node : ts.TypeNode)
  (typeName : ts.EntityName) (typeArguments : option (list ts.TypeNode))
  : Outcome flow.FlowType :=
  result <- convertTypeReferenceLikeOver typeName typeArguments ;;
  match result with
  | failure e =>
    match kind e with
    | error => Return (errorType node (description e))
    | unimplemented => Return (unimplementedType node (description e))
    end
  | success result => Return (b.genericTypeAnnotation_from result)
  end.

(** The loop over [node.parameters], with the parameters pushed so far;
    it stops at the first rest parameter. *)
Definition convertParametersOver
  : list (ts.ParameterDeclaration ts.TypeNode) ->
    list (flow.FunctionTypeParam flow.FlowType) ->
    Outcome (list (flow.FunctionTypeParam flow.FlowType)
             * option (flow.FunctionTypeParam flow.FlowType)) :=
  fix loop parameters params :=
    match parameters with
    | [] => Return (params, None)
    | param :: rest =>
      let name := match ts.parameterName param with
                  | ts.BindingIdentifier id => Some (convertIdentifier id None)
                  | ts.BindingPattern => None
                  end in
      if ts.dotDotDotToken param then
        type <- convertTypeOr (ts.parameterType param)
                  (flow.ArrayTypeAnnotation flow.AnyTypeAnnotation) ;;
        Return (params, Some (b.functionTypeParam name type false))
      else
        type <- convertTypeOr (ts.parameterType param) flow.AnyTypeAnnotation ;;
        loop rest
          (params ++ [b.functionTypeParam name type (ts.questionToken param)])%list
    end.

Definition convertFunctionTypeOver (node : ts.SignatureDeclaration ts.TypeNode)
  : Outcome flow.FlowType :=
  typeParams <- convertTypeParameterDeclarationOver (ts.typeParameters node) ;;
  converted <- convertParametersOver (ts.parameters node) [] ;;
  let '(params, restParam) := converted in
  resultType <- convertTypeOr (ts.type node) flow.AnyTypeAnnotation ;;
  Return (flow.FunctionTypeAnnotation params resultType restParam typeParams).

(** The loop over [node.members] of a type literal, with the properties
    pushed so far.  The name of a property signature goes to
    [convertIdentifier] through a cast, before the type is converted. *)
Definition convertTypeLiteralOver (node : ts.TypeNode)
  : list (ts.TypeElement ts.TypeNode) ->
    list (flow.ObjectTypeProperty flow.FlowType) -> Outcome flow.FlowType :=
  fix loop members properties :=
    match members with
    | [] =>
      let exact := true in
      Return (flow.ObjectTypeAnnotation properties [] [] (Some (negb exact)) exact)
    | member :: rest =>
      match member with
      | ts.TypeLiteralProperty name questionToken type =>
        key <- convertIdentifierCast (ts.propertyNameText name) None ;;
        value <- convertTypeOr type flow.AnyTypeAnnotation ;;
        loop rest
          (properties ++
           [b.objectTypeProperty (flow.IdentifierKey key) value questionToken])%list
      | ts.OtherTypeElement kind =>
        match kind with
        | ts.SyntaxKind.CallSignature | ts.SyntaxKind.ConstructSignature
        | ts.SyntaxKind.MethodSignature | ts.SyntaxKind.GetAccessor
        | ts.SyntaxKind.SetAccessor | ts.SyntaxKind.IndexSignature =>
          Return (unimplementedType node
                    ("TypeElement kind: " ++ SyntaxKindName kind))
        | _ =>
          Return (errorType node
                    ("unexpected TypeElement kind: " ++ SyntaxKindName kind))
        end
      end
    end.

End Knot.

Fixpoint convertType (node : ts.TypeNode) : Outcome flow.FlowType :=
  match node with
  | ts.OtherType _ kind =>
    match kind with
    | ts.SyntaxKind.UnknownKeyword => Return flow.MixedTypeAnnotation
    | ts.SyntaxKind.AnyKeyword => Return flow.AnyTypeAnnotation
    | ts.SyntaxKind.NeverKeyword => Return flow.EmptyTypeAnnotation
    | ts.SyntaxKind.UndefinedKeyword | ts.SyntaxKind.VoidKeyword =>
      Return flow.VoidTypeAnnotation
    | ts.SyntaxKind.BooleanKeyword => Return flow.BooleanTypeAnnotation
    | ts.SyntaxKind.NumberKeyword => Return flow.NumberTypeAnnotation
    | ts.SyntaxKind.StringKeyword => Return flow.StringTypeAnnotation
    | ts.SyntaxKind.ObjectKeyword => Return inexactEmptyObject
    | ts.SyntaxKind.ThisType => Return flow.ThisTypeAnnotation
    | ts.SyntaxKind.TypePredicate | ts.SyntaxKind.ConstructorType
    | ts.SyntaxKind.OptionalType | ts.SyntaxKind.RestType
    | ts.SyntaxKind.ConditionalType | ts.SyntaxKind.InferType
    | ts.SyntaxKind.MappedType | ts.SyntaxKind.TemplateLiteralType
    | ts.SyntaxKind.TemplateLiteralTypeSpan | ts.SyntaxKind.ImportType =>
      Return (unimplementedType node (SyntaxKindName kind))
    | _ => Return (errorType node ("unexpected type kind: " ++ SyntaxKindName kind))
    end
  | ts.ParenthesizedType _ type => convertType type
  | ts.LiteralType _ literal => Return (convertLiteralType node literal)
  | ts.TypeQuery _ exprName =>
    Return (flow.TypeofTypeAnnotation
              (b.genericTypeAnnotation (convertEntityNameAsType exprName) None))
  | ts.TypeOperator _ operator type =>
    convertTypeOperatorOver convertType node operator type
  | ts.TypeReference _ typeName typeArguments =>
    convertTypeReferenceOver convertType node typeName typeArguments
  | ts.UnionType _ types =>
    converted <- mapM convertType types ;;
    Return (flow.UnionTypeAnnotation converted)
  | ts.IntersectionType _ types =>
    converted <- mapM convertType types ;;
    Return (flow.IntersectionTypeAnnotation converted)
  | ts.IndexedAccessType _ objectType indexType =>
    object <- convertType objectType ;;
    index <- convertType indexType ;;
    Return (b.genericTypeAnnotation (flow.Id (b.identifier "$ElementType"))
              (Some (b.typeParameterInstantiation [object; index])))
  | ts.ArrayType _ elementType =>
    element <- convertType elementType ;;
    Return (flow.ArrayTypeAnnotation element)
  | ts.TupleType _ elements =>
    converted <- mapM convertType elements ;;
    Return (flow.TupleTypeAnnotation converted)
  | ts.FunctionType _ signature => convertFunctionTypeOver convertType signature
  | ts.TypeLiteral _ members => convertTypeLiteralOver convertType node members []
  end.

Definition converter : Converter := converterOf convertType.

Definition convertTypeArguments := convertTypeArgumentsOver convertType.
Definition convertTypeParameterDeclaration :=
  convertTypeParameterDeclarationOver convertType.
Definition convertTypeOperator := convertTypeOperatorOver convertType.
Definition convertTypeReferenceLike := convertTypeReferenceLikeOver convertType.
Definition convertFunctionType := convertFunctionTypeOver convertType.

(** [convertTypeReference(node)], for [node] a [TypeReferenceNode]; of any
    other node it reads no [typeName] and the embedding leaves it to
    [convertType]. *)
Definition convertTypeReference (node : ts.TypeNode) : Outcome flow.FlowType :=
  match node with
  | ts.TypeReference _ typeName typeArguments =>
    convertTypeReferenceOver convertType node typeName typeArguments
  | _ => convertType node
  end.

(** [convertTypeLiteral(node)], likewise for a [TypeLiteralNode]. *)
Definition convertTypeLiteral (node : ts.TypeNode) : Outcome flow.FlowType :=
  match node with
  | ts.TypeLiteral _ members => convertTypeLiteralOver convertType node members []
  | _ => convertType node
  end.

(** *** Statements *)

(** The specifiers are built first; the module specifier is read last,
    through its cast to [ts.StringLiteral]. *)
Definition convertImportDeclaration (node : ts.Statement)
  (importClause : option ts.ImportClause) (moduleSpecifier : ts.Expression)
  : Outcome flow.Statement :=
  match importClause with
  | None =>
    Return (unimplementedStatement node "ImportDeclaration with no import clause")
  | Some importClause =>
    match ts.importClauseModifiers importClause with
    | Some _ => Return (unimplementedStatement node "ImportDeclaration with modifiers")
    | None =>
      let defaults :=
        match ts.importClauseName importClause with
        | Some name => [flow.ImportDefaultSpecifier (convertIdentifier name None)]
        | None => []
        end in
      let named :=
        match ts.namedBindings importClause with
        | Some (ts.NamedImports elements) =>
          map (fun binding =>
                 let localSymbol :=
                   ts.getSymbolAtLocation checker
                     (ts.EntityIdentifier (ts.importName binding)) in
                 let importedSymbol :=
                   match localSymbol with
                   | Some localSymbol =>
                     ts.getImmediateAliasedSymbol checker localSymbol
                   | None => None
                   end in
                 let isTypeOnly :=
                   match importedSymbol with
                   | Some importedSymbol =>
                     N.eqb (N.land (ts.flags importedSymbol) ts.SymbolFlags_Value) 0
                   | None => false
                   end in
                 flow.ImportSpecifier
                   (convertIdentifier
                      (match ts.importPropertyName binding with
                       | Some propertyName => propertyName
                       | None => ts.importName binding
                       end) None)
                   (convertIdentifier (ts.importName binding) None)
                   (if isTypeOnly then flow.type else flow.value_))
              elements
        | Some (ts.NamespaceImport name) =>
          [flow.ImportNamespaceSpecifier (convertIdentifier name None)]
        | None => []
        end in
      source <- b.stringLiteral (ts.expressionText moduleSpecifier) ;;
      Return (b.importDeclaration (defaults ++ named)%list source)
    end
  end.

(** The module specifier is read, through its cast, before the export
    clause is looked at. *)
Definition convertExportDeclaration (node : ts.Statement) (isTypeOnly : bool)
  (exportClause : option ts.NamedExportBindings)
  (moduleSpecifier : option ts.Expression) (assertClause : bool)
  : Outcome flow.Statement :=
  if assertClause then
    Return (unimplementedStatement node "`export … from 'foo' assert { … }`")
  else
    source <- match moduleSpecifier with
              | None => Return None
              | Some moduleSpecifier =>
                literal <- b.stringLiteral (ts.expressionText moduleSpecifier) ;;
                Return (Some literal)
              end ;;
    match exportClause with
    | None =>
      match source with
      | None => Return (errorStatement node "expected `export *` to have `from`")
      | Some source => Return (b.exportAllDeclaration source None)
      end
    | Some (ts.NamespaceExport name) =>
      b.exportNamedDeclaration None
        [b.exportNamespaceSpecifier (convertIdentifier name None)] source
    | Some (ts.NamedExports elements) =>
      let specifiers :=
        map (fun spec =>
               b.exportSpecifier_from
                 (convertIdentifier
                    (match ts.exportPropertyName spec with
                     | Some propertyName => propertyName
                     | None => ts.exportName spec
                     end) None)
                 (convertIdentifier (ts.exportName spec) None)
                 (if ts.specIsTypeOnly spec then flow.type else flow.value_))
            elements in
      b.exportNamedDeclaration_from None specifiers source
        (if isTypeOnly then flow.type else flow.value_)
    end.

Definition convertExportAssignment (node : ts.Statement) (isExportEquals : bool)
  (expression : ts.Expression) : flow.Statement :=
  if isExportEquals then
    unimplementedStatement node (dquote ++ "export =" ++ dquote)
  else
    match expression with
    | ts.IdentifierExpression id =>
      b.exportDefaultDeclaration (convertIdentifier id None)
    | _ =>
      unimplementedStatement node
        (dquote ++ "export default" ++ dquote ++ " with non-identifier")
    end.

(** Modelled from the spec: [map] of util.ts is not among the sources; on
    the array of declarations it is [Array.prototype.map].  For each
    declaration the type is converted first, and the name then goes to
    [convertIdentifier] through a cast. *)
Definition convertVariableStatement (declarationList : ts.VariableDeclarationList)
  : Outcome flow.Statement :=
  let flags := N.land (ts.listFlags declarationList)
                 (N.lor ts.NodeFlags_Const ts.NodeFlags_Let) in
  declarators <-
    mapM (fun node =>
            type <- match ts.variableType node with
                    | Some type =>
                      converted <- convertType type ;; Return (Some converted)
                    | None => Return None
                    end ;;
            convertIdentifierCast (ts.bindingNameText (ts.variableName node)) type)
         (ts.listDeclarations declarationList) ;;
  Return (b.variableDeclaration
            (if N.eqb flags ts.NodeFlags_Const then "var"
             else if N.eqb flags ts.NodeFlags_Let then "let"
             else "var")
            declarators).

Definition convertTypeAliasDeclaration (name : ts.Identifier)
  (typeParameters : option (list (ts.TypeParameterDeclaration ts.TypeNode)))
  (type : ts.TypeNode) : Outcome flow.Statement :=
  typeParameters <- convertTypeParameterDeclaration typeParameters ;;
  right <- convertType type ;;
  Return (b.typeAlias (convertIdentifier name None) typeParameters right).

Definition convertFunctionDeclaration (node : ts.Statement)
  (name : option ts.Identifier) (signature : ts.SignatureDeclaration ts.TypeNode)
  : Outcome flow.Statement :=
  match name with
  | None =>
    if hasModifier node ts.SyntaxKind.ExportKeyword
       && hasModifier node ts.SyntaxKind.DefaultKeyword
    then Return (unimplementedStatement node
                   "`export default function` with no name")
    else Return (errorStatement node "expected name on FunctionDeclaration")
  | Some name =>
    type <- convertFunctionType signature ;;
    Return (b.declareFunction (convertIdentifier name (Some type)))
  end.

(** [convertName], local to [convertClassLikeDeclaration]: [null] for a
    private name, and an [Error] for a name of any other kind. *)
Definition convertName (node : ts.PropertyName)
  : Outcome (option (flow.PropertyKey flow.FlowType)) :=
  match node with
  | ts.PropertyIdentifier id =>
    Return (Some (flow.IdentifierKey (convertIdentifier id None)))
  | ts.PropertyPrivateIdentifier _ => Return None
  | _ =>
    Throw (Error ("unimplemented: PropertyName kind "
                    ++ SyntaxKindName (ts.propertyNameKind node)))
  end.

(** The inner loop over the bases of one [extends] clause. *)
Definition convertExtendsTypes (node : ts.Statement)
  : list ts.ExpressionWithTypeArguments -> list flow.InterfaceExtends ->
    Outcome (Loop flow.Statement (list flow.InterfaceExtends)) :=
  fix loop types extends_ :=
    match types with
    | [] => Return (Next extends_)
    | base :: rest =>
      match ts.expression base with
      | ts.LiteralExpression kind _ | ts.OtherExpression kind =>
        Return (Leave (errorStatement node
                         ("unexpected 'extends' base kind: "
                            ++ SyntaxKindName kind)))
      | expression =>
        match isEntityNameOrEntityNameExpression expression with
        | None => Return (Leave (errorStatement node "'extends' not an entity name"))
        | Some expression =>
          typeParameters <-
            convertTypeArguments expression (ts.baseTypeArguments base) ;;
          loop rest
            (extends_ ++
             [{| flow.extendsId := convertEntityNameAsType expression;
                 flow.extendsTypeParameters := typeParameters |}])%list
        end
      end
    end.

(** The loop over [node.heritageClauses ?? []]. *)
Definition convertHeritageClauses (node : ts.Statement)
  : list ts.HeritageClause -> list flow.InterfaceExtends ->
    Outcome (Loop flow.Statement (list flow.InterfaceExtends)) :=
  fix loop clauses extends_ :=
    match clauses with
    | [] => Return (Next extends_)
    | heritageClause :: rest =>
      match ts.token heritageClause with
      | ts.SyntaxKind.ExtendsKeyword =>
        types <- convertExtendsTypes node (ts.heritageTypes heritageClause) extends_ ;;
        match types with
        | Leave r => Return (Leave r)
        | Next extends_ => loop rest extends_
        end
      | _ => Return (Leave (unimplementedStatement node "class 'implements'"))
      end
    end.

(** The loop over [node.members], with the properties pushed so far. *)
Definition convertMembers (node : ts.Statement)
  : list ts.Member -> list (flow.ObjectTypeProperty flow.FlowType) ->
    Outcome (Loop flow.Statement (list (flow.ObjectTypeProperty flow.FlowType))) :=
  fix loop members properties :=
    match members with
    | [] => Return (Next properties)
    | member :: rest =>
      match member with
      | ts.Constructor signature =>
        type <- convertFunctionType signature ;;
        loop rest
          (properties ++
           [b.objectTypeProperty (flow.IdentifierKey (b.identifier "constructor"))
              type false])%list
      | ts.PropertySignature name questionToken type
      | ts.PropertyDeclaration name questionToken type =>
        key <- convertName name ;;
        match key with
        | None => loop rest properties
        | Some key =>
          value <- match type with
                   | Some type => convertType type
                   | None => Return flow.AnyTypeAnnotation
                   end ;;
          loop rest
            (properties ++ [b.objectTypeProperty key value questionToken])%list
        end
      | ts.MethodSignature name questionToken signature
      | ts.MethodDeclaration name questionToken signature =>
        key <- convertName name ;;
        match key with
        | None => loop rest properties
        | Some key =>
          value <- convertFunctionType signature ;;
          loop rest
            (properties ++ [b.objectTypeProperty key value questionToken])%list
        end
      | ts.OtherMember kind =>
        match kind with
        | ts.SyntaxKind.CallSignature | ts.SyntaxKind.ConstructSignature
        | ts.SyntaxKind.SemicolonClassElement | ts.SyntaxKind.GetAccessor
        | ts.SyntaxKind.SetAccessor | ts.SyntaxKind.IndexSignature
        | ts.SyntaxKind.ClassStaticBlockDeclaration =>
          Return (Leave (unimplementedStatement node
                           ("ClassElement|TypeElement kind: "
                              ++ SyntaxKindName kind)))
        | _ =>
          Return (Leave (errorStatement node
                           ("unexpected ClassElement|TypeElement kind: "
                              ++ SyntaxKindName kind)))
        end
      end
    end.

(** [ts.isInterfaceDeclaration(node)] *)
Definition isInterfaceDeclaration (node : ts.Statement) : bool :=
  match node with
  | ts.InterfaceDeclaration _ _ => true
  | _ => false
  end.

Definition convertClassLikeDeclaration (node : ts.Statement)
  (declaration : ts.ClassLikeDeclaration) : Outcome flow.Statement :=
  match ts.className declaration with
  | None =>
    if hasModifier node ts.SyntaxKind.ExportKeyword
       && hasModifier node ts.SyntaxKind.DefaultKeyword
    then Return (unimplementedStatement node "`export default class` with no name")
    else Return (errorStatement node "anonymous class not in `export default`")
  | Some name =>
    typeParameters <-
      convertTypeParameterDeclaration (ts.classTypeParameters declaration) ;;
    heritage <- convertHeritageClauses node
                  (match ts.heritageClauses declaration with
                   | Some clauses => clauses
                   | None => []
                   end) [] ;;
    match heritage with
    | Leave r => Return r
    | Next extends_ =>
      members <- convertMembers node (ts.members declaration) [] ;;
      match members with
      | Leave r => Return r
      | Next properties =>
        let indexers := [] in
        let callProperties := [] in
        let params := {|
          flow.interfaceId := convertIdentifier name None;
          flow.interfaceTypeParameters := typeParameters;
          flow.extends := extends_;
          flow.body := b.objectTypeAnnotation properties indexers callProperties
        |} in
        if isInterfaceDeclaration node
        then Return (b.declareInterface_from params)
        else Return (b.declareClass_from params)
      end
    end
  end.

Definition convertStatementExceptExport (node : ts.Statement)
  : Outcome flow.Statement :=
  match node with
  | ts.ImportDeclaration _ importClause moduleSpecifier =>
    convertImportDeclaration node importClause moduleSpecifier
  | ts.ExportDeclaration _ isTypeOnly exportClause moduleSpecifier assertClause =>
    convertExportDeclaration node isTypeOnly exportClause moduleSpecifier
      assertClause
  | ts.ExportAssignment _ isExportEquals expression =>
    Return (convertExportAssignment node isExportEquals expression)
  | ts.VariableStatement _ declarationList =>
    convertVariableStatement declarationList
  | ts.TypeAliasDeclaration _ name typeParameters type =>
    convertTypeAliasDeclaration name typeParameters type
  | ts.FunctionDeclaration _ name signature =>
    convertFunctionDeclaration node name signature
  | ts.ClassDeclaration _ declaration
  | ts.InterfaceDeclaration _ declaration =>
    convertClassLikeDeclaration node declaration
  | ts.OtherStatement _ kind =>
    match kind with
    | ts.SyntaxKind.Block | ts.SyntaxKind.EmptyStatement
    | ts.SyntaxKind.EnumDeclaration | ts.SyntaxKind.ModuleDeclaration
    | ts.SyntaxKind.NamespaceExportDeclaration
    | ts.SyntaxKind.ImportEqualsDeclaration
    | ts.SyntaxKind.MissingDeclaration =>
      (* These statements might actually appear in .d.ts files. *)
      Return (unimplementedStatement node (SyntaxKindName kind))
    | ts.SyntaxKind.ExpressionStatement | ts.SyntaxKind.IfStatement
    | ts.SyntaxKind.DoStatement | ts.SyntaxKind.WhileStatement
    | ts.SyntaxKind.ForStatement | ts.SyntaxKind.ForInStatement
    | ts.SyntaxKind.ForOfStatement | ts.SyntaxKind.ContinueStatement
    | ts.SyntaxKind.BreakStatement | ts.SyntaxKind.ReturnStatement
    | ts.SyntaxKind.WithStatement | ts.SyntaxKind.SwitchStatement
    | ts.SyntaxKind.LabeledStatement | ts.SyntaxKind.ThrowStatement
    | ts.SyntaxKind.TryStatement | ts.SyntaxKind.DebuggerStatement
    | ts.SyntaxKind.CaseBlock =>
      (* These shouldn't appear in .d.ts files. *)
      Return (unimplementedStatement node (SyntaxKindName kind))
    | _ =>
      (* Pieces of statements, and the default case. *)
      Return (errorStatement node
                ("unexpected statement kind: " ++ SyntaxKindName kind))
    end
  end.

Definition modifyStatementAsExport (inner : flow.Statement) (node : ts.Statement)
  : Outcome flow.Statement :=
  match flow.node inner with
  | flow.DeclareFunction _ | flow.DeclareClass _ =>
    Return (b.declareExportDeclaration
              (hasModifier node ts.SyntaxKind.DefaultKeyword) inner)
  | flow.DeclareInterface params =>
    b.exportNamedDeclaration (Some (b.interfaceDeclaration_from params)) [] None
  | _ =>
    if flow.Declaration_check inner then
      b.exportNamedDeclaration (Some inner) [] None
    else if flow.EmptyStatement_check inner then
      Return inner
    else
      Return (warningStatement inner node
                ("statement has " ++ dquote ++ "export" ++ dquote
                   ++ ", but conversion not a declaration"))
  end.

(** The body of the [try] block of [convertStatement]. *)
Definition convertStatementBody (node : ts.Statement) : Outcome flow.Statement :=
  inner <- convertStatementExceptExport node ;;
  if hasModifier node ts.SyntaxKind.ExportKeyword
  then modifyStatementAsExport inner node
  else Return inner.

Definition convertStatement (node : ts.Statement) : Outcome flow.Statement :=
  try_catch (convertStatementBody node)
    (fun err =>
       Return (errorStatement node ("internal error: " ++ errorMessage err))).

(** The statement [convertStatement] answers with: what the [try] block
    returned, or the invalid placeholder of the handler. *)
Definition convertedStatement (node : ts.Statement) : flow.Statement :=
  match convertStatementBody node with
  | Return s => s
  | Throw err => errorStatement node ("internal error: " ++ errorMessage err)
  end.

(** [b.commentBlock(headerComment)] takes the defaults of ast-types for
    [leading] and [trailing]. *)
Definition convertSourceFile : Outcome flow.File :=
  body <- mapM convertStatement (ts.statements sourceFile) ;;
  Return {|
    flow.programComments := [b.commentBlock headerComment true false];
    flow.programBody := body;
    flow.fileName := ts.fileName sourceFile
  |}.

End Closure.

End Convert.

(** ** Data for the examples *)

(** The names [ts.SyntaxKind[kind]] gives the kinds the converter names,
    in TypeScript 4.6.  Where the enumeration gives one value several
    names the reverse mapping answers with the last of them, a marker
    such as [FirstStatement]: so for [NumericLiteral], [AbstractKeyword],
    [ImplementsKeyword], [QualifiedName], [TypePredicate], [ImportType],
    [VariableStatement] and [DebuggerStatement].  No example reads the
    name of a kind of the rest of the enumeration.  (The theorems below
    hold for every table.) *)
Definition syntaxKindName (kind : ts.SyntaxKind) : string :=
  match kind with
  | ts.SyntaxKind.NumericLiteral => "FirstLiteralToken"
  | ts.SyntaxKind.BigIntLiteral => "BigIntLiteral"
  | ts.SyntaxKind.StringLiteral => "StringLiteral"
  | ts.SyntaxKind.MinusToken => "MinusToken"
  | ts.SyntaxKind.PlusToken => "PlusToken"
  | ts.SyntaxKind.TildeToken => "TildeToken"
  | ts.SyntaxKind.ExclamationToken => "ExclamationToken"
  | ts.SyntaxKind.ExportKeyword => "ExportKeyword"
  | ts.SyntaxKind.DefaultKeyword => "DefaultKeyword"
  | ts.SyntaxKind.DeclareKeyword => "DeclareKeyword"
  | ts.SyntaxKind.AbstractKeyword => "FirstContextualKeyword"
  | ts.SyntaxKind.ExtendsKeyword => "ExtendsKeyword"
  | ts.SyntaxKind.ImplementsKeyword => "FirstFutureReservedWord"
  | ts.SyntaxKind.NullKeyword => "NullKeyword"
  | ts.SyntaxKind.TrueKeyword => "TrueKeyword"
  | ts.SyntaxKind.FalseKeyword => "FalseKeyword"
  | ts.SyntaxKind.KeyOfKeyword => "KeyOfKeyword"
  | ts.SyntaxKind.UniqueKeyword => "UniqueKeyword"
  | ts.SyntaxKind.ReadonlyKeyword => "ReadonlyKeyword"
  | ts.SyntaxKind.UnknownKeyword => "UnknownKeyword"
  | ts.SyntaxKind.AnyKeyword => "AnyKeyword"
  | ts.SyntaxKind.NeverKeyword => "NeverKeyword"
  | ts.SyntaxKind.UndefinedKeyword => "UndefinedKeyword"
  | ts.SyntaxKind.VoidKeyword => "VoidKeyword"
  | ts.SyntaxKind.BooleanKeyword => "BooleanKeyword"
  | ts.SyntaxKind.NumberKeyword => "NumberKeyword"
  | ts.SyntaxKind.StringKeyword => "StringKeyword"
  | ts.SyntaxKind.ObjectKeyword => "ObjectKeyword"
  | ts.SyntaxKind.SymbolKeyword => "SymbolKeyword"
  | ts.SyntaxKind.BigIntKeyword => "BigIntKeyword"
  | ts.SyntaxKind.Identifier => "Identifier"
  | ts.SyntaxKind.PrivateIdentifier => "PrivateIdentifier"
  | ts.SyntaxKind.QualifiedName => "FirstNode"
  | ts.SyntaxKind.ComputedPropertyName => "ComputedPropertyName"
  | ts.SyntaxKind.PropertySignature => "PropertySignature"
  | ts.SyntaxKind.PropertyDeclaration => "PropertyDeclaration"
  | ts.SyntaxKind.MethodSignature => "MethodSignature"
  | ts.SyntaxKind.MethodDeclaration => "MethodDeclaration"
  | ts.SyntaxKind.ClassStaticBlockDeclaration => "ClassStaticBlockDeclaration"
  | ts.SyntaxKind.Constructor => "Constructor"
  | ts.SyntaxKind.GetAccessor => "GetAccessor"
  | ts.SyntaxKind.SetAccessor => "SetAccessor"
  | ts.SyntaxKind.CallSignature => "CallSignature"
  | ts.SyntaxKind.ConstructSignature => "ConstructSignature"
  | ts.SyntaxKind.IndexSignature => "IndexSignature"
  | ts.SyntaxKind.SemicolonClassElement => "SemicolonClassElement"
  | ts.SyntaxKind.TypePredicate => "FirstTypeNode"
  | ts.SyntaxKind.TypeReference => "TypeReference"
  | ts.SyntaxKind.FunctionType => "FunctionType"
  | ts.SyntaxKind.ConstructorType => "ConstructorType"
  | ts.SyntaxKind.TypeQuery => "TypeQuery"
  | ts.SyntaxKind.TypeLiteral => "TypeLiteral"
  | ts.SyntaxKind.ArrayType => "ArrayType"
  | ts.SyntaxKind.TupleType => "TupleType"
  | ts.SyntaxKind.OptionalType => "OptionalType"
  | ts.SyntaxKind.RestType => "RestType"
  | ts.SyntaxKind.UnionType => "UnionType"
  | ts.SyntaxKind.IntersectionType => "IntersectionType"
  | ts.SyntaxKind.ConditionalType => "ConditionalType"
  | ts.SyntaxKind.InferType => "InferType"
  | ts.SyntaxKind.ParenthesizedType => "ParenthesizedType"
  | ts.SyntaxKind.ThisType => "ThisType"
  | ts.SyntaxKind.TypeOperator => "TypeOperator"
  | ts.SyntaxKind.IndexedAccessType => "IndexedAccessType"
  | ts.SyntaxKind.MappedType => "MappedType"
  | ts.SyntaxKind.LiteralType => "LiteralType"
  | ts.SyntaxKind.NamedTupleMember => "NamedTupleMember"
  | ts.SyntaxKind.TemplateLiteralType => "TemplateLiteralType"
  | ts.SyntaxKind.TemplateLiteralTypeSpan => "TemplateLiteralTypeSpan"
  | ts.SyntaxKind.ImportType => "LastTypeNode"
  | ts.SyntaxKind.PropertyAccessExpression => "PropertyAccessExpression"
  | ts.SyntaxKind.CallExpression => "CallExpression"
  | ts.SyntaxKind.PrefixUnaryExpression => "PrefixUnaryExpression"
  | ts.SyntaxKind.ExpressionWithTypeArguments => "ExpressionWithTypeArguments"
  | ts.SyntaxKind.Block => "Block"
  | ts.SyntaxKind.EmptyStatement => "EmptyStatement"
  | ts.SyntaxKind.VariableStatement => "FirstStatement"
  | ts.SyntaxKind.ExpressionStatement => "ExpressionStatement"
  | ts.SyntaxKind.IfStatement => "IfStatement"
  | ts.SyntaxKind.DoStatement => "DoStatement"
  | ts.SyntaxKind.WhileStatement => "WhileStatement"
  | ts.SyntaxKind.ForStatement => "ForStatement"
  | ts.SyntaxKind.ForInStatement => "ForInStatement"
  | ts.SyntaxKind.ForOfStatement => "ForOfStatement"
  | ts.SyntaxKind.ContinueStatement => "ContinueStatement"
  | ts.SyntaxKind.BreakStatement => "BreakStatement"
  | ts.SyntaxKind.ReturnStatement => "ReturnStatement"
  | ts.SyntaxKind.WithStatement => "WithStatement"
  | ts.SyntaxKind.SwitchStatement => "SwitchStatement"
  | ts.SyntaxKind.LabeledStatement => "LabeledStatement"
  | ts.SyntaxKind.ThrowStatement => "ThrowStatement"
  | ts.SyntaxKind.TryStatement => "TryStatement"
  | ts.SyntaxKind.DebuggerStatement => "LastStatement"
  | ts.SyntaxKind.VariableDeclaration => "VariableDeclaration"
  | ts.SyntaxKind.VariableDeclarationList => "VariableDeclarationList"
  | ts.SyntaxKind.FunctionDeclaration => "FunctionDeclaration"
  | ts.SyntaxKind.ClassDeclaration => "ClassDeclaration"
  | ts.SyntaxKind.InterfaceDeclaration => "InterfaceDeclaration"
  | ts.SyntaxKind.TypeAliasDeclaration => "TypeAliasDeclaration"
  | ts.SyntaxKind.EnumDeclaration => "EnumDeclaration"
  | ts.SyntaxKind.ModuleDeclaration => "ModuleDeclaration"
  | ts.SyntaxKind.ModuleBlock => "ModuleBlock"
  | ts.SyntaxKind.CaseBlock => "CaseBlock"
  | ts.SyntaxKind.NamespaceExportDeclaration => "NamespaceExportDeclaration"
  | ts.SyntaxKind.ImportEqualsDeclaration => "ImportEqualsDeclaration"
  | ts.SyntaxKind.ImportDeclaration => "ImportDeclaration"
  | ts.SyntaxKind.ImportClause => "ImportClause"
  | ts.SyntaxKind.NamespaceImport => "NamespaceImport"
  | ts.SyntaxKind.NamedImports => "NamedImports"
  | ts.SyntaxKind.ImportSpecifier => "ImportSpecifier"
  | ts.SyntaxKind.ExportAssignment => "ExportAssignment"
  | ts.SyntaxKind.ExportDeclaration => "ExportDeclaration"
  | ts.SyntaxKind.NamedExports => "NamedExports"
  | ts.SyntaxKind.NamespaceExport => "NamespaceExport"
  | ts.SyntaxKind.ExportSpecifier => "ExportSpecifier"
  | ts.SyntaxKind.MissingDeclaration => "MissingDeclaration"
  | ts.SyntaxKind.Other _ => ""
  end.


(** The messages of the errors that are not the converter's own: the
    [TypeError] as V8 words it, the two mismatches on [undefined] as
    ast-types 0.15 words them.  For a rejected list of specifiers
    ast-types prints the list field by field; that text is not
    reproduced, and no example reads it. *)
Definition exampleLibraryMessage (err : Exception) : string :=
  match err with
  | Error message => message
  | BuilderError IdentifierName =>
    "undefined does not match field " ++ dquote ++ "name" ++ dquote
      ++ ": string of type Identifier"
  | BuilderError StringLiteralValue =>
    "undefined does not match field " ++ dquote ++ "value" ++ dquote
      ++ ": string of type StringLiteral"
  | BuilderError (ExportNamedDeclarationSpecifiers _) => ""
  | TypeError callee => callee ++ " is not a function"
  end.

Definition spanOf (pos end_ : nat) : ts.Span := {| ts.pos := pos; ts.end_ := end_ |}.

Definition ident (text : string) : ts.Identifier :=
  {| ts.identifierSpan := spanOf 0 0; ts.text := text |}.

Definition plainNode (pos end_ : nat) : ts.Node :=
  {| ts.span := spanOf pos end_; ts.modifiers := None |}.

Definition exportedNode (pos end_ : nat) : ts.Node :=
  {| ts.span := spanOf pos end_;
     ts.modifiers := Some [ts.SyntaxKind.ExportKeyword; ts.SyntaxKind.DeclareKeyword] |}.

(** The module specifier ['text']. *)
Definition moduleNamed (text : string) : ts.Expression :=
  ts.LiteralExpression ts.SyntaxKind.StringLiteral text.

(** The last identifier of an entity name. *)
Definition lastName (name : ts.EntityName) : string :=
  match name with
  | ts.EntityIdentifier id => ts.text id
  | ts.QualifiedName _ id => ts.text id
  | ts.PropertyAccessEntityNameExpression _ id => ts.text id
  end.

Definition genericDeclaration (typeParameters : list string) : ts.Declaration :=
  {| ts.declTypeParameters := Some typeParameters |}.

Definition plainDeclaration : ts.Declaration :=
  {| ts.declTypeParameters := None |}.

Definition symbolOf (id : nat) (declarations : list ts.Declaration) : ts.Symbol :=
  {| ts.symbolId := id; ts.flags := 0; ts.declarations := Some declarations |}.

(** A checker that knows [Readonly<T>], [Omit<T, K>],
    [Component<P = {}, S = {}>], [Box<T = any>], [Point],
    [ReactElement<P = any, T = ...>] and the interface [Element] of the
    namespace [JSX], which has no type parameters. *)
Definition exampleChecker : ts.TypeChecker := {|
  ts.getSymbolAtLocation := fun name =>
    let text := lastName name in
    if String.eqb text "Readonly" then Some (symbolOf 1 [genericDeclaration ["T"]])
    else if String.eqb text "Omit" then Some (symbolOf 2 [genericDeclaration ["T"; "K"]])
    else if String.eqb text "Component" then Some (symbolOf 3 [genericDeclaration ["P"; "S"]])
    else if String.eqb text "Box" then Some (symbolOf 4 [genericDeclaration ["T"]])
    else if String.eqb text "Point" then Some (symbolOf 5 [plainDeclaration])
    else if String.eqb text "ReactElement"
         then Some (symbolOf 6 [genericDeclaration ["P"; "T"]])
    else if String.eqb text "Element" then Some (symbolOf 7 [plainDeclaration])
    else None;
  ts.getImmediateAliasedSymbol := fun _ => None
|}.

(** A mapper with the default-library rewrites, the [react] rewrites of
    [Component] and [ReactElement] and the global rewrite of
    [JSX.Element]. *)
Definition exampleMapper : Mapper := {|
  getSymbol := fun symbol =>
    match ts.symbolId symbol with
    | 1 => lookupRewrite defaultLibraryRewrites "Readonly"
    | 2 => lookupRewrite defaultLibraryRewrites "Omit"
    | 3 => Some (TypeReferenceMacro ReactComponentMacro)
    | 6 => Some (TypeReferenceMacro ReactElementMacro)
    | 7 => Some (TypeReferenceMacro JsxElementMacro)
    | _ => None
    end
|}.

Definition fileOf (text : string) (statements : list ts.Statement) : ts.SourceFile :=
  {| ts.sourceText := text; ts.fileName := "example.d.ts"; ts.statements := statements |}.

Definition keyword (kind : ts.SyntaxKind) : ts.TypeNode := ts.OtherType (spanOf 0 0) kind.

Definition parameter (rest : bool) (name : string) (type : option ts.TypeNode)
  : ts.ParameterDeclaration ts.TypeNode :=
  {| ts.dotDotDotToken := rest; ts.parameterName := ts.BindingIdentifier (ident name);
     ts.questionToken := false; ts.parameterType := type |}.

Definition signatureOf (parameters : list (ts.ParameterDeclaration ts.TypeNode))
  (type : option ts.TypeNode) : ts.SignatureDeclaration ts.TypeNode :=
  {| ts.typeParameters := None; ts.parameters := parameters; ts.type := type |}.

(** [  x = 1;] as the second statement of a file. *)
Definition expressionFile : ts.SourceFile :=
  fileOf "type A = B;  x = 1;"
    [ts.TypeAliasDeclaration (plainNode 0 11) (ident "A") None
       (ts.TypeReference (spanOf 8 10) (ts.EntityIdentifier (ident "B")) None);
     ts.OtherStatement (plainNode 11 19) ts.SyntaxKind.ExpressionStatement].

Definition expressionStatement : ts.Statement :=
  ts.OtherStatement (plainNode 11 19) ts.SyntaxKind.ExpressionStatement.

(** [interface I { ['a']: number }] *)
Definition computedInterface : ts.Statement :=
  ts.InterfaceDeclaration (plainNode 0 29)
    {| ts.className := Some (ident "I");
       ts.classTypeParameters := None;
       ts.heritageClauses := None;
       ts.members := [ts.PropertySignature ts.PropertyComputedName false
                        (Some (keyword ts.SyntaxKind.NumberKeyword))] |}.

Definition computedFile : ts.SourceFile :=
  fileOf "interface I { ['a']: number }" [computedInterface].

(** [interface I { (): void; 'a': number }] *)
Definition callableInterface : ts.Statement :=
  ts.InterfaceDeclaration (plainNode 0 37)
    {| ts.className := Some (ident "I");
       ts.classTypeParameters := None;
       ts.heritageClauses := None;
       ts.members := [ts.OtherMember ts.SyntaxKind.CallSignature;
                      ts.PropertySignature (ts.PropertyStringLiteral "a") false
                        (Some (keyword ts.SyntaxKind.NumberKeyword))] |}.

Definition callableFile : ts.SourceFile :=
  fileOf "interface I { (): void; 'a': number }" [callableInterface].

(** [interface I { a: { ['b']: string }; 'c': number }] *)
Definition nestedInterface : ts.Statement :=
  ts.InterfaceDeclaration (plainNode 0 49)
    {| ts.className := Some (ident "I");
       ts.classTypeParameters := None;
       ts.heritageClauses := None;
       ts.members :=
         [ts.PropertySignature (ts.PropertyIdentifier (ident "a")) false
            (Some (ts.TypeLiteral (spanOf 16 34)
                     [ts.TypeLiteralProperty ts.PropertyComputedName false
                        (Some (ts.OtherType (spanOf 24 32)
                                 ts.SyntaxKind.StringKeyword))]));
          ts.PropertySignature (ts.PropertyStringLiteral "c") false
            (Some (ts.OtherType (spanOf 39 47) ts.SyntaxKind.NumberKeyword))] |}.

Definition nestedFile : ts.SourceFile :=
  fileOf "interface I { a: { ['b']: string }; 'c': number }" [nestedInterface].

(** [import 'foo';] *)
Definition bareImport : ts.Statement :=
  ts.ImportDeclaration (plainNode 0 13) None (moduleNamed "foo").

Definition bareImportFile : ts.SourceFile := fileOf "import 'foo';" [bareImport].

(** [export type A = B;] *)
Definition exportedAlias : ts.Statement :=
  ts.TypeAliasDeclaration (exportedNode 0 18) (ident "A") None
    (ts.TypeReference (spanOf 16 17) (ts.EntityIdentifier (ident "B")) None).

Definition exportedAliasFile : ts.SourceFile :=
  fileOf "export type A = B;" [exportedAlias].

Definition numberType (pos end_ : nat) : ts.TypeNode :=
  ts.OtherType (spanOf pos end_) ts.SyntaxKind.NumberKeyword.

(** [type R = Readonly<number>; type O = Omit<number>;
     type C = React.Component; type X = Box; type P = Point;
     type E = React.ReactElement; type J = JSX.Element;] *)
Definition referencesText : string :=
  "type R = Readonly<number>; type O = Omit<number>; type C = React.Component; type X = Box; type P = Point; type E = React.ReactElement; type J = JSX.Element;".

Definition referencesFile : ts.SourceFile := fileOf referencesText [].

Definition readonlyName : ts.EntityName := ts.EntityIdentifier (ident "Readonly").

Definition omitName : ts.EntityName := ts.EntityIdentifier (ident "Omit").

Definition componentName : ts.EntityName :=
  ts.QualifiedName (ts.EntityIdentifier (ident "React")) (ident "Component").

Definition boxName : ts.EntityName := ts.EntityIdentifier (ident "Box").

Definition reactElementName : ts.EntityName :=
  ts.QualifiedName (ts.EntityIdentifier (ident "React")) (ident "ReactElement").

Definition jsxElementName : ts.EntityName :=
  ts.QualifiedName (ts.EntityIdentifier (ident "JSX")) (ident "Element").

Definition omitReference : ts.TypeNode :=
  ts.TypeReference (spanOf 35 48) omitName (Some [numberType 41 47]).

Definition componentReference : ts.TypeNode :=
  ts.TypeReference (spanOf 58 74) componentName None.

Definition reactElementReference : ts.TypeNode :=
  ts.TypeReference (spanOf 114 133) reactElementName None.

Definition jsxElementReference : ts.TypeNode :=
  ts.TypeReference (spanOf 143 155) jsxElementName None.

(** The signature of [declare function f(...xs): void;] *)
Definition restSignature : ts.SignatureDeclaration ts.TypeNode :=
  signatureOf [parameter true "xs" None] (Some (keyword ts.SyntaxKind.VoidKeyword)).

(** The signature of [declare function g(a, b?: number, ...xs);] *)
Definition mixedSignature : ts.SignatureDeclaration ts.TypeNode :=
  signatureOf
    [parameter false "a" None;
     {| ts.dotDotDotToken := false;
        ts.parameterName := ts.BindingIdentifier (ident "b");
        ts.questionToken := true;
        ts.parameterType := Some (keyword ts.SyntaxKind.NumberKeyword) |};
     parameter true "xs" None]
    None.

(** The kinds of executable statement [convertStatementExceptExport]
    groups under "these shouldn't appear in .d.ts files". *)
Definition executableStatementKinds : list ts.SyntaxKind :=
  [ts.SyntaxKind.ExpressionStatement; ts.SyntaxKind.IfStatement;
   ts.SyntaxKind.DoStatement; ts.SyntaxKind.WhileStatement;
   ts.SyntaxKind.ForStatement; ts.SyntaxKind.ForInStatement;
   ts.SyntaxKind.ForOfStatement; ts.SyntaxKind.ContinueStatement;
   ts.SyntaxKind.BreakStatement; ts.SyntaxKind.ReturnStatement;
   ts.SyntaxKind.WithStatement; ts.SyntaxKind.SwitchStatement;
   ts.SyntaxKind.LabeledStatement; ts.SyntaxKind.ThrowStatement;
   ts.SyntaxKind.TryStatement; ts.SyntaxKind.DebuggerStatement;
   ts.SyntaxKind.CaseBlock].

(** The source span of a statement: the slice of the file text from the
    statement's [pos] to its [end]. *)
Definition sourceSpan (sourceFile : ts.SourceFile) (node : ts.Statement) : string :=
  slice (ts.sourceText sourceFile)
    (ts.pos (ts.span (ts.statementNode node)))
    (ts.end_ (ts.span (ts.statementNode node))).

(** An invalid placeholder statement: an empty statement whose comments
    are a [tsflower-error] diagnostic and the quotation of the source. *)
Definition invalidPlaceholder (sourceFile : ts.SourceFile) (node : ts.Statement)
  (reason : string) : flow.Statement :=
  flow.mkStatement flow.EmptyStatement
    (Some [flow.CommentBlock (" tsflower-error: " ++ reason ++ " ") true false;
           flow.CommentBlock (" " ++ sourceSpan sourceFile node ++ " ") false true]).

(** An unimplemented placeholder statement: the same with a
    [tsflower-unimplemented] diagnostic. *)
Definition unimplementedPlaceholder (sourceFile : ts.SourceFile)
  (node : ts.Statement) (reason : string) : flow.Statement :=
  flow.mkStatement flow.EmptyStatement
    (Some [flow.CommentBlock (" tsflower-unimplemented: " ++ reason ++ " ") true false;
           flow.CommentBlock (" " ++ sourceSpan sourceFile node ++ " ") false true]).

(** Whether some declaration of the symbol [typeName] resolves to has a
    list of type parameters (no symbol, or no declarations: no). *)
Definition declaresTypeParameters (checker : ts.TypeChecker)
  (typeName : ts.EntityName) : bool :=
  some (match ts.getSymbolAtLocation checker typeName with
        | Some symbol => ts.declarations symbol
        | None => None
        end)
       (fun decl => match ts.declTypeParameters decl with
                    | Some _ => true
                    | None => false
                    end).

(** Whether the mapper rewrites the symbol of [typeName] by a macro. *)
Definition rewrittenByMacro (mapper : Mapper) (checker : ts.TypeChecker)
  (typeName : ts.EntityName) : bool :=
  match ts.getSymbolAtLocation checker typeName with
  | Some symbol =>
    match getSymbol mapper symbol with
    | Some (TypeReferenceMacro _) => true
    | _ => false
    end
  | None => false
  end.

(** The quotation of a type node in a placeholder type. *)
Definition typeSourceSpan (sourceFile : ts.SourceFile) (node : ts.TypeNode) : string :=
  slice (ts.sourceText sourceFile)
    (ts.pos (ts.typeSpan node)) (ts.end_ (ts.typeSpan node)).

(** An invalid placeholder type: [$FlowFixMe] with the quotation of the
    type and a [tsflower-error] diagnostic as comments. *)
Definition invalidPlaceholderType (sourceFile : ts.SourceFile) (node : ts.TypeNode)
  (reason : string) : flow.FlowType :=
  flow.GenericTypeAnnotation
    (flow.Id {| flow.name := "$FlowFixMe"; flow.typeAnnotation := None |}) None
    (Some [flow.CommentBlock (" " ++ typeSourceSpan sourceFile node ++ " ") false true;
           flow.CommentBlock (" tsflower-error: " ++ reason ++ " ") false true]).

(** The name [convertFunctionType] gives a converted parameter: that of
    an identifier, none for a binding pattern. *)
Definition convertedParameterName (param : ts.ParameterDeclaration ts.TypeNode)
  : option (flow.Identifier flow.FlowType) :=
  match ts.parameterName param with
  | ts.BindingIdentifier id =>
    Some {| flow.name := ts.text id; flow.typeAnnotation := None |}
  | ts.BindingPattern => None
  end.

Definition notRest (param : ts.ParameterDeclaration ts.TypeNode) : bool :=
  negb (ts.dotDotDotToken param).

(** A parameter list as TypeScript allows it: a rest parameter, if there
    is one, is the last parameter. *)
Definition restOnlyLast (parameters : list (ts.ParameterDeclaration ts.TypeNode))
  : bool :=
  forallb notRest (removelast parameters).

(** The type annotations of a signature: the constraints and defaults of
    its type parameters, the types of its parameters and its return
    type. *)
Definition signatureTypes (node : ts.SignatureDeclaration ts.TypeNode)
  : list ts.TypeNode :=
  let optional (type : option ts.TypeNode) :=
    match type with
    | Some type => [type]
    | None => []
    end in
  (flat_map (fun param => optional (ts.constraint param) ++ optional (ts.default param))
     (match ts.typeParameters node with
      | Some params => params
      | None => []
      end)
   ++ flat_map (fun param => optional (ts.parameterType param)) (ts.parameters node)
   ++ optional (ts.type node))%list.

(** A property name [convertName] accepts: an identifier or a private
    identifier. *)
Definition identifierOrPrivate (name : ts.PropertyName) : bool :=
  match name with
  | ts.PropertyIdentifier _ | ts.PropertyPrivateIdentifier _ => true
  | _ => false
  end.

(** The name of a property or method member. *)
Definition memberPropertyName (member : ts.Member) : option ts.PropertyName :=
  match member with
  | ts.PropertySignature name _ _ | ts.PropertyDeclaration name _ _
  | ts.MethodSignature name _ _ | ts.MethodDeclaration name _ _ => Some name
  | ts.Constructor _ | ts.OtherMember _ => None
  end.

(** A member the loop of [convertClassLikeDeclaration] passes: a
    constructor, or a property or method named by an identifier or a
    private identifier. *)
Definition passedMember (member : ts.Member) : bool :=
  match member with
  | ts.Constructor _ => true
  | ts.OtherMember _ => false
  | _ => match memberPropertyName member with
         | Some name => identifierOrPrivate name
         | None => false
         end
  end.

(** A heritage clause the loop passes: an [extends] clause all of whose
    bases are entity names. *)
Definition extendsEntityNames (clause : ts.HeritageClause) : bool :=
  match ts.token clause with
  | ts.SyntaxKind.ExtendsKeyword =>
    forallb (fun base =>
               match isEntityNameOrEntityNameExpression (ts.expression base) with
               | Some _ => true
               | None => false
               end)
            (ts.heritageTypes clause)
  | _ => false
  end.

(** [node.heritageClauses ?? []] *)
Definition heritageClausesOf (declaration : ts.ClassLikeDeclaration)
  : list ts.HeritageClause :=
  match ts.heritageClauses declaration with
  | Some clauses => clauses
  | None => []
  end.

Unset Implicit Arguments.

(** ** Descriptions used by the further properties *)

(** The identifiers of a dotted name, left to right. *)
Fixpoint entityNameParts (name : ts.EntityName) : list string :=
  match name with
  | ts.EntityIdentifier id => [ts.text id]
  | ts.QualifiedName qualifier id => (entityNameParts qualifier ++ [ts.text id])%list
  | ts.PropertyAccessEntityNameExpression expression id =>
    (entityNameParts expression ++ [ts.text id])%list
  end.

Fixpoint typeIdentifierParts (id : flow.TypeIdentifier flow.FlowType) : list string :=
  match id with
  | flow.Id i => [flow.name i]
  | flow.QualifiedTypeIdentifier qualification i =>
    (typeIdentifierParts qualification ++ [flow.name i])%list
  end.

(** The Flow name with the given first identifier and qualified by the
    others in turn, none of them annotated. *)
Definition typeIdentifierOfParts (first : string) (others : list string)
  : flow.TypeIdentifier flow.FlowType :=
  fold_left (fun qualification part =>
               flow.QualifiedTypeIdentifier qualification
                 {| flow.name := part; flow.typeAnnotation := None |})
            others
            (flow.Id {| flow.name := first; flow.typeAnnotation := None |}).

(** The parameters before the first rest parameter. *)
Fixpoint beforeRest (parameters : list (ts.ParameterDeclaration ts.TypeNode))
  : list (ts.ParameterDeclaration ts.TypeNode) :=
  match parameters with
  | [] => []
  | param :: rest =>
    if ts.dotDotDotToken param then [] else param :: beforeRest rest
  end.

(** What a parameter that is no rest parameter becomes, once its type is
    converted. *)
Definition convertedParameter (convertType' : ts.TypeNode -> Outcome flow.FlowType)
  (param : ts.ParameterDeclaration ts.TypeNode)
  : Outcome (flow.FunctionTypeParam flow.FlowType) :=
  type <- match ts.parameterType param with
          | Some type => convertType' type
          | None => Return flow.AnyTypeAnnotation
          end ;;
  Return {| flow.paramName := convertedParameterName param;
            flow.paramTypeAnnotation := type;
            flow.paramOptional := ts.questionToken param |}.

(** What a rest parameter becomes. *)
Definition convertedRestParameter (convertType' : ts.TypeNode -> Outcome flow.FlowType)
  (param : ts.ParameterDeclaration ts.TypeNode)
  : Outcome (flow.FunctionTypeParam flow.FlowType) :=
  type <- match ts.parameterType param with
          | Some type => convertType' type
          | None => Return (flow.ArrayTypeAnnotation flow.AnyTypeAnnotation)
          end ;;
  Return {| flow.paramName := convertedParameterName param;
            flow.paramTypeAnnotation := type;
            flow.paramOptional := false |}.

(** The first rest parameter, converted, if there is one. *)
Definition convertedFirstRest (convertType' : ts.TypeNode -> Outcome flow.FlowType)
  (parameters : list (ts.ParameterDeclaration ts.TypeNode))
  : Outcome (option (flow.FunctionTypeParam flow.FlowType)) :=
  match find (fun param => ts.dotDotDotToken param) parameters with
  | Some param =>
    rest <- convertedRestParameter convertType' param ;; Return (Some rest)
  | None => Return None
  end.

(** A property or method member named by a private identifier. *)
Definition privateNamed (member : ts.Member) : bool :=
  match memberPropertyName member with
  | Some (ts.PropertyPrivateIdentifier _) => true
  | _ => false
  end.

(** [declaration] with other members. *)
Definition withMembers (declaration : ts.ClassLikeDeclaration)
  (members : list ts.Member) : ts.ClassLikeDeclaration :=
  {| ts.className := ts.className declaration;
     ts.classTypeParameters := ts.classTypeParameters declaration;
     ts.heritageClauses := ts.heritageClauses declaration;
     ts.members := members |}.

(** What a member that the loop of [convertClassLikeDeclaration] passes
    becomes, once its type is converted: one property, or nothing for a
    private name. *)
Definition convertedMember (convertType' : ts.TypeNode -> Outcome flow.FlowType)
  (convertFunctionType' :
     ts.SignatureDeclaration ts.TypeNode -> Outcome flow.FlowType)
  (member : ts.Member) : Outcome (list (flow.ObjectTypeProperty flow.FlowType)) :=
  let property name value optional :=
    [{| flow.key :=
          flow.IdentifierKey {| flow.name := name; flow.typeAnnotation := None |};
        flow.value := value;
        flow.optional := optional |}] in
  match member with
  | ts.Constructor signature =>
    value <- convertFunctionType' signature ;;
    Return (property "constructor" value false)
  | ts.PropertySignature (ts.PropertyIdentifier id) questionToken type
  | ts.PropertyDeclaration (ts.PropertyIdentifier id) questionToken type =>
    value <- match type with
             | Some type => convertType' type
             | None => Return flow.AnyTypeAnnotation
             end ;;
    Return (property (ts.text id) value questionToken)
  | ts.MethodSignature (ts.PropertyIdentifier id) questionToken signature
  | ts.MethodDeclaration (ts.PropertyIdentifier id) questionToken signature =>
    value <- convertFunctionType' signature ;;
    Return (property (ts.text id) value questionToken)
  | _ => Return []
  end.

(** The bases of an [extends] clause that are entity names, in order,
    each with its type arguments. *)
Definition entityNameBasesOf (types : list ts.ExpressionWithTypeArguments)
  : list (ts.EntityName * option (list ts.TypeNode)) :=
  flat_map (fun base =>
              match isEntityNameOrEntityNameExpression (ts.expression base) with
              | Some entity => [(entity, ts.baseTypeArguments base)]
              | None => []
              end)
           types.

(** Those of a list of heritage clauses. *)
Definition entityNameBases (clauses : list ts.HeritageClause)
  : list (ts.EntityName * option (list ts.TypeNode)) :=
  flat_map (fun clause => entityNameBasesOf (ts.heritageTypes clause)) clauses.

(** What an entity-name base becomes, once its type arguments are
    converted. *)
Definition convertedBase
  (convertTypeArguments' :
     ts.EntityName -> option (list ts.TypeNode) ->
     Outcome (option (list flow.FlowType)))
  (base : ts.EntityName * option (list ts.TypeNode)) : Outcome flow.InterfaceExtends :=
  typeParameters <- convertTypeArguments' (fst base) (snd base) ;;
  Return {| flow.extendsId := Convert.convertEntityNameAsType (fst base);
            flow.extendsTypeParameters := typeParameters |}.

(** The statement kinds [convertStatementExceptExport] reports as
    unimplemented because they "might actually appear in .d.ts files". *)
Definition unimplementedDeclarationKinds : list ts.SyntaxKind :=
  [ts.SyntaxKind.Block; ts.SyntaxKind.EmptyStatement;
   ts.SyntaxKind.EnumDeclaration; ts.SyntaxKind.ModuleDeclaration;
   ts.SyntaxKind.NamespaceExportDeclaration;
   ts.SyntaxKind.ImportEqualsDeclaration; ts.SyntaxKind.MissingDeclaration].

Definition memberOfKinds (kinds : list ts.SyntaxKind) (kind : ts.SyntaxKind) : bool :=
  existsb (ts.SyntaxKind.SyntaxKind_beq kind) kinds.

(** The literals [convertLiteralType] has a Flow literal type for. *)
Definition supportedLiteral (literal : ts.Literal) : bool :=
  match literal with
  | ts.NullLiteral | ts.FalseLiteral | ts.TrueLiteral
  | ts.NumericLiteral _ | ts.StringLiteral _
  | ts.PrefixUnaryExpression ts.SyntaxKind.MinusToken (ts.OperandNumericLiteral _) =>
    true
  | _ => false
  end.

(** The kind of the first member of a type literal that is no property
    signature. *)
Fixpoint firstOtherTypeElement (members : list (ts.TypeElement ts.TypeNode))
  : option ts.SyntaxKind :=
  match members with
  | [] => None
  | ts.TypeLiteralProperty _ _ _ :: rest => firstOtherTypeElement rest
  | ts.OtherTypeElement kind :: _ => Some kind
  end.

(** The property signatures of a type literal that come before its first
    member of another kind: name, question mark and type of each. *)
Fixpoint leadingProperties (members : list (ts.TypeElement ts.TypeNode))
  : list (ts.PropertyName * bool * option ts.TypeNode) :=
  match members with
  | ts.TypeLiteralProperty name questionToken type :: rest =>
    (name, questionToken, type) :: leadingProperties rest
  | _ => []
  end.

(** What a property signature of a type literal becomes: its name is
    made an identifier first, from the [text] it has, and its type is
    converted after that. *)
Definition convertedProperty (convertType' : ts.TypeNode -> Outcome flow.FlowType)
  (property : ts.PropertyName * bool * option ts.TypeNode)
  : Outcome (flow.ObjectTypeProperty flow.FlowType) :=
  let '(name, questionToken, type) := property in
  match ts.propertyNameText name with
  | None => Throw (BuilderError IdentifierName)
  | Some text =>
    value <- match type with
             | Some type => convertType' type
             | None => Return flow.AnyTypeAnnotation
             end ;;
    Return {| flow.key :=
                flow.IdentifierKey
                  {| flow.name := text; flow.typeAnnotation := None |};
              flow.value := value;
              flow.optional := questionToken |}
  end.

(** The member kinds a type literal reports as unimplemented. *)
Definition unimplementedTypeElementKinds : list ts.SyntaxKind :=
  [ts.SyntaxKind.CallSignature; ts.SyntaxKind.ConstructSignature;
   ts.SyntaxKind.MethodSignature; ts.SyntaxKind.GetAccessor;
   ts.SyntaxKind.SetAccessor; ts.SyntaxKind.IndexSignature].

(** An unimplemented placeholder type: [$FlowFixMe] with the quotation of
    the type and a [tsflower-unimplemented] diagnostic as comments. *)
Definition unimplementedPlaceholderType (sourceFile : ts.SourceFile)
  (node : ts.TypeNode) (reason : string) : flow.FlowType :=
  flow.GenericTypeAnnotation
    (flow.Id {| flow.name := "$FlowFixMe"; flow.typeAnnotation := None |}) None
    (Some [flow.CommentBlock (" " ++ typeSourceSpan sourceFile node ++ " ") false true;
           flow.CommentBlock (" tsflower-unimplemented: " ++ reason ++ " ") false true]).

(** The placeholder a type literal becomes for its first member that is
    no property signature. *)
Definition typeElementPlaceholder (SyntaxKindName : ts.SyntaxKind -> string)
  (sourceFile : ts.SourceFile) (node : ts.TypeNode) (kind : ts.SyntaxKind)
  : flow.FlowType :=
  if existsb (ts.SyntaxKind.SyntaxKind_beq kind) unimplementedTypeElementKinds
  then unimplementedPlaceholderType sourceFile node
         ("TypeElement kind: " ++ SyntaxKindName kind)
  else invalidPlaceholderType sourceFile node
         ("unexpected TypeElement kind: " ++ SyntaxKindName kind).

(** The type arguments of a reference, none when it has no list. *)
Definition argumentsOf (typeArguments : option (list ts.TypeNode)) : list ts.TypeNode :=
  match typeArguments with
  | Some arguments => arguments
  | None => []
  end.

(** The identifier a named import or export binds from: its property
    name when it has one, its name otherwise. *)
Definition importedName (binding : ts.ImportSpecifier) : string :=
  match ts.importPropertyName binding with
  | Some propertyName => ts.text propertyName
  | None => ts.text (ts.importName binding)
  end.

Definition exportedLocalName (spec : ts.ExportSpecifier) : string :=
  match ts.exportPropertyName spec with
  | Some propertyName => ts.text propertyName
  | None => ts.text (ts.exportName spec)
  end.

(** What the module specifier of an export declaration becomes: nothing
    when there is none, and the string literal of its [text] otherwise. *)
Definition convertedSource (moduleSpecifier : option ts.Expression)
  : Outcome (option string) :=
  match moduleSpecifier with
  | None => Return None
  | Some moduleSpecifier =>
    match ts.expressionText moduleSpecifier with
    | Some text => Return (Some text)
    | None => Throw (BuilderError StringLiteralValue)
    end
  end.

(** What a variable declaration becomes: its type is converted first, if
    it has one, and its name is made an identifier after that, which a
    binding pattern cannot be. *)
Definition convertedDeclarator (convertType' : ts.TypeNode -> Outcome flow.FlowType)
  (declaration : ts.VariableDeclaration) : Outcome (flow.Identifier flow.FlowType) :=
  type <- match ts.variableType declaration with
          | Some type => converted <- convertType' type ;; Return (Some converted)
          | None => Return None
          end ;;
  match ts.variableName declaration with
  | ts.BindingIdentifier id =>
    Return {| flow.name := ts.text id; flow.typeAnnotation := type |}
  | ts.BindingPattern => Throw (BuilderError IdentifierName)
  end.

(** The text of a type that is a string literal type. *)
Definition literalKey (type : ts.TypeNode) : option string :=
  match type with
  | ts.LiteralType _ (ts.StringLiteral text) => Some text
  | _ => None
  end.

(** The texts of a list of string literal types, when all are such. *)
Fixpoint allLiteralKeys (types : list ts.TypeNode) : option (list string) :=
  match types with
  | [] => Some []
  | type :: rest =>
    match literalKey type, allLiteralKeys rest with
    | Some key, Some keys => Some (key :: keys)
    | _, _ => None
    end
  end.

(** The keys a type names literally: the text of a string literal type,
    the texts of a union of string literal types, and none for any other
    type, a string literal in parentheses included. *)
Definition literalKeys (type : ts.TypeNode) : option (list string) :=
  match type with
  | ts.LiteralType _ (ts.StringLiteral text) => Some [text]
  | ts.UnionType _ types => allLiteralKeys types
  | _ => None
  end.

(** The exact object type with the given keys, each of type [mixed], and
    the exact object type whose only member is an indexer from the given
    type to [mixed]. *)
Definition objectOfKeys (keys : list string) : flow.FlowType :=
  flow.ObjectTypeAnnotation
    (map (fun key => {| flow.key := flow.StringLiteralKey _ key;
                        flow.value := flow.MixedTypeAnnotation;
                        flow.optional := false |})
         keys)
    [] [] None true.

Definition objectIndexedBy (key : flow.FlowType) : flow.FlowType :=
  flow.ObjectTypeAnnotation []
    [{| flow.indexerId := {| flow.name := "key"; flow.typeAnnotation := None |};
        flow.indexerKey := key;
        flow.indexerValue := flow.MixedTypeAnnotation |}]
    [] None true.

(** [name<arguments>] as a Flow type, [name] being an identifier. *)
Definition genericOf (name : string) (arguments : option (list flow.FlowType))
  : flow.FlowType :=
  flow.GenericTypeAnnotation
    (flow.Id {| flow.name := name; flow.typeAnnotation := None |}) arguments None.

(** What the checker and the mapper make of a name. *)
Definition mappedName (mapper : Mapper) (checker : ts.TypeChecker)
  (typeName : ts.EntityName) : option MapResult :=
  match ts.getSymbolAtLocation checker typeName with
  | Some symbol => getSymbol mapper symbol
  | None => None
  end.

(** [node] with other modifiers. *)
Definition withModifiers (node : ts.Statement)
  (modifiers : option (list ts.SyntaxKind)) : ts.Statement :=
  let remodified nd :=
    {| ts.span := ts.span nd; ts.modifiers := modifiers |} in
  match node with
  | ts.ImportDeclaration nd importClause moduleSpecifier =>
    ts.ImportDeclaration (remodified nd) importClause moduleSpecifier
  | ts.ExportDeclaration nd isTypeOnly exportClause moduleSpecifier assertClause =>
    ts.ExportDeclaration (remodified nd) isTypeOnly exportClause moduleSpecifier
      assertClause
  | ts.ExportAssignment nd isExportEquals expression =>
    ts.ExportAssignment (remodified nd) isExportEquals expression
  | ts.VariableStatement nd declarationList =>
    ts.VariableStatement (remodified nd) declarationList
  | ts.TypeAliasDeclaration nd name typeParameters type =>
    ts.TypeAliasDeclaration (remodified nd) name typeParameters type
  | ts.FunctionDeclaration nd name signature =>
    ts.FunctionDeclaration (remodified nd) name signature
  | ts.ClassDeclaration nd declaration =>
    ts.ClassDeclaration (remodified nd) declaration
  | ts.InterfaceDeclaration nd declaration =>
    ts.InterfaceDeclaration (remodified nd) declaration
  | ts.OtherStatement nd kind => ts.OtherStatement (remodified nd) kind
  end.

(** What it is for a property of type nodes to hold on every type node
    directly inside an optional type, a type parameter, a parameter, a
    signature, a member of a type literal or a list of type arguments. *)
Section Inside.

Variable P : ts.TypeNode -> Prop.

Definition holdsOn (type : option ts.TypeNode) : Prop :=
  match type with
  | Some type => P type
  | None => True
  end.

Definition holdsOnTypeParameter (param : ts.TypeParameterDeclaration ts.TypeNode)
  : Prop :=
  holdsOn (ts.constraint param) /\ holdsOn (ts.default param).

Definition holdsOnTypeParameters
  (params : option (list (ts.TypeParameterDeclaration ts.TypeNode))) : Prop :=
  match params with
  | Some params => Forall holdsOnTypeParameter params
  | None => True
  end.

Definition holdsOnParameter (param : ts.ParameterDeclaration ts.TypeNode) : Prop :=
  holdsOn (ts.parameterType param).

Definition holdsOnSignature (signature : ts.SignatureDeclaration ts.TypeNode) : Prop :=
  holdsOnTypeParameters (ts.typeParameters signature)
  /\ Forall holdsOnParameter (ts.parameters signature)
  /\ holdsOn (ts.type signature).

Definition holdsOnTypeElement (member : ts.TypeElement ts.TypeNode) : Prop :=
  match member with
  | ts.TypeLiteralProperty _ _ type => holdsOn type
  | ts.OtherTypeElement _ => True
  end.

Definition holdsOnArguments (typeArguments : option (list ts.TypeNode)) : Prop :=
  match typeArguments with
  | Some arguments => Forall P arguments
  | None => True
  end.

End Inside.

(** What the conversion of a type throws, when it throws: the error of
    the identifier builder, or the TypeError for the method the converter
    object lacks. *)
Definition thrownByTypes (err : Exception) : Prop :=
  err = BuilderError IdentifierName
  \/ err = TypeError "converter.convertEntityNameAsType".

(** [convertType'] throws on [type] nothing but what [thrownByTypes]
    lists. *)
Definition throwsAsTypes (convertType' : ts.TypeNode -> Outcome flow.FlowType)
  (type : ts.TypeNode) : Prop :=
  forall err, convertType' type = Throw err -> thrownByTypes err.

(** The module specifier of an import or export declaration. *)
Definition moduleSpecifierOf (node : ts.Statement) : option ts.Expression :=
  match node with
  | ts.ImportDeclaration _ _ moduleSpecifier => Some moduleSpecifier
  | ts.ExportDeclaration _ _ _ moduleSpecifier _ => moduleSpecifier
  | _ => None
  end.

(** ** Data for the examples of the further properties *)

(** [Foo.Bar] as a qualified name and as a property access. *)
Definition qualifiedFooBar : ts.EntityName :=
  ts.QualifiedName (ts.EntityIdentifier (ident "Foo")) (ident "Bar").

Definition accessedFooBar : ts.EntityName :=
  ts.PropertyAccessEntityNameExpression
    (ts.EntityIdentifier {| ts.identifierSpan := spanOf 20 23; ts.text := "Foo" |})
    {| ts.identifierSpan := spanOf 24 27; ts.text := "Bar" |}.

(** The members of
    [declare class C extends Foo.Bar<number> { constructor(...xs); a?: number; #p: string; m(): void }] *)
Definition sampleMembers : list ts.Member :=
  [ts.Constructor (signatureOf [parameter true "xs" None] None);
   ts.PropertyDeclaration (ts.PropertyIdentifier (ident "a")) true
     (Some (keyword ts.SyntaxKind.NumberKeyword));
   ts.PropertyDeclaration (ts.PropertyPrivateIdentifier "#p") false
     (Some (keyword ts.SyntaxKind.StringKeyword));
   ts.MethodDeclaration (ts.PropertyIdentifier (ident "m")) false
     (signatureOf [] (Some (keyword ts.SyntaxKind.VoidKeyword)))].

Definition extendsFooBar : ts.HeritageClause :=
  {| ts.token := ts.SyntaxKind.ExtendsKeyword;
     ts.heritageTypes :=
       [{| ts.expression :=
             ts.PropertyAccessExpression (ts.IdentifierExpression (ident "Foo"))
               (ts.MemberIdentifier (ident "Bar"));
           ts.baseTypeArguments := Some [keyword ts.SyntaxKind.NumberKeyword] |}] |}.

Definition implementsI : ts.HeritageClause :=
  {| ts.token := ts.SyntaxKind.ImplementsKeyword;
     ts.heritageTypes :=
       [{| ts.expression := ts.IdentifierExpression (ident "I");
           ts.baseTypeArguments := None |}] |}.

Definition sampleClass : ts.ClassLikeDeclaration :=
  {| ts.className := Some (ident "C");
     ts.classTypeParameters := None;
     ts.heritageClauses := Some [extendsFooBar];
     ts.members := sampleMembers |}.

(** [declare class C extends Foo.Bar<number> implements I { ['a']: number }] *)
Definition implementingClass : ts.ClassLikeDeclaration :=
  {| ts.className := Some (ident "C");
     ts.classTypeParameters := None;
     ts.heritageClauses := Some [extendsFooBar; implementsI];
     ts.members := [ts.PropertyDeclaration ts.PropertyComputedName false None] |}.

(** [export default class { ['a']: number }] *)
Definition anonymousClass : ts.ClassLikeDeclaration :=
  {| ts.className := None;
     ts.classTypeParameters := None;
     ts.heritageClauses := None;
     ts.members := [ts.PropertyDeclaration ts.PropertyComputedName false None] |}.

Definition exportDefaultNode (pos end_ : nat) : ts.Node :=
  {| ts.span := spanOf pos end_;
     ts.modifiers := Some [ts.SyntaxKind.ExportKeyword; ts.SyntaxKind.DefaultKeyword] |}.

Definition classFile : ts.SourceFile :=
  fileOf "export default class { ['a']: number }" [].

(** A checker for [import D, { a as b, T } from 'm';]: [b] is an alias of
    a variable and [T] an alias of an interface. *)
Definition importChecker : ts.TypeChecker := {|
  ts.getSymbolAtLocation := fun name =>
    if String.eqb (lastName name) "b" then Some (symbolOf 10 [])
    else if String.eqb (lastName name) "T" then Some (symbolOf 11 [])
    else None;
  ts.getImmediateAliasedSymbol := fun symbol =>
    match ts.symbolId symbol with
    | 10 => Some {| ts.symbolId := 20; ts.flags := 2; ts.declarations := None |}
    | 11 => Some {| ts.symbolId := 21; ts.flags := 64; ts.declarations := None |}
    | _ => None
    end
|}.

Definition bindingT : ts.ImportSpecifier :=
  {| ts.importPropertyName := None; ts.importName := ident "T" |}.

Definition sampleImportClause : ts.ImportClause :=
  {| ts.importClauseModifiers := None;
     ts.importClauseName := Some (ident "D");
     ts.namedBindings :=
       Some (ts.NamedImports
               [{| ts.importPropertyName := Some (ident "a");
                   ts.importName := ident "b" |};
                bindingT]) |}.

(** [import * as ns from 'm';] *)
Definition namespaceImportClause : ts.ImportClause :=
  {| ts.importClauseModifiers := None;
     ts.importClauseName := None;
     ts.namedBindings := Some (ts.NamespaceImport (ident "ns")) |}.

(** The elements of [export { a as b, type T } from 'm';] *)
Definition sampleExports : list ts.ExportSpecifier :=
  [{| ts.specIsTypeOnly := false; ts.exportPropertyName := Some (ident "a");
      ts.exportName := ident "b" |};
   {| ts.specIsTypeOnly := true; ts.exportPropertyName := None;
      ts.exportName := ident "T" |}].

(** [export * as ns from 'm';] *)
Definition namespaceExportFile : ts.SourceFile :=
  fileOf "export * as ns from 'm';" [].

Definition namespaceExport : ts.Statement :=
  ts.ExportDeclaration (plainNode 0 24) false
    (Some (ts.NamespaceExport (ident "ns"))) (Some (moduleNamed "m")) false.

(** [declare const { a, b }: number;] *)
Definition patternFile : ts.SourceFile :=
  fileOf "declare const { a, b }: number;" [].

Definition patternStatement : ts.Statement :=
  ts.VariableStatement (plainNode 0 31)
    {| ts.listFlags := 2;
       ts.listDeclarations :=
         [{| ts.variableName := ts.BindingPattern;
             ts.variableType := Some (keyword ts.SyntaxKind.NumberKeyword) |}] |}.

(** [type T = { a: number; ['b']: string };] and its type literal. *)
Definition computedLiteralFile : ts.SourceFile :=
  fileOf "type T = { a: number; ['b']: string };" [].

Definition computedLiteral : ts.TypeNode :=
  ts.TypeLiteral (spanOf 8 37)
    [ts.TypeLiteralProperty (ts.PropertyIdentifier (ident "a")) false
       (Some (keyword ts.SyntaxKind.NumberKeyword));
     ts.TypeLiteralProperty ts.PropertyComputedName false
       (Some (keyword ts.SyntaxKind.StringKeyword))].

(** The type literal of [type T = { 'a': number; 1?: string };] *)
Definition quotedNamesLiteral : ts.TypeNode :=
  ts.TypeLiteral (spanOf 8 36)
    [ts.TypeLiteralProperty (ts.PropertyStringLiteral "a") false
       (Some (keyword ts.SyntaxKind.NumberKeyword));
     ts.TypeLiteralProperty (ts.PropertyNumericLiteral "1") true
       (Some (keyword ts.SyntaxKind.StringKeyword))].

Definition stringLiteralType (text : string) : ts.TypeNode :=
  ts.LiteralType (spanOf 0 0) (ts.StringLiteral text).

(** The converter of the examples, as handed to a macro. *)
Definition exampleConverter : Converter :=
  Convert.converter syntaxKindName referencesFile exampleMapper exampleChecker.

Definition pointName : ts.EntityName :=
  ts.QualifiedName (ts.EntityIdentifier (ident "Geometry")) (ident "Point").

(** * Properties *)

Unset Implicit Arguments.

(** ** Sequencing *)

Lemma bind_returns {A B : Type} (m : Outcome A) (k : A -> Outcome B) (y : B) :
  bind m k = Return y -> exists x, m = Return x /\ k x = Return y.
Proof.
  destruct m as [x|err]; intros H.
  - exists x. split; [reflexivity|exact H].
  - discriminate H.
Qed.

Lemma mapM_returns {A B : Type} (f : A -> Outcome B) (g : A -> B) (l : list A) :
  (forall x, In x l -> f x = Return (g x)) -> mapM f l = Return (map g l).
Proof.
  induction l as [|x rest IH]; intros Hf.
  - reflexivity.
  - cbn. rewrite (Hf x) by (left; reflexivity). cbn.
    rewrite IH by (intros y Hy; apply Hf; right; exact Hy). reflexivity.
Qed.

Lemma mapM_total {A B : Type} (f : A -> Outcome B) (l : list A) :
  (forall x, In x l -> exists y, f x = Return y) ->
  exists ys, mapM f l = Return ys.
Proof.
  induction l as [|x rest IH]; intros Hf.
  - eexists. reflexivity.
  - destruct (Hf x (or_introl eq_refl)) as [y Hy].
    destruct IH as [ys Hys]; [intros z Hz; apply Hf; right; exact Hz|].
    exists (y :: ys). cbn. rewrite Hy. cbn. rewrite Hys. reflexivity.
Qed.

(** What [mapM] returns has one element per element of the list, the
    result of the function on it. *)
Lemma mapM_pointwise {A B : Type} (f : A -> Outcome B) (l : list A) (ys : list B) :
  mapM f l = Return ys ->
  List.length ys = List.length l
  /\ forall index x, nth_error l index = Some x ->
       exists y, nth_error ys index = Some y /\ f x = Return y.
Proof.
  revert ys.
  induction l as [|x rest IH]; intros ys H; cbn in H.
  - injection H as <-. split; [reflexivity|].
    intros [|index] z Hz; discriminate Hz.
  - destruct (f x) as [y|err] eqn:Hy; [|discriminate H]. cbn in H.
    destruct (mapM f rest) as [ys'|err] eqn:Hrest; [|discriminate H].
    cbn in H. injection H as <-.
    destruct (IH ys' eq_refl) as [Hlength Hnth].
    split; [cbn; rewrite Hlength; reflexivity|].
    intros [|index] z Hz; cbn in Hz.
    + injection Hz as <-. exists y. split; [reflexivity|exact Hy].
    + apply Hnth. exact Hz.
Qed.

Lemma mapM_app {A B : Type} (f : A -> Outcome B) (l l' : list A) :
  mapM f (l ++ l') =
  (ys <- mapM f l ;; ys' <- mapM f l' ;; Return (ys ++ ys')%list).
Proof.
  induction l as [|x rest IH].
  - cbn. destruct (mapM f l'); reflexivity.
  - cbn [mapM app]. rewrite IH.
    destruct (f x) as [y|err]; [|reflexivity]. cbn.
    destruct (mapM f rest) as [ys|err]; [|reflexivity]. cbn.
    destruct (mapM f l'); reflexivity.
Qed.

Lemma mapM_ext {A B : Type} (f g : A -> Outcome B) (l : list A) :
  (forall x, In x l -> f x = g x) -> mapM f l = mapM g l.
Proof.
  induction l as [|x rest IH]; intros Hfg.
  - reflexivity.
  - cbn. rewrite (Hfg x) by (left; reflexivity).
    rewrite IH by (intros y Hy; apply Hfg; right; exact Hy). reflexivity.
Qed.

(** Case analysis on the innermost scrutinee of a [match] in [H]. *)
Ltac destruct_match_in H :=
  match type of H with
  | context [match ?x with _ => _ end] =>
    lazymatch x with
    | context [match _ with _ => _ end] => fail
    | _ => destruct x eqn:?
    end
  end.

Section Properties.

Variable SyntaxKindName : ts.SyntaxKind -> string.
Variable libraryMessage : Exception -> string.
Variable sourceFile : ts.SourceFile.
Variable mapper : Mapper.
Variable checker : ts.TypeChecker.

Local Notation errorMessage := (Convert.errorMessage libraryMessage).
Local Notation errorStatement := (Convert.errorStatement sourceFile).
Local Notation unimplementedStatement := (Convert.unimplementedStatement sourceFile).
Local Notation warningStatement := (Convert.warningStatement sourceFile).
Local Notation errorType := (Convert.errorType sourceFile).
Local Notation convertType := (Convert.convertType SyntaxKindName sourceFile mapper checker).
Local Notation convertTypeArguments :=
  (Convert.convertTypeArguments SyntaxKindName sourceFile mapper checker).
Local Notation convertTypeParameterDeclaration :=
  (Convert.convertTypeParameterDeclaration SyntaxKindName sourceFile mapper checker).
Local Notation convertTypeReference :=
  (Convert.convertTypeReference SyntaxKindName sourceFile mapper checker).
Local Notation convertTypeReferenceLike :=
  (Convert.convertTypeReferenceLike SyntaxKindName sourceFile mapper checker).
Local Notation convertFunctionType :=
  (Convert.convertFunctionType SyntaxKindName sourceFile mapper checker).
Local Notation convertExtendsTypes :=
  (Convert.convertExtendsTypes SyntaxKindName sourceFile mapper checker).
Local Notation convertMembers :=
  (Convert.convertMembers SyntaxKindName sourceFile mapper checker).
Local Notation convertHeritageClauses :=
  (Convert.convertHeritageClauses SyntaxKindName sourceFile mapper checker).
Local Notation convertClassLikeDeclaration :=
  (Convert.convertClassLikeDeclaration SyntaxKindName sourceFile mapper checker).
Local Notation convertStatementExceptExport :=
  (Convert.convertStatementExceptExport SyntaxKindName sourceFile mapper checker).
Local Notation modifyStatementAsExport := (Convert.modifyStatementAsExport sourceFile).
Local Notation convertStatementBody :=
  (Convert.convertStatementBody SyntaxKindName sourceFile mapper checker).
Local Notation convertStatement :=
  (Convert.convertStatement SyntaxKindName libraryMessage sourceFile mapper checker).
Local Notation convertSourceFile :=
  (Convert.convertSourceFile SyntaxKindName libraryMessage sourceFile mapper checker).
Local Notation convertedStatement :=
  (Convert.convertedStatement SyntaxKindName libraryMessage sourceFile mapper checker).

Lemma errorStatement_shape (node : ts.Statement) (reason : string) :
  errorStatement node reason = invalidPlaceholder sourceFile node reason.
Proof. reflexivity. Qed.

Lemma unimplementedStatement_shape (node : ts.Statement) (reason : string) :
  unimplementedStatement node reason = unimplementedPlaceholder sourceFile node reason.
Proof. reflexivity. Qed.

Lemma convertStatement_returns (node : ts.Statement) :
  convertStatement node = Return (convertedStatement node).
Proof.
  unfold Convert.convertStatement, Convert.convertedStatement, try_catch.
  destruct (convertStatementBody node); reflexivity.
Qed.

(** What the handler of [convertStatement] makes of a throw. *)
Lemma convertStatement_catches (node : ts.Statement) (err : Exception) :
  convertStatementBody node = Throw err ->
  convertStatement node =
  Return (invalidPlaceholder sourceFile node
            ("internal error: " ++ errorMessage err)).
Proof.
  intros Hthrow. unfold Convert.convertStatement. rewrite Hthrow. reflexivity.
Qed.

(** [s] is a placeholder statement for [node], of either kind. *)
Local Notation placeholderFor node s :=
  (exists reason : string,
     s = unimplementedStatement node reason \/ s = errorStatement node reason).

(** [s] is one of the shapes [modifyStatementAsExport] wraps as a
    declaration. *)
Local Notation declarationShaped s :=
  (flow.EmptyStatement_check s = false
   /\ (flow.DeclareFunction_check s || flow.Declaration_check s = true)).

(** ** The shapes of converted statements *)

Lemma convertExtendsTypes_leaves node types extends_ r :
  convertExtendsTypes node types extends_ = Return (Leave r) ->
  placeholderFor node r.
Proof.
  revert extends_.
  induction types as [|base rest IH]; intros extends_ H; cbn in H;
    unfold bind in H.
  - discriminate H.
  - repeat destruct_match_in H;
      first [ discriminate H
            | eapply IH; exact H
            | injection H as <-; eexists; right; reflexivity ].
Qed.

Lemma convertHeritageClauses_leaves node clauses extends_ r :
  convertHeritageClauses node clauses extends_ = Return (Leave r) ->
  placeholderFor node r.
Proof.
  revert extends_.
  induction clauses as [|clause rest IH]; intros extends_ H; cbn in H.
  - discriminate H.
  - destruct (ts.token clause);
      try (injection H as <-; eexists; left; reflexivity).
    destruct (convertExtendsTypes node _ _) as [[r'|extends']|err] eqn:Htypes;
      cbn in H.
    + injection H as <-. eapply convertExtendsTypes_leaves; exact Htypes.
    + eapply IH; exact H.
    + discriminate H.
Qed.

Lemma convertMembers_leaves node members properties r :
  convertMembers node members properties = Return (Leave r) ->
  placeholderFor node r.
Proof.
  revert properties.
  induction members as [|member rest IH]; intros properties H; cbn in H;
    unfold bind in H.
  - discriminate H.
  - repeat destruct_match_in H;
      first [ discriminate H
            | eapply IH; exact H
            | injection H as <-; eexists;
              first [left; reflexivity | right; reflexivity] ].
Qed.

Lemma convertClassLikeDeclaration_uncommented node declaration s :
  convertClassLikeDeclaration node declaration = Return s ->
  placeholderFor node s \/ (declarationShaped s /\ flow.comments s = None).
Proof.
  unfold Convert.convertClassLikeDeclaration. intros H.
  destruct (ts.className declaration) as [name|].
  - destruct (convertTypeParameterDeclaration _) as [typeParameters|err];
      [|discriminate H]. cbn in H.
    destruct (convertHeritageClauses node _ _) as [[r|extends_]|err] eqn:Hheritage;
      cbn in H; [| |discriminate H].
    + injection H as <-. left.
      eapply convertHeritageClauses_leaves; exact Hheritage.
    + destruct (convertMembers node _ _) as [[r|properties]|err] eqn:Hmembers;
        cbn in H.
      * injection H as <-. left.
        eapply convertMembers_leaves; exact Hmembers.
      * destruct (Convert.isInterfaceDeclaration node);
          injection H as <-; right; repeat split; reflexivity.
      * discriminate H.
  - destruct (_ && _); injection H as <-; left; eexists;
      [left | right]; reflexivity.
Qed.

Lemma convertStatementExceptExport_uncommented node s :
  convertStatementExceptExport node = Return s ->
  placeholderFor node s \/ (declarationShaped s /\ flow.comments s = None).
Proof.
  intros H.
  destruct node as [nd importClause moduleSpecifier
                   |nd isTypeOnly exportClause moduleSpecifier assertClause
                   |nd isExportEquals expression
                   |nd declarationList
                   |nd name typeParameters type
                   |nd name signature
                   |nd declaration
                   |nd declaration
                   |nd statementKind]; cbn in H.
  - unfold Convert.convertImportDeclaration in H.
    destruct importClause as [clause|];
      [destruct (ts.importClauseModifiers clause)|].
    + injection H as <-. left; eexists; left; reflexivity.
    + destruct (b.stringLiteral _); [|discriminate H].
      injection H as <-. right; repeat split; reflexivity.
    + injection H as <-. left; eexists; left; reflexivity.
  - unfold Convert.convertExportDeclaration in H.
    destruct assertClause;
      [injection H as <-; left; eexists; left; reflexivity|].
    destruct (match moduleSpecifier with Some _ => _ | None => _ end)
      as [source|err]; [|discriminate H]. cbn in H.
    destruct exportClause as [[name|elements]|].
    + discriminate H.
    + unfold b.exportNamedDeclaration_from, b.exportNamedDeclaration in H.
      destruct (forallb _ _); [|discriminate H].
      injection H as <-. right; repeat split; reflexivity.
    + destruct source; injection H as <-;
        [right; repeat split; reflexivity | left; eexists; right; reflexivity].
  - injection H as <-. unfold Convert.convertExportAssignment.
    destruct isExportEquals; [left; eexists; left; reflexivity|].
    destruct expression;
      first [right; repeat split; reflexivity | left; eexists; left; reflexivity].
  - unfold Convert.convertVariableStatement in H.
    destruct (mapM _ _); [|discriminate H].
    injection H as <-. right; repeat split; reflexivity.
  - unfold Convert.convertTypeAliasDeclaration in H.
    destruct (convertTypeParameterDeclaration _); [|discriminate H]. cbn in H.
    destruct (convertType type); [|discriminate H].
    injection H as <-. right; repeat split; reflexivity.
  - unfold Convert.convertFunctionDeclaration in H.
    destruct name as [name|].
    + destruct (convertFunctionType signature); [|discriminate H].
      injection H as <-. right; repeat split; reflexivity.
    + destruct (_ && _); injection H as <-; left; eexists;
        [left | right]; reflexivity.
  - eapply convertClassLikeDeclaration_uncommented; exact H.
  - eapply convertClassLikeDeclaration_uncommented; exact H.
  - left. destruct statementKind; injection H as <-; eexists;
      first [left; reflexivity | right; reflexivity].
Qed.

Lemma modifyStatementAsExport_placeholder node reason :
  modifyStatementAsExport (unimplementedStatement node reason) node
  = Return (unimplementedStatement node reason)
  /\ modifyStatementAsExport (errorStatement node reason) node
     = Return (errorStatement node reason).
Proof. split; reflexivity. Qed.

(** [modifyStatementAsExport] returns for every statement, and what it
    makes of a statement that is not empty is not empty. *)
Lemma modifyStatementAsExport_keeps_nonempty inner node :
  flow.EmptyStatement_check inner = false ->
  exists s,
    modifyStatementAsExport inner node = Return s
    /\ flow.EmptyStatement_check s = false.
Proof.
  destruct inner as [shape comments].
  destruct shape; intros H; try discriminate H; eexists; split; reflexivity.
Qed.

(** Every empty statement [convertStatement] answers with is a placeholder
    for the statement it was given. *)
Lemma convertStatement_empty_is_placeholder node s :
  convertStatement node = Return s ->
  flow.EmptyStatement_check s = true ->
  placeholderFor node s.
Proof.
  unfold Convert.convertStatement, Convert.convertStatementBody.
  intros H Hempty.
  destruct (convertStatementExceptExport node) as [inner|err] eqn:Hinner;
    cbn in H.
  - destruct (convertStatementExceptExport_uncommented _ _ Hinner)
      as [[reason [-> | ->]] | [[Hnonempty _] _]].
    + destruct (hasModifier node _); injection H as <-;
        eexists; left; reflexivity.
    + destruct (hasModifier node _); injection H as <-;
        eexists; right; reflexivity.
    + destruct (hasModifier node _); cbn in H.
      * destruct (modifyStatementAsExport_keeps_nonempty inner node Hnonempty)
          as [s' [Hs' Hnonempty']].
        rewrite Hs' in H. injection H as <-.
        rewrite Hnonempty' in Hempty. discriminate Hempty.
      * injection H as <-. rewrite Hnonempty in Hempty. discriminate Hempty.
  - injection H as <-. eexists; right; reflexivity.
Qed.

(** ** The claims *)


(** C2, as amended.  A top-level statement of an executable-statement
    kind is converted to the unimplemented placeholder for its kind: an
    empty statement with the diagnostic [tsflower-unimplemented: <kind>]
    and the source span, the same placeholder the declaration kinds
    without a translation get. *)
Theorem executable_statement_unimplemented (nd : ts.Node) (kind : ts.SyntaxKind) :
  In kind executableStatementKinds ->
  convertStatement (ts.OtherStatement nd kind) =
  Return (unimplementedPlaceholder sourceFile (ts.OtherStatement nd kind)
            (SyntaxKindName kind)).
Proof.
  intros Hkind.
  assert (Hinner : convertStatementExceptExport (ts.OtherStatement nd kind) =
                   Return (unimplementedStatement (ts.OtherStatement nd kind)
                             (SyntaxKindName kind))).
  { cbn in Hkind.
    repeat (destruct Hkind as [<- | Hkind]; [reflexivity|]).
    contradiction. }
  unfold Convert.convertStatement, Convert.convertStatementBody.
  rewrite Hinner. cbn.
  destruct (hasModifier _ _); reflexivity.
Qed.

(** C4.  A type reference whose symbol the mapper rewrites by a FixedName
    rule converts to a reference to exactly the rule's bare name, with the
    converted type arguments of the reference; the name written in the
    source, qualified or not, is not converted.  Type arguments that are
    written convert to the list of their conversions, in order.  (The
    conversion of a type argument may throw; the reference then throws
    the same.) *)
Theorem fixed_name_rewrite (span : ts.Span) (typeName : ts.EntityName)
  (typeArguments : option (list ts.TypeNode)) (symbol : ts.Symbol) (name : string) :
  ts.getSymbolAtLocation checker typeName = Some symbol ->
  getSymbol mapper symbol = Some (FixedName name) ->
  convertTypeReferenceLike typeName typeArguments =
  (typeParameters <- convertTypeArguments typeName typeArguments ;;
   Return (success {| flow.id := flow.Id {| flow.name := name;
                                            flow.typeAnnotation := None |};
                      flow.typeParameters := typeParameters |}))
  /\ convertType (ts.TypeReference span typeName typeArguments) =
     (typeParameters <- convertTypeArguments typeName typeArguments ;;
      Return (flow.GenericTypeAnnotation
                (flow.Id {| flow.name := name; flow.typeAnnotation := None |})
                typeParameters None))
  /\ (forall arguments, typeArguments = Some arguments ->
        convertTypeArguments typeName typeArguments =
        (converted <- mapM convertType arguments ;; Return (Some converted))).
Proof.
  intros Hsymbol Hmapped.
  assert (Hlike : convertTypeReferenceLike typeName typeArguments =
                  (typeParameters <- convertTypeArguments typeName typeArguments ;;
                   Return (success {| flow.id := flow.Id {| flow.name := name;
                                                            flow.typeAnnotation := None |};
                                      flow.typeParameters := typeParameters |}))).
  { unfold Convert.convertTypeReferenceLike, Convert.convertTypeReferenceLikeOver.
    rewrite Hsymbol, Hmapped. reflexivity. }
  split; [exact Hlike|split].
  - unfold Convert.convertTypeReferenceLike in Hlike.
    cbn [Convert.convertType]. unfold Convert.convertTypeReferenceOver.
    rewrite Hlike.
    destruct (convertTypeArguments typeName typeArguments); reflexivity.
  - intros arguments ->. reflexivity.
Qed.

(** C5.  Called with a number of type arguments other than 2 (a missing
    list counting as 0), the Omit macro returns the Error outcome
    [bad Omit: <n> arguments (expected 2)] and throws nothing; and a
    reference to a symbol rewritten by the Omit macro then converts to the
    invalid placeholder type: [$FlowFixMe] carrying the quoted reference
    and the diagnostic [tsflower-error: bad Omit: <n> arguments (expected
    2)]. *)
Theorem omit_wrong_argument_count (typeName : ts.EntityName)
  (typeArguments : option (list ts.TypeNode)) :
  argumentCount typeArguments <> 2 ->
  (forall converter,
     convertOmit converter typeName typeArguments =
     Return (failure {| kind := error;
                        description :=
                          "bad Omit: " ++ showNat (argumentCount typeArguments)
                            ++ " arguments (expected 2)" |}))
  /\ (forall span symbol,
        ts.getSymbolAtLocation checker typeName = Some symbol ->
        getSymbol mapper symbol = Some (TypeReferenceMacro OmitMacro) ->
        convertType (ts.TypeReference span typeName typeArguments) =
        Return (invalidPlaceholderType sourceFile
                  (ts.TypeReference span typeName typeArguments)
                  ("bad Omit: " ++ showNat (argumentCount typeArguments)
                     ++ " arguments (expected 2)"))).
Proof.
  intros Hcount.
  assert (Homit : forall converter,
             convertOmit converter typeName typeArguments =
             Return (failure {| kind := error;
                                description :=
                                  "bad Omit: " ++ showNat (argumentCount typeArguments)
                                    ++ " arguments (expected 2)" |})).
  { intros converter. unfold convertOmit.
    destruct typeArguments as [[|a [|b [|c rest]]]|]; try reflexivity.
    exfalso. apply Hcount. reflexivity. }
  split; [exact Homit|].
  intros span symbol Hsymbol Hmapped.
  cbn [Convert.convertType].
  unfold Convert.convertTypeReferenceOver, Convert.convertTypeReferenceLikeOver.
  rewrite Hsymbol, Hmapped. cbn [convert]. rewrite Homit. reflexivity.
Qed.

(** C6, as amended.  For a name written without a type-argument list,
    [convertTypeArguments] answers with an empty list when some
    declaration of the name's symbol has type parameters and with null
    otherwise; and a type reference written without a list, whose symbol no
    macro rewrites, converts to a reference with exactly that: an explicit
    empty list or an omitted one. *)
Theorem omitted_type_arguments (span : ts.Span) (typeName : ts.EntityName) :
  convertTypeArguments typeName None =
  Return (if declaresTypeParameters checker typeName then Some [] else None)
  /\ (rewrittenByMacro mapper checker typeName = false ->
      exists id,
        convertType (ts.TypeReference span typeName None) =
        Return (flow.GenericTypeAnnotation id
                  (if declaresTypeParameters checker typeName then Some [] else None)
                  None)).
Proof.
  assert (Harguments :
            convertTypeArguments typeName None =
            Return (if declaresTypeParameters checker typeName
                    then Some [] else None)).
  { unfold Convert.convertTypeArguments, Convert.convertTypeArgumentsOver,
      declaresTypeParameters.
    destruct (some _ _); reflexivity. }
  split; [exact Harguments|].
  unfold rewrittenByMacro. intros Hmacro.
  cbn [Convert.convertType].
  unfold Convert.convertTypeReferenceOver, Convert.convertTypeReferenceLikeOver.
  unfold Convert.convertTypeArguments in Harguments.
  destruct (ts.getSymbolAtLocation checker typeName) as [symbol|].
  - destruct (getSymbol mapper symbol) as [[name|macro]|].
    + rewrite Harguments. eexists. reflexivity.
    + discriminate Hmacro.
    + rewrite Harguments. eexists. reflexivity.
  - rewrite Harguments. eexists. reflexivity.
Qed.

Lemma substring_length (s : string) (n m : nat) :
  String.length (substring n m s) = Nat.min m (String.length s - n).
Proof.
  revert n m.
  induction s as [|c s IH]; intros n m.
  - destruct n, m; reflexivity.
  - destruct n as [|n].
    + destruct m as [|m]; [reflexivity|].
      cbn. rewrite IH, Nat.sub_0_r. reflexivity.
    + cbn. apply IH.
Qed.

Lemma substring_of_middle (before span after : string) :
  substring (String.length before) (String.length span) (before ++ span ++ after)
  = span.
Proof.
  induction before as [|c before IH].
  - cbn. induction span as [|c span IH].
    + destruct after; reflexivity.
    + cbn. rewrite IH. reflexivity.
  - cbn. exact IH.
Qed.

(** The slice between two offsets that delimit a piece of the text is
    that piece. *)
Lemma slice_of_middle (before span after : string) :
  slice (before ++ span ++ after) (String.length before)
    (String.length before + String.length span)
  = span.
Proof.
  unfold slice. rewrite Nat.add_comm, Nat.add_sub. apply substring_of_middle.
Qed.

(** C7.  Take the file text cut in three, [before ++ span ++ after], the
    statement starting where [before] ends and ending where [span] ends:
    [span] is the source span of the statement.  Both placeholder
    statements are then an empty statement with two comments, the
    diagnostic and [span] itself between two spaces, character for
    character; and every empty statement that [convertStatement] returns
    for the statement is such a placeholder, quoting [span]. *)
Theorem placeholder_quotes_source_span (node : ts.Statement)
  (before span after : string) :
  ts.sourceText sourceFile = before ++ span ++ after ->
  ts.pos (ts.span (ts.statementNode node)) = String.length before ->
  ts.end_ (ts.span (ts.statementNode node))
  = String.length before + String.length span ->
  (forall reason,
     unimplementedStatement node reason =
     flow.mkStatement flow.EmptyStatement
       (Some [flow.CommentBlock (" tsflower-unimplemented: " ++ reason ++ " ")
                true false;
              flow.CommentBlock (" " ++ span ++ " ") false true]))
  /\ (forall reason,
        errorStatement node reason =
        flow.mkStatement flow.EmptyStatement
          (Some [flow.CommentBlock (" tsflower-error: " ++ reason ++ " ") true false;
                 flow.CommentBlock (" " ++ span ++ " ") false true]))
  /\ (forall s,
        convertStatement node = Return s ->
        flow.EmptyStatement_check s = true ->
        exists diagnostic,
          s = flow.mkStatement flow.EmptyStatement
                (Some [flow.CommentBlock diagnostic true false;
                       flow.CommentBlock (" " ++ span ++ " ") false true])).
Proof.
  intros Htext Hpos Hend.
  assert (Hquoted : Convert.quotedStatement sourceFile node
                    = flow.CommentBlock (" " ++ span ++ " ") false true).
  { unfold Convert.quotedStatement. rewrite Htext, Hpos, Hend, slice_of_middle.
    reflexivity. }
  assert (Hunimplemented : forall reason,
             unimplementedStatement node reason =
             flow.mkStatement flow.EmptyStatement
               (Some [flow.CommentBlock
                        (" tsflower-unimplemented: " ++ reason ++ " ") true false;
                      flow.CommentBlock (" " ++ span ++ " ") false true])).
  { intros reason. unfold Convert.unimplementedStatement.
    rewrite Hquoted. reflexivity. }
  assert (Herror : forall reason,
             errorStatement node reason =
             flow.mkStatement flow.EmptyStatement
               (Some [flow.CommentBlock (" tsflower-error: " ++ reason ++ " ")
                        true false;
                      flow.CommentBlock (" " ++ span ++ " ") false true])).
  { intros reason. unfold Convert.errorStatement. rewrite Hquoted. reflexivity. }
  split; [exact Hunimplemented|split; [exact Herror|]].
  intros s Hs Hempty.
  destruct (convertStatement_empty_is_placeholder _ _ Hs Hempty)
    as [reason [-> | ->]]; eexists; [apply Hunimplemented | apply Herror].
Qed.

(** C9.  An import declaration without an import clause converts to the
    unimplemented placeholder [ImportDeclaration with no import clause],
    an empty statement and no import declaration, whatever its module
    specifier is. *)
Theorem import_without_clause_unimplemented (nd : ts.Node)
  (moduleSpecifier : ts.Expression) :
  convertStatement (ts.ImportDeclaration nd None moduleSpecifier) =
  Return (unimplementedPlaceholder sourceFile
            (ts.ImportDeclaration nd None moduleSpecifier)
            "ImportDeclaration with no import clause")
  /\ flow.node (unimplementedPlaceholder sourceFile
                  (ts.ImportDeclaration nd None moduleSpecifier)
                  "ImportDeclaration with no import clause")
     = flow.EmptyStatement.
Proof.
  split.
  - unfold Convert.convertStatement, Convert.convertStatementBody. cbn.
    destruct (hasModifier _ _); reflexivity.
  - reflexivity.
Qed.

(** ** Function types *)

Lemma convertParameters_loop convertType' parameters params :
  Convert.convertParametersOver convertType' parameters params =
  (converted <- mapM (convertedParameter convertType') (beforeRest parameters) ;;
   rest <- convertedFirstRest convertType' parameters ;;
   Return ((params ++ converted)%list, rest)).
Proof.
  revert params.
  induction parameters as [|param rest IH]; intros params.
  - cbn. rewrite app_nil_r. reflexivity.
  - cbn [Convert.convertParametersOver beforeRest].
    unfold convertedFirstRest. cbn [find].
    destruct (ts.dotDotDotToken param).
    + cbn [mapM bind]. rewrite app_nil_r.
      unfold convertedRestParameter, Convert.convertTypeOr, convertedParameterName,
        b.functionTypeParam, Convert.convertIdentifier, b.identifier.
      destruct (ts.parameterType param) as [type|]; cbn [bind].
      * destruct (convertType' type); reflexivity.
      * reflexivity.
    + cbn [mapM]. unfold convertedParameter at 1.
      unfold Convert.convertTypeOr, convertedParameterName,
        b.functionTypeParam, Convert.convertIdentifier, b.identifier.
      destruct (match ts.parameterType param with
                | Some type => convertType' type
                | None => Return flow.AnyTypeAnnotation
                end) as [type|err]; [|reflexivity].
      cbn [bind]. rewrite IH.
      destruct (mapM (convertedParameter convertType') (beforeRest rest))
        as [converted|err]; [|reflexivity].
      cbn [bind]. unfold convertedFirstRest.
      destruct (match find _ rest with Some _ => _ | None => _ end);
        [|reflexivity].
      cbn [bind]. rewrite <- app_assoc. reflexivity.
Qed.

(** The steps of [convertFunctionType], in the order the source takes
    them: the type parameters, the parameters before the first rest
    parameter, that rest parameter, the return type. *)
Lemma convertFunctionType_steps (node : ts.SignatureDeclaration ts.TypeNode) :
  convertFunctionType node =
  (typeParameters <- convertTypeParameterDeclaration (ts.typeParameters node) ;;
   params <- mapM (convertedParameter convertType) (beforeRest (ts.parameters node)) ;;
   rest <- convertedFirstRest convertType (ts.parameters node) ;;
   returnType <- match ts.type node with
                 | Some type => convertType type
                 | None => Return flow.AnyTypeAnnotation
                 end ;;
   Return (flow.FunctionTypeAnnotation params returnType rest typeParameters)).
Proof.
  unfold Convert.convertFunctionType, Convert.convertFunctionTypeOver,
    Convert.convertTypeParameterDeclaration.
  rewrite convertParameters_loop.
  destruct (Convert.convertTypeParameterDeclarationOver _ _); [|reflexivity].
  cbn [bind].
  destruct (mapM _ _); [|reflexivity]. cbn [bind].
  destruct (convertedFirstRest _ _); reflexivity.
Qed.

Lemma restOnlyLast_tail param parameters :
  parameters <> [] ->
  restOnlyLast (param :: parameters) = true ->
  ts.dotDotDotToken param = false /\ restOnlyLast parameters = true.
Proof.
  intros Hnonempty. unfold restOnlyLast.
  destruct parameters as [|next rest]; [contradiction|].
  cbn [removelast forallb]. intros H.
  apply andb_true_iff in H as [Hparam Hrest].
  unfold notRest in Hparam. apply negb_true_iff in Hparam.
  split; assumption.
Qed.

(** In a list with no rest parameter but perhaps the last, a parameter
    that is no rest parameter stands among the parameters before the rest
    at its own position. *)
Lemma beforeRest_position parameters index param :
  restOnlyLast parameters = true ->
  nth_error parameters index = Some param ->
  ts.dotDotDotToken param = false ->
  nth_error (beforeRest parameters) index = Some param.
Proof.
  revert index.
  induction parameters as [|first rest IH]; intros index Hlast Hnth Hparam.
  - destruct index; discriminate Hnth.
  - destruct index as [|index]; cbn in Hnth.
    + injection Hnth as ->. cbn. rewrite Hparam. reflexivity.
    + destruct rest as [|next rest]; [destruct index; discriminate Hnth|].
      destruct (restOnlyLast_tail first (next :: rest)) as [Hfirst Hrest];
        [discriminate|exact Hlast|].
      cbn [beforeRest]. rewrite Hfirst. cbn [nth_error].
      apply IH; assumption.
Qed.

(** ... and a rest parameter is the first, and the only one. *)
Lemma find_rest_position parameters index param :
  restOnlyLast parameters = true ->
  nth_error parameters index = Some param ->
  ts.dotDotDotToken param = true ->
  find (fun param => ts.dotDotDotToken param) parameters = Some param.
Proof.
  revert index.
  induction parameters as [|first rest IH]; intros index Hlast Hnth Hparam.
  - destruct index; discriminate Hnth.
  - destruct rest as [|next rest].
    + destruct index as [|[|index]]; try discriminate Hnth.
      injection Hnth as ->. cbn. rewrite Hparam. reflexivity.
    + destruct (restOnlyLast_tail first (next :: rest)) as [Hfirst Hrest];
        [discriminate|exact Hlast|].
      destruct index as [|index]; cbn [nth_error] in Hnth.
      * injection Hnth as ->. rewrite Hparam in Hfirst. discriminate Hfirst.
      * cbn [find]. rewrite Hfirst. eapply IH; eassumption.
Qed.

Lemma beforeRest_count parameters :
  restOnlyLast parameters = true ->
  List.length (beforeRest parameters)
  + match find (fun param => ts.dotDotDotToken param) parameters with
    | Some _ => 1
    | None => 0
    end
  = List.length parameters.
Proof.
  induction parameters as [|first rest IH]; intros Hlast.
  - reflexivity.
  - destruct rest as [|next rest].
    + cbn. destruct (ts.dotDotDotToken first); reflexivity.
    + destruct (restOnlyLast_tail first (next :: rest)) as [Hfirst Hrest];
        [discriminate|exact Hlast|].
      specialize (IH Hrest).
      remember (next :: rest) as others.
      cbn [beforeRest find]. rewrite Hfirst.
      cbn [List.length]. lia.
Qed.

Lemma optional_type_converts convertType' (type : option ts.TypeNode)
  (otherwise : flow.FlowType) :
  (forall type', type = Some type' -> exists converted,
       convertType' type' = Return converted) ->
  exists converted,
    match type with
    | Some type' => convertType' type'
    | None => Return otherwise
    end = Return converted.
Proof.
  intros H. destruct type as [type'|].
  - apply H. reflexivity.
  - eexists. reflexivity.
Qed.

Lemma In_beforeRest parameters param :
  In param (beforeRest parameters) -> In param parameters.
Proof.
  induction parameters as [|first rest IH]; intros H.
  - exact H.
  - cbn in H. destruct (ts.dotDotDotToken first); [contradiction|].
    destruct H as [<- | H]; [left; reflexivity|right; apply IH; exact H].
Qed.

(** [convertFunctionType] returns when the conversions of the type
    annotations of the signature do. *)
Lemma convertFunctionType_returns (node : ts.SignatureDeclaration ts.TypeNode) :
  (forall type, In type (signatureTypes node) ->
     exists converted, convertType type = Return converted) ->
  exists t, convertFunctionType node = Return t.
Proof.
  intros Htypes. rewrite convertFunctionType_steps.
  unfold signatureTypes in Htypes.
  assert (HtypeParameters :
            exists typeParameters,
              convertTypeParameterDeclaration (ts.typeParameters node)
              = Return typeParameters).
  { unfold Convert.convertTypeParameterDeclaration,
      Convert.convertTypeParameterDeclarationOver.
    destruct (ts.typeParameters node) as [params|]; [|eexists; reflexivity].
    match goal with
    | |- context [mapM ?f params] => destruct (mapM_total f params) as [ys Hys]
    end; [|rewrite Hys; eexists; reflexivity].
    intros param Hparam.
    assert (Hin : forall type,
               In type (match ts.constraint param with
                        | Some type => [type]
                        | None => []
                        end
                        ++ match ts.default param with
                           | Some type => [type]
                           | None => []
                           end)%list ->
               exists converted, convertType type = Return converted).
    { intros type Htype. apply Htypes. apply in_or_app. left.
      apply in_flat_map. exists param. split; assumption. }
    destruct (ts.constraint param) as [constraint|].
    - destruct (Hin constraint (or_introl eq_refl)) as [bound ->]. cbn [bind].
      destruct (ts.default param) as [default|].
      + destruct (Hin default (or_intror (or_introl eq_refl))) as [converted ->].
        eexists. reflexivity.
      + eexists. reflexivity.
    - cbn [bind]. destruct (ts.default param) as [default|].
      + destruct (Hin default (or_introl eq_refl)) as [converted ->].
        eexists. reflexivity.
      + eexists. reflexivity. }
  destruct HtypeParameters as [typeParameters ->]. cbn [bind].
  assert (Hparameter : forall param,
             In param (ts.parameters node) ->
             forall type, ts.parameterType param = Some type ->
               exists converted, convertType type = Return converted).
  { intros param Hparam type Htype. apply Htypes.
    apply in_or_app. right. apply in_or_app. left.
    apply in_flat_map. exists param. split; [exact Hparam|].
    rewrite Htype. left. reflexivity. }
  destruct (mapM_total (convertedParameter convertType)
              (beforeRest (ts.parameters node))) as [params Hparams].
  { intros param Hparam. unfold convertedParameter.
    destruct (optional_type_converts convertType (ts.parameterType param)
                flow.AnyTypeAnnotation) as [type ->].
    - apply Hparameter. apply In_beforeRest. exact Hparam.
    - eexists. reflexivity. }
  rewrite Hparams. cbn [bind].
  assert (Hrest : exists rest,
             convertedFirstRest convertType (ts.parameters node) = Return rest).
  { unfold convertedFirstRest.
    destruct (find _ (ts.parameters node)) as [param|] eqn:Hfind;
      [|eexists; reflexivity].
    apply find_some in Hfind as [Hparam _].
    unfold convertedRestParameter.
    destruct (optional_type_converts convertType (ts.parameterType param)
                (flow.ArrayTypeAnnotation flow.AnyTypeAnnotation)) as [type ->].
    - apply Hparameter. exact Hparam.
    - eexists. reflexivity. }
  destruct Hrest as [rest ->]. cbn [bind].
  destruct (optional_type_converts convertType (ts.type node)
              flow.AnyTypeAnnotation) as [returnType ->].
  - intros type Htype. apply Htypes.
    apply in_or_app. right. apply in_or_app. right.
    rewrite Htype. left. reflexivity.
  - eexists. reflexivity.
Qed.

(** C8.  Take a signature whose rest parameter, if it has one, is its
    last parameter, as TypeScript requires.  Its conversion returns a
    function type when the conversions of its type annotations return;
    and in the function type it returns every parameter of the source is
    converted, once: a rest parameter without a type to the rest
    parameter of the result, typed as an array of [any]; any other
    parameter without a type to the parameter at the same position, typed
    [any].  Without a declared return type the return type is [any], and
    the function type is the annotation of the name of a function
    declaration with this signature. *)
Theorem function_type_defaults (node : ts.SignatureDeclaration ts.TypeNode) :
  restOnlyLast (ts.parameters node) = true ->
  ((forall type, In type (signatureTypes node) ->
      exists converted, convertType type = Return converted) ->
   exists t, convertFunctionType node = Return t)
  /\ (forall t,
        convertFunctionType node = Return t ->
        exists params returnType rest typeParameters,
          t = flow.FunctionTypeAnnotation params returnType rest typeParameters
          /\ List.length params
             + match rest with
               | Some _ => 1
               | None => 0
               end
             = List.length (ts.parameters node)
          /\ (forall index param,
                nth_error (ts.parameters node) index = Some param ->
                ts.parameterType param = None ->
                if ts.dotDotDotToken param
                then rest =
                     Some {| flow.paramName := convertedParameterName param;
                             flow.paramTypeAnnotation :=
                               flow.ArrayTypeAnnotation flow.AnyTypeAnnotation;
                             flow.paramOptional := false |}
                else nth_error params index =
                     Some {| flow.paramName := convertedParameterName param;
                             flow.paramTypeAnnotation := flow.AnyTypeAnnotation;
                             flow.paramOptional := ts.questionToken param |})
          /\ (ts.type node = None -> returnType = flow.AnyTypeAnnotation)
          /\ (forall nd name,
                convertStatementExceptExport
                  (ts.FunctionDeclaration nd (Some name) node) =
                Return (flow.mkStatement
                          (flow.DeclareFunction
                             {| flow.name := ts.text name;
                                flow.typeAnnotation := Some t |})
                          None))).
Proof.
  intros Hlast.
  split; [apply convertFunctionType_returns|].
  intros t Ht.
  assert (Hdeclaration : forall nd name,
             convertStatementExceptExport
               (ts.FunctionDeclaration nd (Some name) node) =
             Return (flow.mkStatement
                       (flow.DeclareFunction
                          {| flow.name := ts.text name;
                             flow.typeAnnotation := Some t |})
                       None)).
  { intros nd name. cbn [Convert.convertStatementExceptExport].
    unfold Convert.convertFunctionDeclaration. rewrite Ht. reflexivity. }
  rewrite convertFunctionType_steps in Ht.
  apply bind_returns in Ht as [typeParameters [_ Ht]].
  apply bind_returns in Ht as [params [Hparams Ht]].
  apply bind_returns in Ht as [rest [Hrest Ht]].
  apply bind_returns in Ht as [returnType [HreturnType Ht]].
  injection Ht as <-.
  exists params, returnType, rest, typeParameters.
  destruct (mapM_pointwise _ _ _ Hparams) as [Hlength Hnth].
  split; [reflexivity|split; [|split; [|split; [|exact Hdeclaration]]]].
  - rewrite Hlength, <- (beforeRest_count _ Hlast).
    unfold convertedFirstRest in Hrest.
    destruct (find _ (ts.parameters node)) as [param|].
    + apply bind_returns in Hrest as [converted [_ Hrest]].
      injection Hrest as <-. reflexivity.
    + injection Hrest as <-. reflexivity.
  - intros index param Hparam Htype.
    destruct (ts.dotDotDotToken param) eqn:Hdots.
    + unfold convertedFirstRest in Hrest.
      rewrite (find_rest_position _ _ _ Hlast Hparam Hdots) in Hrest.
      unfold convertedRestParameter in Hrest. rewrite Htype in Hrest.
      injection Hrest as <-. reflexivity.
    + destruct (Hnth index param (beforeRest_position _ _ _ Hlast Hparam Hdots))
        as [converted [Hconverted Hparameter]].
      unfold convertedParameter in Hparameter. rewrite Htype in Hparameter.
      injection Hparameter as <-. exact Hconverted.
  - intros Htype. rewrite Htype in HreturnType.
    injection HreturnType as <-. reflexivity.
Qed.

(** ** Classes and interfaces *)

Lemma convertExtendsTypes_converted node types extends_ :
  forallb (fun base =>
             match isEntityNameOrEntityNameExpression (ts.expression base) with
             | Some _ => true
             | None => false
             end) types = true ->
  convertExtendsTypes node types extends_ =
  (converted <- mapM (convertedBase convertTypeArguments) (entityNameBasesOf types) ;;
   Return (Next (extends_ ++ converted)%list)).
Proof.
  revert extends_.
  induction types as [|base rest IH]; intros extends_ Htypes.
  - cbn. rewrite app_nil_r. reflexivity.
  - cbn [forallb] in Htypes. apply andb_true_iff in Htypes as [Hbase Hrest].
    cbn [Convert.convertExtendsTypes].
    unfold entityNameBasesOf. cbn [flat_map].
    fold (entityNameBasesOf rest).
    remember (ts.expression base) as expression eqn:Hexpression.
    destruct (isEntityNameOrEntityNameExpression expression) as [entity|] eqn:Hentity;
      [|discriminate Hbase].
    transitivity
      (typeParameters <-
         convertTypeArguments entity (ts.baseTypeArguments base) ;;
       convertExtendsTypes node rest
         (extends_ ++
          [{| flow.extendsId := Convert.convertEntityNameAsType entity;
              flow.extendsTypeParameters := typeParameters |}])%list).
    { destruct expression as [id|e name|literalKind text|otherKind];
        try discriminate Hentity; rewrite Hentity; reflexivity. }
    cbn [app mapM]. unfold convertedBase at 1. cbn [fst snd].
    destruct (convertTypeArguments entity (ts.baseTypeArguments base))
      as [typeParameters|err]; [|reflexivity].
    cbn [bind]. rewrite (IH _ Hrest).
    destruct (mapM _ _) as [converted|err]; [|reflexivity].
    cbn [bind]. rewrite <- app_assoc. reflexivity.
Qed.

Lemma convertHeritageClauses_converted node clauses rest_ extends_ :
  forallb extendsEntityNames clauses = true ->
  convertHeritageClauses node (clauses ++ rest_) extends_ =
  (converted <- mapM (convertedBase convertTypeArguments) (entityNameBases clauses) ;;
   convertHeritageClauses node rest_ (extends_ ++ converted)%list).
Proof.
  revert extends_.
  induction clauses as [|clause rest IH]; intros extends_ Hclauses.
  - cbn. rewrite app_nil_r. reflexivity.
  - cbn [forallb] in Hclauses. apply andb_true_iff in Hclauses as [Hclause Hrest].
    unfold extendsEntityNames in Hclause.
    cbn [Convert.convertHeritageClauses app].
    unfold entityNameBases. cbn [flat_map]. fold (entityNameBases rest).
    rewrite mapM_app.
    destruct (ts.token clause); try discriminate Hclause.
    rewrite (convertExtendsTypes_converted node _ extends_ Hclause).
    destruct (mapM _ (entityNameBasesOf _)) as [converted|err]; [|reflexivity].
    cbn [bind]. rewrite (IH _ Hrest).
    destruct (mapM _ (entityNameBases rest)) as [converted'|err]; [|reflexivity].
    cbn [bind]. rewrite <- app_assoc. reflexivity.
Qed.

Lemma convertMembers_converted node members rest_ properties :
  forallb passedMember members = true ->
  convertMembers node (members ++ rest_) properties =
  (converted <- mapM (convertedMember convertType convertFunctionType) members ;;
   convertMembers node rest_ (properties ++ List.concat converted)%list).
Proof.
  revert properties.
  induction members as [|member rest IH]; intros properties Hmembers.
  - cbn. rewrite app_nil_r. reflexivity.
  - cbn [forallb] in Hmembers. apply andb_true_iff in Hmembers as [Hmember Hrest].
    assert (Hnext : forall added,
               convertMembers node (rest ++ rest_) (properties ++ added)%list =
               (converted <-
                  mapM (convertedMember convertType convertFunctionType) rest ;;
                convertMembers node rest_
                  (properties ++ List.concat (added :: converted))%list)).
    { intros added. rewrite (IH _ Hrest).
      destruct (mapM _ rest) as [converted|err]; [|reflexivity].
      cbn [bind List.concat]. rewrite <- app_assoc. reflexivity. }
    assert (Hskip :
              convertMembers node (rest ++ rest_) properties =
              (converted <-
                 mapM (convertedMember convertType convertFunctionType) rest ;;
               convertMembers node rest_
                 (properties ++ List.concat ([] :: converted))%list)).
    { rewrite (IH _ Hrest). reflexivity. }
    destruct member as [sig|name q type|name q type|name q sig|name q sig|memberKind];
      try discriminate Hmember;
      try (destruct name; try discriminate Hmember);
      cbn [Convert.convertMembers app mapM convertedMember Convert.convertName bind].
    all: try (rewrite Hskip; destruct (mapM _ rest); reflexivity).
    all: try (destruct (convertFunctionType sig) as [value|err]; [|reflexivity];
              cbn [bind]; rewrite Hnext; destruct (mapM _ rest); reflexivity).
    all: destruct type as [type|];
      [destruct (convertType type) as [value|err]; [|reflexivity]|];
      cbn [bind]; rewrite Hnext; destruct (mapM _ rest); reflexivity.
Qed.

Lemma convertMembers_throws node member after properties name :
  memberPropertyName member = Some name ->
  identifierOrPrivate name = false ->
  convertMembers node (member :: after) properties =
  Throw (Error ("unimplemented: PropertyName kind "
                  ++ SyntaxKindName (ts.propertyNameKind name))).
Proof.
  intros Hname Hkind.
  destruct member as [sig|name' q type|name' q type|name' q sig|name' q sig|memberKind];
    try discriminate Hname;
    injection Hname as ->;
    destruct name; try discriminate Hkind; reflexivity.
Qed.

(** The loops of a declaration whose heritage clauses are [extends]
    clauses with entity-name bases and whose first members are passed:
    neither leaves the function, and each comes to the conversions of
    its elements in turn. *)
Lemma convertHeritageClauses_passed node clauses :
  forallb extendsEntityNames clauses = true ->
  convertHeritageClauses node clauses [] =
  (converted <- mapM (convertedBase convertTypeArguments) (entityNameBases clauses) ;;
   Return (Next converted)).
Proof.
  intros Hclauses.
  rewrite <- (app_nil_r clauses) at 1.
  rewrite (convertHeritageClauses_converted node clauses [] [] Hclauses).
  reflexivity.
Qed.

Lemma convertMembers_passed node members :
  forallb passedMember members = true ->
  convertMembers node members [] =
  (converted <- mapM (convertedMember convertType convertFunctionType) members ;;
   Return (Next (List.concat converted))).
Proof.
  intros Hmembers.
  rewrite <- (app_nil_r members) at 1.
  rewrite (convertMembers_converted node members [] [] Hmembers).
  reflexivity.
Qed.


(** ** Further properties of the converter *)

Lemma convertEntityNameAsType_of_parts (name : ts.EntityName) :
  exists first others,
    entityNameParts name = first :: others
    /\ Convert.convertEntityNameAsType name = typeIdentifierOfParts first others.
Proof.
  induction name as [id|qualifier IH id|expression IH id].
  - exists (ts.text id), []. split; reflexivity.
  - destruct IH as [first [others [Hparts Hconverted]]].
    exists first, (others ++ [ts.text id])%list. split.
    + cbn. rewrite Hparts. reflexivity.
    + cbn. rewrite Hconverted. unfold typeIdentifierOfParts.
      rewrite fold_left_app. reflexivity.
  - destruct IH as [first [others [Hparts Hconverted]]].
    exists first, (others ++ [ts.text id])%list. split.
    + cbn. rewrite Hparts. reflexivity.
    + cbn. rewrite Hconverted. unfold typeIdentifierOfParts.
      rewrite fold_left_app. reflexivity.
Qed.

Lemma typeIdentifierParts_of_parts (first : string) (others : list string) :
  typeIdentifierParts (typeIdentifierOfParts first others) = first :: others.
Proof.
  unfold typeIdentifierOfParts.
  induction others as [|part others IH] using rev_ind.
  - reflexivity.
  - rewrite fold_left_app. cbn. rewrite IH. reflexivity.
Qed.

(** X1.  [convertEntityNameAsType] keeps the dotted path of a name and
    nothing else: the identifiers of the result are those of the source,
    in order, and two names convert to the same Flow name exactly when
    they have the same path, whatever their positions in the file and
    whether they are written as qualified names or as property accesses. *)
Theorem convertEntityNameAsType_path (name other : ts.EntityName) :
  typeIdentifierParts (Convert.convertEntityNameAsType name) = entityNameParts name
  /\ (Convert.convertEntityNameAsType name = Convert.convertEntityNameAsType other
      <-> entityNameParts name = entityNameParts other).
Proof.
  destruct (convertEntityNameAsType_of_parts name)
    as [first [others [Hparts Hconverted]]].
  destruct (convertEntityNameAsType_of_parts other)
    as [first' [others' [Hparts' Hconverted']]].
  rewrite Hconverted, Hconverted', Hparts, Hparts'.
  split; [apply typeIdentifierParts_of_parts|].
  split.
  - intros H. apply (f_equal typeIdentifierParts) in H.
    rewrite !typeIdentifierParts_of_parts in H. exact H.
  - intros H. injection H as -> ->. reflexivity.
Qed.

(** X2.  [convertFunctionType] converts, in this order, the type
    parameters, the parameters before the first rest parameter, that rest
    parameter and the return type, and throws what the first of these to
    throw throws.  The function type it returns has one parameter for each
    source parameter before the first rest parameter, in order, with its
    name (none for a binding pattern), its converted type (or [any]) and
    its question mark; its rest parameter is the first rest parameter of
    the source, with its converted type (or an array of [any]) and never
    optional; and there is none when the source has no rest parameter. *)
Theorem function_type_parameters (node : ts.SignatureDeclaration ts.TypeNode) :
  convertFunctionType node =
  (typeParameters <- convertTypeParameterDeclaration (ts.typeParameters node) ;;
   params <- mapM (convertedParameter convertType) (beforeRest (ts.parameters node)) ;;
   rest <- match find (fun param => ts.dotDotDotToken param) (ts.parameters node) with
           | Some param =>
             converted <- convertedRestParameter convertType param ;;
             Return (Some converted)
           | None => Return None
           end ;;
   returnType <- match ts.type node with
                 | Some type => convertType type
                 | None => Return flow.AnyTypeAnnotation
                 end ;;
   Return (flow.FunctionTypeAnnotation params returnType rest typeParameters)).
Proof. apply convertFunctionType_steps. Qed.

(** X7.  A function, class or interface declaration without a name
    converts to a placeholder before anything else of it is converted:
    the unimplemented placeholder when it has both the export and the
    default modifier, the invalid placeholder otherwise. *)
Theorem unnamed_declaration_placeholder (nd : ts.Node)
  (signature : ts.SignatureDeclaration ts.TypeNode)
  (declaration : ts.ClassLikeDeclaration) :
  let exportDefault node :=
    hasModifier node ts.SyntaxKind.ExportKeyword
    && hasModifier node ts.SyntaxKind.DefaultKeyword in
  convertStatement (ts.FunctionDeclaration nd None signature)
  = Return (if exportDefault (ts.FunctionDeclaration nd None signature)
            then unimplementedPlaceholder sourceFile
                   (ts.FunctionDeclaration nd None signature)
                   "`export default function` with no name"
            else invalidPlaceholder sourceFile
                   (ts.FunctionDeclaration nd None signature)
                   "expected name on FunctionDeclaration")
  /\ (ts.className declaration = None ->
      forall node,
        node = ts.ClassDeclaration nd declaration
        \/ node = ts.InterfaceDeclaration nd declaration ->
        convertStatement node
        = Return (if exportDefault node
                  then unimplementedPlaceholder sourceFile node
                         "`export default class` with no name"
                  else invalidPlaceholder sourceFile node
                         "anonymous class not in `export default`")).
Proof.
  cbn zeta. split.
  - unfold Convert.convertStatement, Convert.convertStatementBody.
    cbn [Convert.convertStatementExceptExport].
    unfold Convert.convertFunctionDeclaration.
    destruct (_ && _); cbn; destruct (hasModifier _ _); reflexivity.
  - intros Hname node Hnode.
    assert (Hinner : convertStatementExceptExport node
                     = convertClassLikeDeclaration node declaration)
      by (destruct Hnode as [-> | ->]; reflexivity).
    unfold Convert.convertStatement, Convert.convertStatementBody.
    rewrite Hinner. unfold Convert.convertClassLikeDeclaration. rewrite Hname.
    destruct (_ && _); cbn; destruct (hasModifier _ _); reflexivity.
Qed.

(** X8.  What [convertStatement] returns is a placeholder for the
    statement or carries no comments: no conversion of a statement ends in
    the warning of [modifyStatementAsExport].  For a statement with the
    export modifier that is no placeholder, the result is the converted
    declaration wrapped for export: a function or class in a [declare
    export] whose default flag is the default modifier of the source, an
    interface as a plain interface declaration with the same fields in a
    named export, and any other declaration as it is in a named export. *)
Theorem exported_statement_shapes (node : ts.Statement) (s : flow.Statement) :
  convertStatement node = Return s ->
  placeholderFor node s
  \/ (flow.comments s = None
      /\ (hasModifier node ts.SyntaxKind.ExportKeyword = true ->
          exists inner,
            convertStatementExceptExport node = Return inner
            /\ flow.comments inner = None
            /\ ((flow.DeclareFunction_check inner || flow.DeclareClass_check inner
                 = true
                 /\ s = flow.mkStatement
                          (flow.DeclareExportDeclaration
                             (hasModifier node ts.SyntaxKind.DefaultKeyword) inner)
                          None)
                \/ (exists params,
                      flow.node inner = flow.DeclareInterface params
                      /\ s = flow.mkStatement
                               (flow.ExportNamedDeclaration
                                  (Some (flow.mkStatement
                                           (flow.InterfaceDeclaration params) None))
                                  [] None)
                               None)
                \/ (flow.Declaration_check inner = true
                    /\ s = flow.mkStatement
                             (flow.ExportNamedDeclaration (Some inner) [] None)
                             None)))).
Proof.
  unfold Convert.convertStatement, Convert.convertStatementBody.
  intros H.
  destruct (convertStatementExceptExport node) as [inner|err] eqn:Hinner;
    cbn in H.
  - destruct (convertStatementExceptExport_uncommented _ _ Hinner)
      as [[reason [-> | ->]] | [[Hnonempty Hshape] Hcomments]].
    + left. destruct (hasModifier node _); injection H as <-;
        eexists; left; reflexivity.
    + left. destruct (hasModifier node _); injection H as <-;
        eexists; right; reflexivity.
    + right.
      destruct inner as [shape comments]. cbn in Hcomments. subst comments.
      destruct (hasModifier node ts.SyntaxKind.ExportKeyword).
      * destruct shape; try discriminate Hnonempty; try discriminate Hshape;
          cbn in H; injection H as <-;
          (split; [reflexivity|]); intros _; eexists;
          (split; [reflexivity|]); (split; [reflexivity|]);
          first [ left; split; reflexivity
                | right; left; eexists; split; reflexivity
                | right; right; split; reflexivity ].
      * cbn in H. injection H as <-.
        split; [reflexivity|]. intros Hfalse. discriminate Hfalse.
  - injection H as <-. left. eexists; right; reflexivity.
Qed.

(** X9.  A statement of a kind without fields of its own always converts
    to a placeholder and to nothing else: the unimplemented placeholder
    naming its kind when the kind is one of the declaration kinds that may
    appear in a declaration file or one of the executable-statement kinds,
    and the invalid placeholder [unexpected statement kind: <kind>] for
    every other kind. *)
Theorem other_statement_placeholder (nd : ts.Node) (kind : ts.SyntaxKind) :
  convertStatement (ts.OtherStatement nd kind) =
  Return (if memberOfKinds (unimplementedDeclarationKinds ++ executableStatementKinds)
               kind
          then unimplementedPlaceholder sourceFile (ts.OtherStatement nd kind)
                 (SyntaxKindName kind)
          else invalidPlaceholder sourceFile (ts.OtherStatement nd kind)
                 ("unexpected statement kind: " ++ SyntaxKindName kind)).
Proof.
  unfold Convert.convertStatement, Convert.convertStatementBody.
  destruct kind; cbn; destruct (hasModifier _ _); reflexivity.
Qed.

(** X18.  The quotation in a placeholder is the slice of the file text
    between two spaces, for statements and for types alike.  A slice has
    as many characters as the span is long, or as are left in the text
    from its start when that is less; it is empty when the span starts at
    or after the end of the text or ends at or before its own start; and
    when the offsets delimit a piece of the text it is that piece. *)
Theorem quotation_bounds (node : ts.Statement) (type : ts.TypeNode)
  (pos end_ : nat) :
  Convert.quotedStatement sourceFile node
  = flow.CommentBlock
      (" " ++ slice (ts.sourceText sourceFile)
                (ts.pos (ts.span (ts.statementNode node)))
                (ts.end_ (ts.span (ts.statementNode node))) ++ " ")
      false true
  /\ Convert.quotedInlineNode sourceFile type
     = flow.CommentBlock
         (" " ++ slice (ts.sourceText sourceFile)
                   (ts.pos (ts.typeSpan type)) (ts.end_ (ts.typeSpan type)) ++ " ")
         false true
  /\ String.length (slice (ts.sourceText sourceFile) pos end_)
     = Nat.min (end_ - pos) (String.length (ts.sourceText sourceFile) - pos)
  /\ (String.length (ts.sourceText sourceFile) <= pos \/ end_ <= pos ->
      slice (ts.sourceText sourceFile) pos end_ = "")
  /\ (forall before span after,
        ts.sourceText sourceFile = before ++ span ++ after ->
        pos = String.length before ->
        end_ = pos + String.length span ->
        slice (ts.sourceText sourceFile) pos end_ = span).
Proof.
  split; [reflexivity|split; [reflexivity|]].
  split; [apply substring_length|split].
  - intros Hempty.
    assert (Hlength : String.length (slice (ts.sourceText sourceFile) pos end_) = 0)
      by (unfold slice; rewrite substring_length; lia).
    destruct (slice (ts.sourceText sourceFile) pos end_);
      [reflexivity|discriminate Hlength].
  - intros before span after -> -> ->. apply slice_of_middle.
Qed.

(** X19.  A literal type converts to the invalid placeholder type exactly
    when its literal is none of [null], [true], [false], a numeric
    literal, a string literal or the minus of a numeric literal; it never
    throws.  The minus of a numeric literal converts to the number literal
    type of the negated value, whose raw text is that of the literal
    without its sign. *)
Theorem literal_type_conversion (span : ts.Span) (literal : ts.Literal) :
  (exists converted, convertType (ts.LiteralType span literal) = Return converted)
  /\ (supportedLiteral literal = false <->
      exists reason,
        convertType (ts.LiteralType span literal)
        = Return (invalidPlaceholderType sourceFile (ts.LiteralType span literal)
                    reason))
  /\ (forall text,
        convertType
          (ts.LiteralType span
             (ts.PrefixUnaryExpression ts.SyntaxKind.MinusToken
                (ts.OperandNumericLiteral text)))
        = Return (flow.NumberLiteralTypeAnnotation (flow.Negate (flow.Number text))
                    text)
        /\ convertType (ts.LiteralType span (ts.NumericLiteral text))
           = Return (flow.NumberLiteralTypeAnnotation (flow.Number text) text)).
Proof.
  split; [eexists; reflexivity|].
  split; [|intros text; split; reflexivity].
  split.
  - intros Hliteral.
    destruct literal as [| | |operator [text|operandKind]|text|text|literalKind];
      try discriminate Hliteral;
      try (destruct operator; try discriminate Hliteral);
      eexists; reflexivity.
  - intros [reason Hreason].
    destruct literal as [| | |operator [text|operandKind]|text|text|literalKind];
      try reflexivity; try discriminate Hreason;
      destruct operator; try reflexivity; discriminate Hreason.
Qed.

Lemma convertTypeLiteral_loop convertType' node members properties :
  Convert.convertTypeLiteralOver SyntaxKindName sourceFile convertType'
    node members properties =
  (converted <- mapM (convertedProperty convertType') (leadingProperties members) ;;
   match firstOtherTypeElement members with
   | None =>
     Return (flow.ObjectTypeAnnotation (properties ++ converted)%list
               [] [] (Some false) true)
   | Some kind => Return (typeElementPlaceholder SyntaxKindName sourceFile node kind)
   end).
Proof.
  revert properties.
  induction members as [|member rest IH]; intros properties.
  - cbn. rewrite app_nil_r. reflexivity.
  - destruct member as [name questionToken type|elementKind].
    + cbn [Convert.convertTypeLiteralOver firstOtherTypeElement leadingProperties
           mapM].
      unfold convertedProperty at 1, Convert.convertIdentifierCast, b.identifierOf,
        Convert.convertTypeOr.
      destruct (ts.propertyNameText name) as [text|]; [|reflexivity].
      cbn [bind].
      destruct (match type with
                | Some type' => convertType' type'
                | None => Return flow.AnyTypeAnnotation
                end) as [value|err]; [|reflexivity].
      cbn [bind]. rewrite IH.
      destruct (mapM _ (leadingProperties rest)) as [converted|err]; [|reflexivity].
      cbn [bind].
      destruct (firstOtherTypeElement rest); [reflexivity|].
      rewrite <- app_assoc. reflexivity.
    + destruct elementKind; reflexivity.
Qed.

(** X3.  A type literal converts as a whole.  Its property signatures are
    converted in order up to the first member of another kind; the name of
    each is made an identifier from its text, whatever kind of name it is
    (so a string or a number becomes an identifier with that text), and a
    computed name, which has no text, makes the conversion throw before
    the type of the property is converted.  If that goes through and all
    members are property signatures, the literal becomes an exact object
    type with one property per member, in order, and no indexers or call
    properties.  Otherwise it becomes one placeholder type quoting the whole
    literal, unimplemented for a call, construct, method, get, set or index
    member and invalid for any other kind; the properties converted before
    that member are discarded and the members after it are not looked
    at. *)
Theorem type_literal_conversion (span : ts.Span)
  (members : list (ts.TypeElement ts.TypeNode)) :
  convertType (ts.TypeLiteral span members) =
  (properties <- mapM (convertedProperty convertType) (leadingProperties members) ;;
   match firstOtherTypeElement members with
   | None => Return (flow.ObjectTypeAnnotation properties [] [] (Some false) true)
   | Some kind =>
     Return (typeElementPlaceholder SyntaxKindName sourceFile
               (ts.TypeLiteral span members) kind)
   end)
  /\ (forall questionToken type,
        convertedProperty convertType (ts.PropertyComputedName, questionToken, type)
        = Throw (BuilderError IdentifierName))
  /\ (forall text questionToken,
        convertedProperty convertType
          (ts.PropertyStringLiteral text, questionToken, None)
        = Return {| flow.key :=
                      flow.IdentifierKey
                        {| flow.name := text; flow.typeAnnotation := None |};
                    flow.value := flow.AnyTypeAnnotation;
                    flow.optional := questionToken |}).
Proof.
  split; [|split; reflexivity].
  cbn [Convert.convertType].
  rewrite convertTypeLiteral_loop. reflexivity.
Qed.

Lemma convertMembers_without_private node members properties :
  convertMembers node members properties =
  convertMembers node (filter (fun member => negb (privateNamed member)) members)
    properties.
Proof.
  revert properties.
  induction members as [|member rest IH]; intros properties.
  - reflexivity.
  - destruct member as [sig|name q type|name q type|name q sig|name q sig|memberKind];
      try destruct name;
      cbn [Convert.convertMembers filter privateNamed memberPropertyName negb
           Convert.convertName bind];
      try apply IH; try reflexivity.
    all: try (destruct (convertFunctionType sig) as [value|err]; [|reflexivity];
              cbn [bind]; apply IH).
    all: destruct type as [type|];
      [destruct (convertType type) as [value|err]; [|reflexivity]|];
      cbn [bind]; apply IH.
Qed.

Lemma placeholders_by_node node node' :
  ts.span (ts.statementNode node) = ts.span (ts.statementNode node') ->
  (forall reason, errorStatement node reason = errorStatement node' reason)
  /\ (forall reason,
        unimplementedStatement node reason = unimplementedStatement node' reason).
Proof.
  intros Hnode.
  unfold Convert.errorStatement, Convert.unimplementedStatement,
    Convert.quotedStatement.
  rewrite Hnode. split; reflexivity.
Qed.

Lemma convertExtendsTypes_by_node node node' types extends_ :
  ts.span (ts.statementNode node) = ts.span (ts.statementNode node') ->
  convertExtendsTypes node types extends_ = convertExtendsTypes node' types extends_.
Proof.
  intros Hnode. destruct (placeholders_by_node _ _ Hnode) as [Herror _].
  revert extends_.
  induction types as [|base rest IH]; intros extends_.
  - reflexivity.
  - cbn [Convert.convertExtendsTypes].
    destruct (ts.expression base) as [id|e name|literalKind text|otherKind];
      try (rewrite Herror; reflexivity).
    + destruct (isEntityNameOrEntityNameExpression _);
        [|rewrite Herror; reflexivity].
      destruct (convertTypeArguments _ _); [|reflexivity]. cbn [bind]. apply IH.
    + destruct (isEntityNameOrEntityNameExpression _);
        [|rewrite Herror; reflexivity].
      destruct (convertTypeArguments _ _); [|reflexivity]. cbn [bind]. apply IH.
Qed.

Lemma convertHeritageClauses_by_node node node' clauses extends_ :
  ts.span (ts.statementNode node) = ts.span (ts.statementNode node') ->
  convertHeritageClauses node clauses extends_
  = convertHeritageClauses node' clauses extends_.
Proof.
  intros Hnode.
  destruct (placeholders_by_node _ _ Hnode) as [_ Hunimplemented].
  revert extends_.
  induction clauses as [|clause rest IH]; intros extends_.
  - reflexivity.
  - cbn [Convert.convertHeritageClauses].
    rewrite (convertExtendsTypes_by_node node node' _ _ Hnode).
    destruct (ts.token clause); try (rewrite Hunimplemented; reflexivity).
    destruct (convertExtendsTypes node' _ _) as [[r|extends']|err];
      [reflexivity|apply IH|reflexivity].
Qed.

Lemma convertMembers_by_node node node' members properties :
  ts.span (ts.statementNode node) = ts.span (ts.statementNode node') ->
  convertMembers node members properties = convertMembers node' members properties.
Proof.
  intros Hnode.
  destruct (placeholders_by_node _ _ Hnode) as [Herror Hunimplemented].
  revert properties.
  induction members as [|member rest IH]; intros properties.
  - reflexivity.
  - destruct member as [sig|name q type|name q type|name q sig|name q sig|memberKind];
      try destruct name;
      cbn [Convert.convertMembers Convert.convertName bind];
      try apply IH; try reflexivity.
    all: try (destruct (convertFunctionType sig) as [value|err]; [|reflexivity];
              cbn [bind]; apply IH).
    all: try (destruct type as [type|];
              [destruct (convertType type) as [value|err]; [|reflexivity]|];
              cbn [bind]; apply IH).
    destruct memberKind; rewrite ?Herror, ?Hunimplemented; reflexivity.
Qed.

(** The conversion of a class or interface reads of its statement node
    only the span, the export and default modifiers and which of the two
    it is. *)
Lemma convertClassLikeDeclaration_by_node node node' declaration :
  ts.span (ts.statementNode node) = ts.span (ts.statementNode node') ->
  hasModifier node ts.SyntaxKind.ExportKeyword
  = hasModifier node' ts.SyntaxKind.ExportKeyword ->
  hasModifier node ts.SyntaxKind.DefaultKeyword
  = hasModifier node' ts.SyntaxKind.DefaultKeyword ->
  Convert.isInterfaceDeclaration node = Convert.isInterfaceDeclaration node' ->
  convertClassLikeDeclaration node declaration
  = convertClassLikeDeclaration node' declaration.
Proof.
  intros Hnode Hexport Hdefault Hinterface.
  destruct (placeholders_by_node _ _ Hnode) as [Herror Hunimplemented].
  unfold Convert.convertClassLikeDeclaration.
  rewrite (convertHeritageClauses_by_node node node' _ _ Hnode), Hinterface,
    Hexport, Hdefault, Herror, Hunimplemented.
  destruct (ts.className declaration); [|reflexivity].
  destruct (convertTypeParameterDeclaration _); [|reflexivity]. cbn [bind].
  destruct (convertHeritageClauses node' _ _) as [[r|extends_]|err];
    try reflexivity.
  cbn [bind]. rewrite (convertMembers_by_node node node' _ _ Hnode). reflexivity.
Qed.

(** What [convertStatement] adds to [convertStatementExceptExport] reads
    of the statement node only the span and the two modifiers. *)
Lemma convertStatement_by_node node node' :
  ts.span (ts.statementNode node) = ts.span (ts.statementNode node') ->
  hasModifier node ts.SyntaxKind.ExportKeyword
  = hasModifier node' ts.SyntaxKind.ExportKeyword ->
  hasModifier node ts.SyntaxKind.DefaultKeyword
  = hasModifier node' ts.SyntaxKind.DefaultKeyword ->
  convertStatementExceptExport node = convertStatementExceptExport node' ->
  convertStatement node = convertStatement node'.
Proof.
  intros Hnode Hexport Hdefault Hinner.
  unfold Convert.convertStatement, Convert.convertStatementBody,
    Convert.modifyStatementAsExport.
  rewrite Hinner, Hexport, Hdefault.
  unfold Convert.warningStatement, Convert.errorStatement, Convert.quotedStatement.
  rewrite Hnode. reflexivity.
Qed.

(** X4.  Members named by a private identifier leave no trace: a class or
    interface declaration converts to the same statement as the
    declaration without its private-named properties and methods.  (Not
    even the types of such members are converted: what they would throw
    is not thrown.) *)
Theorem private_members_dropped (nd : ts.Node) (declaration : ts.ClassLikeDeclaration) :
  let public :=
    withMembers declaration
      (filter (fun member => negb (privateNamed member)) (ts.members declaration)) in
  convertStatement (ts.ClassDeclaration nd declaration)
  = convertStatement (ts.ClassDeclaration nd public)
  /\ convertStatement (ts.InterfaceDeclaration nd declaration)
     = convertStatement (ts.InterfaceDeclaration nd public).
Proof.
  cbn zeta.
  set (public := withMembers declaration _).
  assert (Hclass : forall node,
             convertClassLikeDeclaration node declaration =
             convertClassLikeDeclaration node public).
  { intros node. unfold Convert.convertClassLikeDeclaration. subst public.
    cbn [withMembers ts.className ts.classTypeParameters ts.heritageClauses ts.members].
    rewrite <- convertMembers_without_private. reflexivity. }
  split; apply convertStatement_by_node; try reflexivity;
    cbn [Convert.convertStatementExceptExport];
    rewrite Hclass; apply convertClassLikeDeclaration_by_node; reflexivity.
Qed.

(** X5.  A class or interface declaration that has a name, whose heritage
    clauses are [extends] clauses with entity-name bases and whose members
    are constructors and properties and methods named by identifiers or
    private identifiers, ends in no placeholder of its own.  It converts
    its type parameters, then the type arguments of its bases, then its
    members, each in order, and throws what the first of these to throw
    throws; when none does it becomes a [declare class] for a class and a
    [declare interface] for an interface, with the name, the converted
    type parameters, one [extends] entry per base in order, and an object
    type with one property per member that has no private name, in
    order. *)
Theorem class_like_conversion (nd : ts.Node) (declaration : ts.ClassLikeDeclaration)
  (name : ts.Identifier) :
  ts.className declaration = Some name ->
  forallb extendsEntityNames (heritageClausesOf declaration) = true ->
  forallb passedMember (ts.members declaration) = true ->
  let converted (declare : flow.InterfaceParams -> flow.StatementNode flow.Statement) :=
    typeParameters <-
      convertTypeParameterDeclaration (ts.classTypeParameters declaration) ;;
    extends_ <- mapM (convertedBase convertTypeArguments)
                  (entityNameBases (heritageClausesOf declaration)) ;;
    properties <- mapM (convertedMember convertType convertFunctionType)
                    (ts.members declaration) ;;
    Return (flow.mkStatement
              (declare
                 {| flow.interfaceId :=
                      {| flow.name := ts.text name; flow.typeAnnotation := None |};
                    flow.interfaceTypeParameters := typeParameters;
                    flow.extends := extends_;
                    flow.body :=
                      flow.ObjectTypeAnnotation (List.concat properties)
                        [] [] None false |})
              None) in
  convertStatementExceptExport (ts.ClassDeclaration nd declaration)
  = converted flow.DeclareClass
  /\ convertStatementExceptExport (ts.InterfaceDeclaration nd declaration)
     = converted flow.DeclareInterface.
Proof.
  intros Hname Hheritage Hmembers. cbn zeta.
  cbn [Convert.convertStatementExceptExport].
  unfold Convert.convertClassLikeDeclaration. rewrite Hname.
  change (match ts.heritageClauses declaration with
          | Some clauses => clauses
          | None => []
          end) with (heritageClausesOf declaration).
  rewrite !(convertHeritageClauses_passed _ _ Hheritage),
    !(convertMembers_passed _ _ Hmembers).
  split;
    (destruct (convertTypeParameterDeclaration _); [|reflexivity]; cbn [bind];
     destruct (mapM _ (entityNameBases _)); [|reflexivity]; cbn [bind];
     destruct (mapM _ (ts.members declaration)); reflexivity).
Qed.

(** X6.  A class or interface declaration with a name and a heritage
    clause that is no [extends] clause, after [extends] clauses with
    entity-name bases only, converts its type parameters and the type
    arguments of the bases before that clause, and then, unless one of
    these conversions has thrown, becomes the unimplemented placeholder
    [class 'implements'], whatever its members are: they are not
    converted, and a member name that [convertName] rejects throws
    nothing. *)
Theorem implements_clause_unimplemented (node : ts.Statement) (nd : ts.Node)
  (declaration : ts.ClassLikeDeclaration) (name : ts.Identifier)
  (before after : list ts.HeritageClause) (clause : ts.HeritageClause) :
  node = ts.ClassDeclaration nd declaration
  \/ node = ts.InterfaceDeclaration nd declaration ->
  ts.className declaration = Some name ->
  heritageClausesOf declaration = (before ++ clause :: after)%list ->
  forallb extendsEntityNames before = true ->
  ts.token clause <> ts.SyntaxKind.ExtendsKeyword ->
  convertStatementExceptExport node =
  (typeParameters <-
     convertTypeParameterDeclaration (ts.classTypeParameters declaration) ;;
   extends_ <- mapM (convertedBase convertTypeArguments) (entityNameBases before) ;;
   Return (unimplementedPlaceholder sourceFile node "class 'implements'"))
  /\ (forall typeParameters extends_,
        convertTypeParameterDeclaration (ts.classTypeParameters declaration)
        = Return typeParameters ->
        mapM (convertedBase convertTypeArguments) (entityNameBases before)
        = Return extends_ ->
        convertStatement node =
        Return (unimplementedPlaceholder sourceFile node "class 'implements'")).
Proof.
  intros Hnode Hname Hclauses Hbefore Htoken.
  assert (Hinner :
            convertStatementExceptExport node =
            (typeParameters <-
               convertTypeParameterDeclaration (ts.classTypeParameters declaration) ;;
             extends_ <-
               mapM (convertedBase convertTypeArguments) (entityNameBases before) ;;
             Return (unimplementedPlaceholder sourceFile node "class 'implements'"))).
  { transitivity (convertClassLikeDeclaration node declaration);
      [destruct Hnode as [-> | ->]; reflexivity|].
    unfold Convert.convertClassLikeDeclaration. rewrite Hname.
    change (match ts.heritageClauses declaration with
            | Some clauses => clauses
            | None => []
            end) with (heritageClausesOf declaration).
    rewrite Hclauses, (convertHeritageClauses_converted node _ _ [] Hbefore).
    destruct (convertTypeParameterDeclaration _); [|reflexivity]. cbn [bind].
    destruct (mapM _ (entityNameBases before)); [|reflexivity]. cbn [bind].
    cbn [Convert.convertHeritageClauses].
    destruct (ts.token clause); try reflexivity.
    exfalso. apply Htoken. reflexivity. }
  split; [exact Hinner|].
  intros typeParameters extends_ HtypeParameters Hextends.
  rewrite HtypeParameters, Hextends in Hinner. cbn [bind] in Hinner.
  unfold Convert.convertStatement, Convert.convertStatementBody.
  rewrite Hinner. cbn.
  destruct (hasModifier _ _); reflexivity.
Qed.

(** X11.  An import declaration with a clause without modifiers converts
    to an import with the default import first, if there is one, and then
    the namespace import, as a namespace specifier of the same name, or
    one specifier per named import, in order.  The specifier of a named
    import has the local name of the binding and imports its property name
    when it has one, its own name otherwise; it is a type import exactly
    when the checker resolves the local name to a symbol whose immediately
    aliased symbol has none of the value flags, and a value import in
    every other case, an unresolved name included.  The module is the
    [text] of the module specifier; a module specifier that has none (an
    expression that is no literal and no identifier) makes the conversion
    throw, after the specifiers have been built. *)
Theorem import_specifiers (nd : ts.Node) (importClause : ts.ImportClause)
  (moduleSpecifier : ts.Expression) :
  ts.importClauseModifiers importClause = None ->
  exists named,
    convertStatementExceptExport
      (ts.ImportDeclaration nd (Some importClause) moduleSpecifier)
    = match ts.expressionText moduleSpecifier with
      | Some source =>
        Return (flow.mkStatement
                  (flow.ImportDeclaration
                     (match ts.importClauseName importClause with
                      | Some name =>
                        [flow.ImportDefaultSpecifier
                           {| flow.name := ts.text name;
                              flow.typeAnnotation := None |}]
                      | None => []
                      end ++ named)
                     source)
                  None)
      | None => Throw (BuilderError StringLiteralValue)
      end
    /\ match ts.namedBindings importClause with
       | None => named = []
       | Some (ts.NamespaceImport name) =>
         named = [flow.ImportNamespaceSpecifier
                    {| flow.name := ts.text name; flow.typeAnnotation := None |}]
       | Some (ts.NamedImports elements) =>
         List.length named = List.length elements
         /\ forall index binding,
              nth_error elements index = Some binding ->
              exists importKind,
                nth_error named index
                = Some (flow.ImportSpecifier
                          {| flow.name := importedName binding;
                             flow.typeAnnotation := None |}
                          {| flow.name := ts.text (ts.importName binding);
                             flow.typeAnnotation := None |}
                          importKind)
                /\ (importKind = flow.type <->
                    exists localSymbol importedSymbol,
                      ts.getSymbolAtLocation checker
                        (ts.EntityIdentifier (ts.importName binding))
                      = Some localSymbol
                      /\ ts.getImmediateAliasedSymbol checker localSymbol
                         = Some importedSymbol
                      /\ N.land (ts.flags importedSymbol) ts.SymbolFlags_Value
                         = 0%N)
       end.
Proof.
  intros Hmodifiers.
  cbn [Convert.convertStatementExceptExport].
  unfold Convert.convertImportDeclaration. rewrite Hmodifiers.
  eexists. split.
  - unfold b.stringLiteral.
    destruct (ts.expressionText moduleSpecifier) as [source|]; [|reflexivity].
    cbn [bind]. unfold b.importDeclaration, b.statement.
    destruct (ts.importClauseName importClause); reflexivity.
  - destruct (ts.namedBindings importClause) as [[name|elements]|];
      [reflexivity| |reflexivity].
    split; [apply length_map|].
    intros index binding Hbinding.
    rewrite nth_error_map, Hbinding. cbn [option_map].
    eexists. split.
    + unfold importedName, Convert.convertIdentifier, b.identifier.
      destruct (ts.importPropertyName binding); reflexivity.
    + destruct (ts.getSymbolAtLocation checker _) as [localSymbol|].
      * destruct (ts.getImmediateAliasedSymbol checker localSymbol)
          as [importedSymbol|] eqn:Himported.
        -- destruct (N.eqb_spec (N.land (ts.flags importedSymbol)
                                   ts.SymbolFlags_Value) 0) as [Hflags|Hflags].
           ++ split; [|reflexivity]. intros _.
              exists localSymbol, importedSymbol.
              split; [reflexivity|split; [exact Himported|exact Hflags]].
           ++ split; [discriminate|].
              intros [l [i [Hl [Hi Hzero]]]].
              injection Hl as <-. rewrite Himported in Hi.
              injection Hi as <-. contradiction.
        -- split; [discriminate|].
           intros [l [i [Hl [Hi _]]]]. injection Hl as <-.
           rewrite Himported in Hi. discriminate Hi.
      * split; [discriminate|].
        intros [l [i [Hl _]]]. discriminate Hl.
Qed.

(** X12.  An export declaration with an assert clause converts to an
    unimplemented placeholder, whatever else it has.  Without one its
    module specifier is read first, and one that has no [text] makes the
    conversion throw.  After that [export *] becomes an export-all of the
    module, or the invalid placeholder when there is no module;
    [export * as ns] always throws, the builder of named exports refusing
    the namespace specifier it is handed; and a list of named exports
    becomes a named export without declaration, with one specifier per
    element in order, each exporting under its name the local name the
    source gives (its property name, or its own name).  Whether the
    declaration or an element is type-only leaves no mark on the
    result. *)
Theorem export_declaration_conversion (node : ts.Statement) (isTypeOnly : bool)
  (exportClause : option ts.NamedExportBindings)
  (moduleSpecifier : option ts.Expression) (assertClause : bool) :
  Convert.convertExportDeclaration sourceFile node isTypeOnly exportClause
    moduleSpecifier assertClause
  = (if assertClause
     then Return (unimplementedPlaceholder sourceFile node
                    "`export … from 'foo' assert { … }`")
     else
       source <- convertedSource moduleSpecifier ;;
       match exportClause with
       | None =>
         match source with
         | Some source =>
           Return (flow.mkStatement (flow.ExportAllDeclaration source None) None)
         | None =>
           Return (invalidPlaceholder sourceFile node
                     "expected `export *` to have `from`")
         end
       | Some (ts.NamespaceExport name) =>
         Throw (BuilderError
                  (ExportNamedDeclarationSpecifiers
                     [flow.ExportNamespaceSpecifier
                        {| flow.name := ts.text name;
                           flow.typeAnnotation := None |}]))
       | Some (ts.NamedExports elements) =>
         Return (flow.mkStatement
                   (flow.ExportNamedDeclaration None
                      (map (fun spec =>
                              flow.ExportSpecifier
                                {| flow.name := exportedLocalName spec;
                                   flow.typeAnnotation := None |}
                                {| flow.name := ts.text (ts.exportName spec);
                                   flow.typeAnnotation := None |})
                           elements)
                      source)
                   None)
       end).
Proof.
  unfold Convert.convertExportDeclaration.
  destruct assertClause; [reflexivity|].
  assert (Hsource :
            match moduleSpecifier with
            | None => Return None
            | Some moduleSpecifier =>
              literal <- b.stringLiteral (ts.expressionText moduleSpecifier) ;;
              Return (Some literal)
            end = convertedSource moduleSpecifier).
  { destruct moduleSpecifier as [moduleSpecifier|]; [|reflexivity].
    unfold convertedSource, b.stringLiteral.
    destruct (ts.expressionText moduleSpecifier); reflexivity. }
  rewrite Hsource.
  destruct (convertedSource moduleSpecifier) as [source|err]; [|reflexivity].
  cbn [bind].
  destruct exportClause as [[name|elements]|].
  - reflexivity.
  - unfold b.exportNamedDeclaration_from, b.exportNamedDeclaration.
    assert (Hspecifiers :
              map (fun spec =>
                     b.exportSpecifier_from
                       (Convert.convertIdentifier
                          (match ts.exportPropertyName spec with
                           | Some propertyName => propertyName
                           | None => ts.exportName spec
                           end) None)
                       (Convert.convertIdentifier (ts.exportName spec) None)
                       (if ts.specIsTypeOnly spec then flow.type else flow.value_))
                  elements
              = map (fun spec =>
                       flow.ExportSpecifier
                         {| flow.name := exportedLocalName spec;
                            flow.typeAnnotation := None |}
                         {| flow.name := ts.text (ts.exportName spec);
                            flow.typeAnnotation := None |})
                    elements).
    { apply map_ext. intros spec.
      unfold exportedLocalName, b.exportSpecifier_from, Convert.convertIdentifier.
      destruct (ts.exportPropertyName spec); reflexivity. }
    rewrite Hspecifiers.
    assert (Haccepted : forall l : list ts.ExportSpecifier,
               forallb b.isExportSpecifier
                 (map (fun spec =>
                         flow.ExportSpecifier
                           {| flow.name := exportedLocalName spec;
                              flow.typeAnnotation := None |}
                           {| flow.name := ts.text (ts.exportName spec);
                              flow.typeAnnotation := None |})
                      l) = true).
    { intros l. induction l as [|spec rest IH]; [reflexivity|exact IH]. }
    rewrite Haccepted. reflexivity.
  - destruct source; reflexivity.
Qed.

Lemma land_low_bits (flags : N) :
  N.land flags (N.lor ts.NodeFlags_Const ts.NodeFlags_Let) = (flags mod 4)%N.
Proof.
  change (N.lor ts.NodeFlags_Const ts.NodeFlags_Let) with (N.ones 2).
  rewrite N.land_ones. reflexivity.
Qed.

(** X13.  A variable statement converts its declarations in order, of
    each first the type, if it declares one, and then the name; a name
    that is a binding pattern makes the conversion throw, and so does a
    type whose conversion throws.  Otherwise the statement becomes a
    declaration with one declarator per variable, in order, named as in
    the source and annotated with the converted type where the source
    declares one.  Its kind depends on the two low bits of the flags of
    the declaration list alone: [let] when they are the let flag and
    nothing else, and [var] in every other case, [const] included. *)
Theorem variable_statement_conversion (nd : ts.Node)
  (declarationList : ts.VariableDeclarationList) :
  convertStatementExceptExport (ts.VariableStatement nd declarationList) =
  (declarators <- mapM (convertedDeclarator convertType)
                    (ts.listDeclarations declarationList) ;;
   Return (flow.mkStatement
             (flow.VariableDeclaration
                (if N.eqb (ts.listFlags declarationList mod 4) 1 then "let" else "var")
                declarators)
             None)).
Proof.
  cbn [Convert.convertStatementExceptExport].
  unfold Convert.convertVariableStatement, b.variableDeclaration, b.statement.
  rewrite land_low_bits.
  assert (Hdeclarators :
            mapM (fun node =>
                    type <- match ts.variableType node with
                            | Some type =>
                              converted <- convertType type ;; Return (Some converted)
                            | None => Return None
                            end ;;
                    Convert.convertIdentifierCast
                      (ts.bindingNameText (ts.variableName node)) type)
                 (ts.listDeclarations declarationList)
            = mapM (convertedDeclarator convertType)
                (ts.listDeclarations declarationList)).
  { apply mapM_ext. intros declaration _. unfold convertedDeclarator.
    destruct (match ts.variableType declaration with
              | Some type => converted <- convertType type ;; Return (Some converted)
              | None => Return None
              end) as [[type|]|err];
      destruct (ts.variableName declaration); reflexivity. }
  rewrite Hdeclarators. clear Hdeclarators.
  assert (Hkind :
            (if N.eqb (ts.listFlags declarationList mod 4) ts.NodeFlags_Const
             then "var"
             else if N.eqb (ts.listFlags declarationList mod 4) ts.NodeFlags_Let
                  then "let" else "var")
            = (if N.eqb (ts.listFlags declarationList mod 4) 1
               then "let" else "var")).
  { destruct (N.eqb_spec (ts.listFlags declarationList mod 4) ts.NodeFlags_Const)
      as [Hconst|Hconst]; [rewrite Hconst|]; reflexivity. }
  rewrite Hkind. reflexivity.
Qed.

(** X14.  The React component macro accepts up to two type arguments and
    keeps the name as written.  With more than two it returns the Error
    [bad React.Component: <n> arguments (expected 0-2)] and converts
    nothing.  Otherwise it converts the arguments, in order, and then asks
    the converter for the Flow name of the name as written: when the
    converter has [convertEntityNameAsType], the result is the reference
    under that name with the converted arguments, and with the inexact
    empty object type as its one argument when the source gives none; when
    the converter has no such method, the call throws a TypeError. *)
Theorem react_component_arguments (converter : Converter) (typeName : ts.EntityName)
  (typeArguments : option (list ts.TypeNode)) :
  convertReactComponent converter typeName typeArguments =
  if Nat.leb (argumentCount typeArguments) 2
  then
    args <- match argumentsOf typeArguments with
            | [] => Return [flow.ObjectTypeAnnotation [] [] [] (Some true) false]
            | arguments => mapM (Converter.convertType converter) arguments
            end ;;
    match Converter.convertEntityNameAsType converter with
    | Some convertEntityNameAsType' =>
      Return (success {| flow.id := convertEntityNameAsType' typeName;
                         flow.typeParameters := Some args |})
    | None => Throw (TypeError "converter.convertEntityNameAsType")
    end
  else
    Return (failure
              {| kind := error;
                 description :=
                   "bad React.Component: " ++ showNat (argumentCount typeArguments)
                     ++ " arguments (expected 0-2)" |}).
Proof.
  unfold convertReactComponent, call.
  destruct typeArguments as [[|a [|b' [|c rest]]]|];
    cbn [argumentCount argumentsOf List.length Nat.leb mapM];
    try reflexivity.
  - destruct (Converter.convertEntityNameAsType converter); reflexivity.
  - destruct (Converter.convertType converter a); [|reflexivity].
    destruct (Converter.convertEntityNameAsType converter); reflexivity.
  - destruct (Converter.convertType converter a); [|reflexivity].
    destruct (Converter.convertType converter b'); [|reflexivity].
    destruct (Converter.convertEntityNameAsType converter); reflexivity.
  - destruct (Converter.convertEntityNameAsType converter); reflexivity.
Qed.

(** X15.  The React element macro always names its result
    [React$Element] and gives it exactly one type argument: without type
    arguments in the source it is [React$ElementType]; with one it is
    [React$ComponentType] of the converted argument; with two it is the
    conversion of the second, and the first is not converted and does not
    count, no more than the name written.  With more than two the macro
    returns the Error [bad React.Element: <n> arguments (expected 0-2)].
    It throws only what the conversion of that one argument throws. *)
Theorem react_element_arguments (converter : Converter) (typeName : ts.EntityName)
  (typeArguments : option (list ts.TypeNode)) :
  let element argument :=
    success {| flow.id :=
                 flow.Id {| flow.name := "React$Element";
                            flow.typeAnnotation := None |};
               flow.typeParameters := Some [argument] |} in
  convertReactElement converter typeName typeArguments =
  match argumentsOf typeArguments with
  | [] => Return (element (genericOf "React$ElementType" None))
  | [propsType] =>
    props <- Converter.convertType converter propsType ;;
    Return (element (genericOf "React$ComponentType" (Some [props])))
  | [propsType; typeType] =>
    type <- Converter.convertType converter typeType ;;
    Return (element type)
  | _ =>
    Return (failure
              {| kind := error;
                 description :=
                   "bad React.Element: " ++ showNat (argumentCount typeArguments)
                     ++ " arguments (expected 0-2)" |})
  end.
Proof.
  destruct typeArguments as [[|a [|b' [|c rest]]]|]; reflexivity.
Qed.

Lemma allLiteralKeys_every (types : list ts.TypeNode) :
  match allLiteralKeys types with
  | Some keys =>
    forallb isStringLiteralType types = true
    /\ map stringLiteralTypeText types = keys
  | None => forallb isStringLiteralType types = false
  end.
Proof.
  induction types as [|type rest IH]; [split; reflexivity|].
  cbn [allLiteralKeys forallb map].
  destruct type as [s t|s [| | |o p|text|text|kind]|s n|s o t|s n a|s types|s types
                   |s o i|s e|s es|s sig|s ms|s kind];
    try reflexivity.
  cbn [literalKey isStringLiteralType stringLiteralTypeText andb].
  destruct (allLiteralKeys rest) as [keys|].
  - destruct IH as [Hevery Htexts]. split; [exact Hevery|].
    rewrite Htexts. reflexivity.
  - exact IH.
Qed.

(** X16.  With two type arguments the Omit macro returns [$Diff] of the
    converted first argument and a subtrahend.  When the second argument
    is a string literal type, or a union of string literal types, the
    subtrahend is the exact object type with one property of type [mixed]
    per literal, in order, keyed by the text of the literal, and the
    second argument is not converted.  In every other case, a string
    literal in parentheses included, it is the exact object type without
    properties whose single indexer goes from the converted second
    argument to [mixed]; the second argument is then converted before the
    first. *)
Theorem omit_subtrahend (converter : Converter) (typeName : ts.EntityName)
  (objectType keysType : ts.TypeNode) :
  convertOmit converter typeName (Some [objectType; keysType]) =
  (subtrahend <- match literalKeys keysType with
                 | Some keys => Return (objectOfKeys keys)
                 | None =>
                   key <- Converter.convertType converter keysType ;;
                   Return (objectIndexedBy key)
                 end ;;
   object <- Converter.convertType converter objectType ;;
   Return (success {| flow.id :=
                        flow.Id {| flow.name := "$Diff";
                                   flow.typeAnnotation := None |};
                      flow.typeParameters := Some [object; subtrahend] |}))
  /\ (forall span text,
        literalKeys (ts.ParenthesizedType span
                       (ts.LiteralType span (ts.StringLiteral text))) = None).
Proof.
  split; [|reflexivity].
  unfold convertOmit.
  destruct keysType as [s t|s [| | |o p|text|text|kind]|s n|s o t|s n a|s types|s types
                       |s o i|s e|s es|s sig|s ms|s kind];
    try reflexivity.
  cbn [literalKeys].
  pose proof (allLiteralKeys_every types) as Hkeys.
  destruct (allLiteralKeys types) as [keys|].
  - destruct Hkeys as [Hevery Htexts]. rewrite Hevery.
    unfold objectOfKeys, omittedKey, b.objectTypeProperty.
    rewrite <- Htexts, map_map. reflexivity.
  - rewrite Hkeys. reflexivity.
Qed.

Lemma convertTypeArguments_returns (typeName : ts.EntityName)
  (typeArguments : option (list ts.TypeNode)) :
  (forall type, In type (argumentsOf typeArguments) ->
     exists converted, convertType type = Return converted) ->
  exists typeParameters,
    convertTypeArguments typeName typeArguments = Return typeParameters.
Proof.
  intros Harguments.
  unfold Convert.convertTypeArguments, Convert.convertTypeArgumentsOver.
  destruct typeArguments as [arguments|].
  - destruct (mapM_total convertType arguments Harguments) as [converted Hconverted].
    rewrite Hconverted. eexists; reflexivity.
  - destruct (some _ _); eexists; reflexivity.
Qed.

(** X17.  What a type reference converts to, when its conversion returns,
    is a generic type annotation, and it carries comments only as the
    invalid placeholder type of a macro that returned an Error, never as
    an unimplemented one.  A reference whose symbol is unknown to the
    checker or has no rewrite keeps the dotted name of the source, gets
    the type arguments of [convertTypeArguments] and carries no comments.
    The conversion returns whenever the type arguments convert, except
    under the React component macro: a reference rewritten by that macro
    converts only with more than two type arguments, to the invalid
    placeholder type; with up to two the conversion throws, and when the
    arguments convert what it throws is the TypeError of the call of
    [converter.convertEntityNameAsType], which the converter handed to
    macros does not have. *)
Theorem type_reference_shape (span : ts.Span) (typeName : ts.EntityName)
  (typeArguments : option (list ts.TypeNode)) :
  let node := ts.TypeReference span typeName typeArguments in
  (forall t,
     convertType node = Return t ->
     exists id typeParameters comments,
       t = flow.GenericTypeAnnotation id typeParameters comments
       /\ (comments = None
           \/ exists reason, t = invalidPlaceholderType sourceFile node reason))
  /\ (mappedName mapper checker typeName = None ->
      convertType node =
      (typeParameters <- convertTypeArguments typeName typeArguments ;;
       Return (flow.GenericTypeAnnotation
                 (Convert.convertEntityNameAsType typeName) typeParameters None))
      /\ typeIdentifierParts (Convert.convertEntityNameAsType typeName)
         = entityNameParts typeName)
  /\ (mappedName mapper checker typeName
      <> Some (TypeReferenceMacro ReactComponentMacro) ->
      (forall type, In type (argumentsOf typeArguments) ->
         exists converted, convertType type = Return converted) ->
      exists t, convertType node = Return t)
  /\ (mappedName mapper checker typeName
      = Some (TypeReferenceMacro ReactComponentMacro) ->
      (2 < argumentCount typeArguments ->
       convertType node =
       Return (invalidPlaceholderType sourceFile node
                 ("bad React.Component: " ++ showNat (argumentCount typeArguments)
                    ++ " arguments (expected 0-2)")))
      /\ (argumentCount typeArguments <= 2 ->
          exists err,
            convertType node = Throw err
            /\ ((forall type, In type (argumentsOf typeArguments) ->
                   exists converted, convertType type = Return converted) ->
                err = TypeError "converter.convertEntityNameAsType"))).
Proof.
  cbn zeta. unfold mappedName.
  cbn [Convert.convertType].
  unfold Convert.convertTypeReferenceOver, Convert.convertTypeReferenceLikeOver.
  fold (Convert.convertTypeArguments SyntaxKindName sourceFile mapper checker).
  destruct (match ts.getSymbolAtLocation checker typeName with
            | Some symbol => getSymbol mapper symbol
            | None => None
            end) as [[name|macro]|].
  - split; [|split; [discriminate|split; [|discriminate]]].
    + intros t H.
      destruct (convertTypeArguments typeName typeArguments); [|discriminate H].
      injection H as <-. eexists _, _, _. split; [reflexivity|left; reflexivity].
    + intros _ Harguments.
      destruct (convertTypeArguments_returns typeName typeArguments Harguments)
        as [typeParameters ->].
      eexists; reflexivity.
  - split; [|split; [discriminate|split]].
    + intros t H.
      destruct macro;
        destruct typeArguments as [[|a [|b' [|c rest]]]|];
        cbn in H; unfold bind, call in H; cbn in H;
        repeat destruct_match_in H;
        first [ match goal with Hc : _ = _ |- _ => discriminate Hc end
              | injection H as <-; eexists _, _, _;
                split; [reflexivity|];
                first [left; reflexivity | right; eexists; reflexivity] ].
    + intros Hmacro Harguments.
      destruct macro; [| exfalso; apply Hmacro; reflexivity | |].
      * destruct typeArguments as [[|a [|b' [|c rest]]]|];
          try (eexists; reflexivity).
        destruct (Harguments a (or_introl eq_refl)) as [object Hobject].
        destruct (Harguments b' (or_intror (or_introl eq_refl))) as [keys Hkeys].
        cbn [convert]. unfold convertOmit.
        cbn [Converter.convertType Convert.converterOf].
        rewrite Hobject, Hkeys.
        destruct b' as [s t|s [| | |o p|text|text|kind]|s n|s o t|s n a'|s types
                       |s types|s o i|s e|s es|s sig|s ms|s kind];
          try (eexists; reflexivity).
        destruct (forallb isStringLiteralType types); eexists; reflexivity.
      * destruct typeArguments as [[|a [|b' [|c rest]]]|];
          try (eexists; reflexivity).
        -- destruct (Harguments a (or_introl eq_refl)) as [props Hprops].
           cbn [convert]. unfold convertReactElement.
           cbn [Converter.convertType Convert.converterOf].
           rewrite Hprops. eexists; reflexivity.
        -- destruct (Harguments b' (or_intror (or_introl eq_refl))) as [type Htype].
           cbn [convert]. unfold convertReactElement.
           cbn [Converter.convertType Convert.converterOf].
           rewrite Htype. eexists; reflexivity.
      * eexists; reflexivity.
    + intros Hmacro. injection Hmacro as ->. split.
      * intros Hcount.
        destruct typeArguments as [[|a [|b' [|c rest]]]|];
          try (cbn in Hcount; lia).
        reflexivity.
      * intros Hcount.
        destruct typeArguments as [[|a [|b' [|c rest]]]|];
          try (cbn in Hcount; lia);
          cbn [convert]; unfold convertReactComponent, call;
          cbn [Converter.convertType Converter.convertEntityNameAsType
               Convert.converterOf argumentsOf].
        -- eexists. split; [reflexivity|reflexivity].
        -- destruct (convertType a) as [props|err] eqn:Hprops.
           ++ eexists. split; [reflexivity|reflexivity].
           ++ eexists. split; [reflexivity|].
              intros Harguments.
              destruct (Harguments a (or_introl eq_refl)) as [converted Hconverted].
              congruence.
        -- destruct (convertType a) as [props|err] eqn:Hprops.
           ++ destruct (convertType b') as [state|err] eqn:Hstate.
              ** eexists. split; [reflexivity|reflexivity].
              ** eexists. split; [reflexivity|].
                 intros Harguments.
                 destruct (Harguments b' (or_intror (or_introl eq_refl)))
                   as [converted Hconverted].
                 congruence.
           ++ eexists. split; [reflexivity|].
              intros Harguments.
              destruct (Harguments a (or_introl eq_refl)) as [converted Hconverted].
              congruence.
        -- eexists. split; [reflexivity|reflexivity].
  - split; [|split; [|split; [|discriminate]]].
    + intros t H.
      destruct (convertTypeArguments typeName typeArguments); [|discriminate H].
      injection H as <-. eexists _, _, _. split; [reflexivity|left; reflexivity].
    + intros _. split.
      * destruct (convertTypeArguments typeName typeArguments); reflexivity.
      * destruct (convertEntityNameAsType_of_parts typeName)
          as [first [others [Hparts Hconverted]]].
        rewrite Hconverted, Hparts. apply typeIdentifierParts_of_parts.
    + intros _ Harguments.
      destruct (convertTypeArguments_returns typeName typeArguments Harguments)
        as [typeParameters ->].
      eexists; reflexivity.
Qed.

(** X20.  Of the modifiers of a statement the converter reads only
    whether [export] and whether [default] are among them: a statement
    converts to the same result under any other list of modifiers that
    agrees on these two ([declare] and [abstract], for instance, change
    nothing). *)
Theorem other_modifiers_ignored (node : ts.Statement)
  (modifiers : option (list ts.SyntaxKind)) :
  hasModifier (withModifiers node modifiers) ts.SyntaxKind.ExportKeyword
  = hasModifier node ts.SyntaxKind.ExportKeyword ->
  hasModifier (withModifiers node modifiers) ts.SyntaxKind.DefaultKeyword
  = hasModifier node ts.SyntaxKind.DefaultKeyword ->
  convertStatement (withModifiers node modifiers) = convertStatement node.
Proof.
  intros Hexport Hdefault.
  assert (Hspan : ts.span (ts.statementNode (withModifiers node modifiers))
                  = ts.span (ts.statementNode node))
    by (destruct node; reflexivity).
  destruct (placeholders_by_node _ _ Hspan) as [Herror Hunimplemented].
  apply convertStatement_by_node; try assumption.
  destruct node as [nd importClause moduleSpecifier
                   |nd isTypeOnly exportClause moduleSpecifier assertClause
                   |nd isExportEquals expression
                   |nd declarationList
                   |nd name typeParameters type
                   |nd name signature
                   |nd declaration
                   |nd declaration
                   |nd kind];
    cbn [withModifiers Convert.convertStatementExceptExport] in *.
  - unfold Convert.convertImportDeclaration. rewrite !Hunimplemented. reflexivity.
  - unfold Convert.convertExportDeclaration.
    rewrite !Hunimplemented, !Herror. reflexivity.
  - unfold Convert.convertExportAssignment. rewrite !Hunimplemented. reflexivity.
  - reflexivity.
  - reflexivity.
  - unfold Convert.convertFunctionDeclaration.
    rewrite Hexport, Hdefault, !Hunimplemented, !Herror. reflexivity.
  - apply convertClassLikeDeclaration_by_node; try assumption. reflexivity.
  - apply convertClassLikeDeclaration_by_node; try assumption. reflexivity.
  - destruct kind; rewrite ?Hunimplemented, ?Herror; reflexivity.
Qed.

(** ** Where the errors come from *)

(** Induction on type nodes, with the hypothesis for every type node in
    the lists and records of a node. *)
Lemma TypeNode_nested_ind (P : ts.TypeNode -> Prop) :
  (forall span type, P type -> P (ts.ParenthesizedType span type)) ->
  (forall span literal, P (ts.LiteralType span literal)) ->
  (forall span exprName, P (ts.TypeQuery span exprName)) ->
  (forall span operator type, P type -> P (ts.TypeOperator span operator type)) ->
  (forall span typeName typeArguments,
     holdsOnArguments P typeArguments ->
     P (ts.TypeReference span typeName typeArguments)) ->
  (forall span types, Forall P types -> P (ts.UnionType span types)) ->
  (forall span types, Forall P types -> P (ts.IntersectionType span types)) ->
  (forall span objectType indexType,
     P objectType -> P indexType ->
     P (ts.IndexedAccessType span objectType indexType)) ->
  (forall span elementType, P elementType -> P (ts.ArrayType span elementType)) ->
  (forall span elements, Forall P elements -> P (ts.TupleType span elements)) ->
  (forall span signature,
     holdsOnSignature P signature -> P (ts.FunctionType span signature)) ->
  (forall span members,
     Forall (holdsOnTypeElement P) members -> P (ts.TypeLiteral span members)) ->
  (forall span kind, P (ts.OtherType span kind)) ->
  forall node, P node.
Proof.
  intros HParenthesized HLiteral HTypeQuery HTypeOperator HTypeReference HUnion
    HIntersection HIndexedAccess HArray HTuple HFunction HTypeLiteral HOther.
  exact (fix TypeNode_nested_ind (node : ts.TypeNode) : P node :=
  let optional (type : option ts.TypeNode) : holdsOn P type :=
    match type with
    | Some type => TypeNode_nested_ind type
    | None => I
    end in
  let all :=
    fix all (types : list ts.TypeNode) : Forall P types :=
      match types with
      | [] => @Forall_nil _ P
      | type :: rest =>
        @Forall_cons _ P type rest (TypeNode_nested_ind type) (all rest)
      end in
  match node with
  | ts.ParenthesizedType span type =>
    HParenthesized span type (TypeNode_nested_ind type)
  | ts.LiteralType span literal => HLiteral span literal
  | ts.TypeQuery span exprName => HTypeQuery span exprName
  | ts.TypeOperator span operator type =>
    HTypeOperator span operator type (TypeNode_nested_ind type)
  | ts.TypeReference span typeName typeArguments =>
    HTypeReference span typeName typeArguments
      (match typeArguments return holdsOnArguments P typeArguments with
       | Some arguments => all arguments
       | None => I
       end)
  | ts.UnionType span types => HUnion span types (all types)
  | ts.IntersectionType span types => HIntersection span types (all types)
  | ts.IndexedAccessType span objectType indexType =>
    HIndexedAccess span objectType indexType (TypeNode_nested_ind objectType)
      (TypeNode_nested_ind indexType)
  | ts.ArrayType span elementType =>
    HArray span elementType (TypeNode_nested_ind elementType)
  | ts.TupleType span elements => HTuple span elements (all elements)
  | ts.FunctionType span signature =>
    HFunction span signature
      (match signature return holdsOnSignature P signature with
       | ts.Build_SignatureDeclaration typeParameters parameters type =>
         conj
           (match typeParameters return holdsOnTypeParameters P typeParameters with
            | Some params =>
              (fix each (params : list (ts.TypeParameterDeclaration ts.TypeNode))
                 : Forall (holdsOnTypeParameter P) params :=
                 match params with
                 | [] => @Forall_nil _ (holdsOnTypeParameter P)
                 | param :: rest =>
                   @Forall_cons _ (holdsOnTypeParameter P) param rest
                     (match param return holdsOnTypeParameter P param with
                      | ts.Build_TypeParameterDeclaration _ constraint default =>
                        conj (optional constraint) (optional default)
                      end)
                     (each rest)
                 end) params
            | None => I
            end)
           (conj
              ((fix each (parameters : list (ts.ParameterDeclaration ts.TypeNode))
                  : Forall (holdsOnParameter P) parameters :=
                  match parameters with
                  | [] => @Forall_nil _ (holdsOnParameter P)
                  | param :: rest =>
                    @Forall_cons _ (holdsOnParameter P) param rest
                      (match param return holdsOnParameter P param with
                       | ts.Build_ParameterDeclaration _ _ _ type => optional type
                       end)
                      (each rest)
                  end) parameters)
              (optional type))
       end)
  | ts.TypeLiteral span members =>
    HTypeLiteral span members
      ((fix each (members : list (ts.TypeElement ts.TypeNode))
          : Forall (holdsOnTypeElement P) members :=
          match members with
          | [] => @Forall_nil _ (holdsOnTypeElement P)
          | member :: rest =>
            @Forall_cons _ (holdsOnTypeElement P) member rest
              (match member return holdsOnTypeElement P member with
               | ts.TypeLiteralProperty _ _ type => optional type
               | ts.OtherTypeElement _ => I
               end)
              (each rest)
          end) members)
  | ts.OtherType span kind => HOther span kind
  end).
Qed.

Lemma bind_throws {A B : Type} (m : Outcome A) (k : A -> Outcome B) (err : Exception) :
  bind m k = Throw err ->
  m = Throw err \/ exists x, m = Return x /\ k x = Throw err.
Proof.
  destruct m as [x|err']; cbn [bind]; intros H.
  - right. exists x. split; [reflexivity|exact H].
  - left. injection H as <-. reflexivity.
Qed.

Lemma mapM_throws {A B : Type} (Q : Exception -> Prop) (f : A -> Outcome B)
  (l : list A) (err : Exception) :
  Forall (fun x => forall err, f x = Throw err -> Q err) l ->
  mapM f l = Throw err -> Q err.
Proof.
  induction 1 as [|x rest Hx Hrest IH]; intros H; cbn in H.
  - discriminate H.
  - apply bind_throws in H as [H | [y [_ H]]]; [exact (Hx _ H)|].
    apply bind_throws in H as [H | [ys [_ H]]]; [exact (IH H)|discriminate H].
Qed.

Lemma holdsOn_all (P : ts.TypeNode -> Prop) :
  (forall node, P node) ->
  (forall type, holdsOn P type)
  /\ (forall params, holdsOnTypeParameters P params)
  /\ (forall signature, holdsOnSignature P signature)
  /\ (forall typeArguments, holdsOnArguments P typeArguments).
Proof.
  intros HP.
  assert (Htype : forall type, holdsOn P type)
    by (intros [type|]; [apply HP|exact I]).
  assert (Hparams : forall params, holdsOnTypeParameters P params).
  { intros [params|]; [|exact I].
    apply Forall_forall. intros param _. split; apply Htype. }
  split; [exact Htype|split; [exact Hparams|split]].
  - intros signature. split; [apply Hparams|split; [|apply Htype]].
    apply Forall_forall. intros param _. apply Htype.
  - intros [arguments|]; [|exact I].
    apply Forall_forall. intros type _. apply HP.
Qed.

Section Throws.

Variable convertType' : ts.TypeNode -> Outcome flow.FlowType.

Local Notation safe := (throwsAsTypes convertType').

Lemma convertTypeOr_throws type otherwise err :
  holdsOn safe type ->
  Convert.convertTypeOr convertType' type otherwise = Throw err ->
  thrownByTypes err.
Proof.
  destruct type as [type|]; intros Hsafe H.
  - exact (Hsafe _ H).
  - discriminate H.
Qed.

Lemma convertTypeArgumentsOver_throws typeName typeArguments err :
  holdsOnArguments safe typeArguments ->
  Convert.convertTypeArgumentsOver checker convertType' typeName typeArguments
  = Throw err ->
  thrownByTypes err.
Proof.
  unfold Convert.convertTypeArgumentsOver.
  destruct typeArguments as [arguments|]; intros Hsafe H.
  - apply bind_throws in H as [H | [converted [_ H]]]; [|discriminate H].
    exact (mapM_throws thrownByTypes _ _ _ Hsafe H).
  - destruct (some _ _); discriminate H.
Qed.

Lemma convertTypeParameterDeclarationOver_throws params err :
  holdsOnTypeParameters safe params ->
  Convert.convertTypeParameterDeclarationOver convertType' params = Throw err ->
  thrownByTypes err.
Proof.
  unfold Convert.convertTypeParameterDeclarationOver.
  destruct params as [params|]; intros Hsafe H; [|discriminate H].
  apply bind_throws in H as [H | [converted [_ H]]]; [|discriminate H].
  refine (mapM_throws thrownByTypes _ _ _ _ H).
  refine (Forall_impl _ _ Hsafe).
  intros param [Hconstraint Hdefault] err' H'.
  apply bind_throws in H' as [H' | [bound [_ H']]].
  - destruct (ts.constraint param) as [constraint|]; [|discriminate H'].
    apply bind_throws in H' as [H' | [type [_ H']]]; [|discriminate H'].
    exact (Hconstraint _ H').
  - apply bind_throws in H' as [H' | [default [_ H']]]; [|discriminate H'].
    destruct (ts.default param) as [default|]; [|discriminate H'].
    apply bind_throws in H' as [H' | [type [_ H']]]; [|discriminate H'].
    exact (Hdefault _ H').
Qed.

Lemma convertParametersOver_throws parameters :
  Forall (holdsOnParameter safe) parameters ->
  forall params err,
    Convert.convertParametersOver convertType' parameters params = Throw err ->
    thrownByTypes err.
Proof.
  induction 1 as [|param rest Hparam Hrest IH]; intros params err H;
    cbn [Convert.convertParametersOver] in H.
  - discriminate H.
  - destruct (ts.dotDotDotToken param).
    + apply bind_throws in H as [H | [type [_ H]]]; [|discriminate H].
      exact (convertTypeOr_throws _ _ _ Hparam H).
    + apply bind_throws in H as [H | [type [_ H]]].
      * exact (convertTypeOr_throws _ _ _ Hparam H).
      * exact (IH _ _ H).
Qed.

Lemma convertFunctionTypeOver_throws signature err :
  holdsOnSignature safe signature ->
  Convert.convertFunctionTypeOver convertType' signature = Throw err ->
  thrownByTypes err.
Proof.
  unfold Convert.convertFunctionTypeOver.
  intros [HtypeParameters [Hparameters Htype]] H.
  apply bind_throws in H as [H | [typeParams [_ H]]];
    [exact (convertTypeParameterDeclarationOver_throws _ _ HtypeParameters H)|].
  apply bind_throws in H as [H | [[params restParam] [_ H]]];
    [exact (convertParametersOver_throws _ Hparameters _ _ H)|].
  apply bind_throws in H as [H | [resultType [_ H]]]; [|discriminate H].
  exact (convertTypeOr_throws _ _ _ Htype H).
Qed.

Lemma convertTypeLiteralOver_throws node members :
  Forall (holdsOnTypeElement safe) members ->
  forall properties err,
    Convert.convertTypeLiteralOver SyntaxKindName sourceFile convertType'
      node members properties = Throw err ->
    thrownByTypes err.
Proof.
  induction 1 as [|member rest Hmember Hrest IH]; intros properties err H;
    cbn [Convert.convertTypeLiteralOver] in H.
  - discriminate H.
  - destruct member as [name questionToken type|elementKind].
    + apply bind_throws in H as [H | [key [_ H]]].
      * unfold Convert.convertIdentifierCast, b.identifierOf in H.
        destruct (ts.propertyNameText name); [discriminate H|].
        injection H as <-. left. reflexivity.
      * apply bind_throws in H as [H | [value [_ H]]].
        -- exact (convertTypeOr_throws _ _ _ Hmember H).
        -- exact (IH _ _ H).
    + destruct elementKind; discriminate H.
Qed.

Lemma convertTypeReferenceOver_throws node typeName typeArguments err :
  holdsOnArguments safe typeArguments ->
  Convert.convertTypeReferenceOver sourceFile mapper checker convertType'
    node typeName typeArguments = Throw err ->
  thrownByTypes err.
Proof.
  unfold Convert.convertTypeReferenceOver, Convert.convertTypeReferenceLikeOver.
  intros Hsafe H.
  apply bind_throws in H as [H | [result [_ H]]].
  - destruct (match ts.getSymbolAtLocation checker typeName with
              | Some symbol => getSymbol mapper symbol
              | None => None
              end) as [[name|macro]|].
    + apply bind_throws in H as [H | [typeParameters [_ H]]]; [|discriminate H].
      exact (convertTypeArgumentsOver_throws _ _ _ Hsafe H).
    + assert (Hargument : forall type,
                 In type (argumentsOf typeArguments) ->
                 forall err', convertType' type = Throw err' -> thrownByTypes err').
      { destruct typeArguments as [arguments|]; [|intros type []].
        intros type Htype. exact (proj1 (Forall_forall _ _) Hsafe type Htype). }
      clear Hsafe.
      destruct macro; cbn [convert] in H.
      * unfold convertOmit in H.
        destruct typeArguments as [[|objectType [|keysType [|other rest]]]|];
          try discriminate H.
        cbn [Converter.convertType Convert.converterOf] in H.
        apply bind_throws in H as [H | [subtrahend [_ H]]].
        -- assert (Hkeys :
                     (key <- convertType' keysType ;;
                      Return (flow.ObjectTypeAnnotation []
                                [b.objectTypeIndexer (b.identifier "key") key
                                   flow.MixedTypeAnnotation]
                                [] None true)) = Throw err ->
                     thrownByTypes err).
           { intros Hkey.
             apply bind_throws in Hkey as [Hkey | [key [_ Hkey]]];
               [|discriminate Hkey].
             exact (Hargument keysType (or_intror (or_introl eq_refl)) _ Hkey). }
           destruct keysType as [s t|s [| | |o p|text|text|literalKind]|s n|s o t
                                |s n a|s types|s types|s o i|s e|s es|s sig|s ms
                                |s otherKind];
             try (exact (Hkeys H)); try discriminate H.
           destruct (forallb isStringLiteralType types);
             [discriminate H|exact (Hkeys H)].
        -- apply bind_throws in H as [H | [object [_ H]]]; [|discriminate H].
           exact (Hargument objectType (or_introl eq_refl) _ H).
      * unfold convertReactComponent, call in H.
        cbn [Converter.convertType Converter.convertEntityNameAsType
             Convert.converterOf] in H.
        destruct typeArguments as [[|propsType [|stateType [|other rest]]]|];
          try discriminate H.
        -- injection H as <-. right. reflexivity.
        -- apply bind_throws in H as [H | [props [_ H]]];
             [exact (Hargument propsType (or_introl eq_refl) _ H)|].
           injection H as <-. right. reflexivity.
        -- apply bind_throws in H as [H | [props [_ H]]];
             [exact (Hargument propsType (or_introl eq_refl) _ H)|].
           apply bind_throws in H as [H | [state [_ H]]];
             [exact (Hargument stateType (or_intror (or_introl eq_refl)) _ H)|].
           injection H as <-. right. reflexivity.
        -- injection H as <-. right. reflexivity.
      * unfold convertReactElement in H.
        cbn [Converter.convertType Convert.converterOf] in H.
        destruct typeArguments as [[|propsType [|typeType [|other rest]]]|];
          try discriminate H.
        -- apply bind_throws in H as [H | [props [_ H]]]; [|discriminate H].
           exact (Hargument propsType (or_introl eq_refl) _ H).
        -- apply bind_throws in H as [H | [type [_ H]]]; [|discriminate H].
           exact (Hargument typeType (or_intror (or_introl eq_refl)) _ H).
      * discriminate H.
    + apply bind_throws in H as [H | [typeParameters [_ H]]]; [|discriminate H].
      exact (convertTypeArgumentsOver_throws _ _ _ Hsafe H).
  - destruct result as [result|e]; [discriminate H|].
    destruct (kind e); discriminate H.
Qed.

End Throws.

(** The conversion of a type throws nothing but the error of the
    identifier builder and the TypeError for the missing method. *)
Lemma convertType_throws (node : ts.TypeNode) :
  throwsAsTypes convertType node.
Proof.
  induction node as [span type IH|span literal|span exprName|span operator type IH
                    |span typeName typeArguments IH|span types IH|span types IH
                    |span objectType indexType IHobject IHindex
                    |span elementType IH|span elements IH|span signature IH
                    |span members IH|span otherKind]
    using TypeNode_nested_ind;
    intros err H; cbn [Convert.convertType] in H.
  - exact (IH _ H).
  - discriminate H.
  - discriminate H.
  - unfold Convert.convertTypeOperatorOver in H.
    destruct operator; try discriminate H.
    apply bind_throws in H as [H | [converted [_ H]]]; [|discriminate H].
    exact (IH _ H).
  - exact (convertTypeReferenceOver_throws _ _ _ _ _ IH H).
  - apply bind_throws in H as [H | [converted [_ H]]]; [|discriminate H].
    exact (mapM_throws thrownByTypes _ _ _ IH H).
  - apply bind_throws in H as [H | [converted [_ H]]]; [|discriminate H].
    exact (mapM_throws thrownByTypes _ _ _ IH H).
  - apply bind_throws in H as [H | [object [_ H]]]; [exact (IHobject _ H)|].
    apply bind_throws in H as [H | [index [_ H]]]; [exact (IHindex _ H)|].
    discriminate H.
  - apply bind_throws in H as [H | [element [_ H]]]; [|discriminate H].
    exact (IH _ H).
  - apply bind_throws in H as [H | [converted [_ H]]]; [|discriminate H].
    exact (mapM_throws thrownByTypes _ _ _ IH H).
  - exact (convertFunctionTypeOver_throws _ _ _ IH H).
  - exact (convertTypeLiteralOver_throws _ _ _ IH _ _ H).
  - destruct otherKind; discriminate H.
Qed.

Lemma convertTypeArguments_throws typeName typeArguments err :
  convertTypeArguments typeName typeArguments = Throw err -> thrownByTypes err.
Proof.
  apply convertTypeArgumentsOver_throws.
  apply (holdsOn_all _ convertType_throws).
Qed.

Lemma convertTypeParameterDeclaration_throws params err :
  convertTypeParameterDeclaration params = Throw err -> thrownByTypes err.
Proof.
  apply convertTypeParameterDeclarationOver_throws.
  apply (holdsOn_all _ convertType_throws).
Qed.

Lemma convertFunctionType_throws signature err :
  convertFunctionType signature = Throw err -> thrownByTypes err.
Proof.
  apply convertFunctionTypeOver_throws.
  apply (holdsOn_all _ convertType_throws).
Qed.

Lemma convertExtendsTypes_throws node types :
  forall extends_ err,
    convertExtendsTypes node types extends_ = Throw err -> thrownByTypes err.
Proof.
  induction types as [|base rest IH]; intros extends_ err H;
    cbn [Convert.convertExtendsTypes] in H.
  - discriminate H.
  - destruct (ts.expression base) as [id|e name|literalKind text|otherKind];
      try discriminate H.
    + destruct (isEntityNameOrEntityNameExpression _) as [entity|];
        [|discriminate H].
      apply bind_throws in H as [H | [typeParameters [_ H]]];
        [exact (convertTypeArguments_throws _ _ _ H)|exact (IH _ _ H)].
    + destruct (isEntityNameOrEntityNameExpression _) as [entity|];
        [|discriminate H].
      apply bind_throws in H as [H | [typeParameters [_ H]]];
        [exact (convertTypeArguments_throws _ _ _ H)|exact (IH _ _ H)].
Qed.

Lemma convertHeritageClauses_throws node clauses :
  forall extends_ err,
    convertHeritageClauses node clauses extends_ = Throw err -> thrownByTypes err.
Proof.
  induction clauses as [|clause rest IH]; intros extends_ err H;
    cbn [Convert.convertHeritageClauses] in H.
  - discriminate H.
  - destruct (ts.token clause); try discriminate H.
    apply bind_throws in H as [H | [[r|extends'] [_ H]]].
    + exact (convertExtendsTypes_throws _ _ _ _ H).
    + discriminate H.
    + exact (IH _ _ H).
Qed.

(** What the loop over the members throws is what the conversion of a
    type throws, or the [Error] of [convertName] for the name of one of
    the members. *)
Lemma convertMembers_thrown node members :
  forall properties err,
    convertMembers node members properties = Throw err ->
    thrownByTypes err
    \/ exists member name,
         In member members
         /\ memberPropertyName member = Some name
         /\ identifierOrPrivate name = false
         /\ err = Error ("unimplemented: PropertyName kind "
                           ++ SyntaxKindName (ts.propertyNameKind name)).
Proof.
  induction members as [|member rest IH]; intros properties err H.
  - discriminate H.
  - assert (Hrest : forall properties',
               convertMembers node rest properties' = Throw err ->
               thrownByTypes err
               \/ exists member' name,
                    In member' (member :: rest)
                    /\ memberPropertyName member' = Some name
                    /\ identifierOrPrivate name = false
                    /\ err = Error ("unimplemented: PropertyName kind "
                                      ++ SyntaxKindName (ts.propertyNameKind name))).
    { intros properties' H'.
      destruct (IH _ _ H') as [Htypes | [member' [name [Hin Hname]]]];
        [left; exact Htypes|].
      right. exists member', name. split; [right; exact Hin|exact Hname]. }
    assert (Hname : forall name,
               memberPropertyName member = Some name ->
               forall key, Convert.convertName SyntaxKindName name = Throw key ->
               exists member' name',
                 In member' (member :: rest)
                 /\ memberPropertyName member' = Some name'
                 /\ identifierOrPrivate name' = false
                 /\ key = Error ("unimplemented: PropertyName kind "
                                   ++ SyntaxKindName (ts.propertyNameKind name'))).
    { intros name Hmember key Hkey. exists member, name.
      split; [left; reflexivity|]. split; [exact Hmember|].
      destruct name as [id|text|text|text|]; try discriminate Hkey;
        injection Hkey as <-; split; reflexivity. }
    destruct member as [signature|name questionToken type|name questionToken type
                       |name questionToken signature|name questionToken signature
                       |memberKind];
      cbn [Convert.convertMembers] in H.
    + apply bind_throws in H as [H | [type [_ H]]];
        [left; exact (convertFunctionType_throws _ _ H)|exact (Hrest _ H)].
    + apply bind_throws in H as [H | [[key|] [_ H]]];
        [right; exact (Hname name eq_refl _ H)| |exact (Hrest _ H)].
      apply bind_throws in H as [H | [value [_ H]]]; [|exact (Hrest _ H)].
      left. destruct type as [type|]; [exact (convertType_throws _ _ H)|discriminate H].
    + apply bind_throws in H as [H | [[key|] [_ H]]];
        [right; exact (Hname name eq_refl _ H)| |exact (Hrest _ H)].
      apply bind_throws in H as [H | [value [_ H]]]; [|exact (Hrest _ H)].
      left. destruct type as [type|]; [exact (convertType_throws _ _ H)|discriminate H].
    + apply bind_throws in H as [H | [[key|] [_ H]]];
        [right; exact (Hname name eq_refl _ H)| |exact (Hrest _ H)].
      apply bind_throws in H as [H | [value [_ H]]]; [|exact (Hrest _ H)].
      left. exact (convertFunctionType_throws _ _ H).
    + apply bind_throws in H as [H | [[key|] [_ H]]];
        [right; exact (Hname name eq_refl _ H)| |exact (Hrest _ H)].
      apply bind_throws in H as [H | [value [_ H]]]; [|exact (Hrest _ H)].
      left. exact (convertFunctionType_throws _ _ H).
    + destruct memberKind; discriminate H.
Qed.

Lemma modifyStatementAsExport_returns inner node :
  exists s, modifyStatementAsExport inner node = Return s.
Proof.
  destruct inner as [shape comments].
  destruct shape; eexists; reflexivity.
Qed.

(** X10.  The errors that reach the failure boundary of
    [convertStatement] are of five kinds and no other.  The conversion of
    a type throws nothing but the error of the identifier builder, for a
    computed name in a type literal, and the TypeError of the call of
    [converter.convertEntityNameAsType], under the React component macro.
    The conversion of a statement throws what the conversion of one of
    its types throws; the same error of the identifier builder for a
    variable that is a binding pattern; the error of the string-literal
    builder, for an import or export declaration whose module specifier
    has no [text]; the error of the builder of named exports, for
    [export * as ns]; or the [Error] of [convertName], for a class or an
    interface with a property or method whose name is neither an
    identifier nor a private identifier, with the message
    [unimplemented: PropertyName kind <kind>] for that name.  (The
    checker, the mapper and the helpers of util.ts and tsutil.ts are
    taken not to throw.) *)
Theorem failure_boundary_origin (node : ts.Statement) :
  (forall type err,
     convertType type = Throw err ->
     err = BuilderError IdentifierName
     \/ err = TypeError "converter.convertEntityNameAsType")
  /\ (forall err,
        convertStatementBody node = Throw err ->
        err = BuilderError IdentifierName
        \/ err = TypeError "converter.convertEntityNameAsType"
        \/ (exists moduleSpecifier,
              moduleSpecifierOf node = Some moduleSpecifier
              /\ ts.expressionText moduleSpecifier = None
              /\ err = BuilderError StringLiteralValue)
        \/ (exists nd isTypeOnly name moduleSpecifier,
              node = ts.ExportDeclaration nd isTypeOnly
                       (Some (ts.NamespaceExport name)) moduleSpecifier false
              /\ err = BuilderError
                         (ExportNamedDeclarationSpecifiers
                            [flow.ExportNamespaceSpecifier
                               {| flow.name := ts.text name;
                                  flow.typeAnnotation := None |}]))
        \/ (exists nd declaration member name,
              (node = ts.ClassDeclaration nd declaration
               \/ node = ts.InterfaceDeclaration nd declaration)
              /\ In member (ts.members declaration)
              /\ memberPropertyName member = Some name
              /\ identifierOrPrivate name = false
              /\ err = Error ("unimplemented: PropertyName kind "
                                ++ SyntaxKindName (ts.propertyNameKind name)))).
Proof.
  split; [exact convertType_throws|].
  intros err H.
  assert (Htypes : thrownByTypes err ->
                   err = BuilderError IdentifierName
                   \/ err = TypeError "converter.convertEntityNameAsType"
                   \/ (exists moduleSpecifier,
                         moduleSpecifierOf node = Some moduleSpecifier
                         /\ ts.expressionText moduleSpecifier = None
                         /\ err = BuilderError StringLiteralValue)
                   \/ (exists nd isTypeOnly name moduleSpecifier,
                         node = ts.ExportDeclaration nd isTypeOnly
                                  (Some (ts.NamespaceExport name)) moduleSpecifier
                                  false
                         /\ err = BuilderError
                                    (ExportNamedDeclarationSpecifiers
                                       [flow.ExportNamespaceSpecifier
                                          {| flow.name := ts.text name;
                                             flow.typeAnnotation := None |}]))
                   \/ (exists nd declaration member name,
                         (node = ts.ClassDeclaration nd declaration
                          \/ node = ts.InterfaceDeclaration nd declaration)
                         /\ In member (ts.members declaration)
                         /\ memberPropertyName member = Some name
                         /\ identifierOrPrivate name = false
                         /\ err = Error ("unimplemented: PropertyName kind "
                                           ++ SyntaxKindName
                                                (ts.propertyNameKind name))))
    by (intros [Hidentifier | Hcall];
        [left; exact Hidentifier | right; left; exact Hcall]).
  assert (Hclass : forall nd declaration,
             node = ts.ClassDeclaration nd declaration
             \/ node = ts.InterfaceDeclaration nd declaration ->
             convertClassLikeDeclaration node declaration = Throw err ->
             thrownByTypes err
             \/ exists member name,
                  In member (ts.members declaration)
                  /\ memberPropertyName member = Some name
                  /\ identifierOrPrivate name = false
                  /\ err = Error ("unimplemented: PropertyName kind "
                                    ++ SyntaxKindName (ts.propertyNameKind name))).
  { intros nd declaration _ Hthrown.
    unfold Convert.convertClassLikeDeclaration in Hthrown.
    destruct (ts.className declaration) as [name|];
      [|destruct (_ && _); discriminate Hthrown].
    apply bind_throws in Hthrown as [Hthrown | [typeParameters [_ Hthrown]]];
      [left; exact (convertTypeParameterDeclaration_throws _ _ Hthrown)|].
    apply bind_throws in Hthrown as [Hthrown | [[r|extends_] [_ Hthrown]]];
      [left; exact (convertHeritageClauses_throws _ _ _ _ Hthrown)
      |discriminate Hthrown|].
    apply bind_throws in Hthrown as [Hthrown | [[r|properties] [_ Hthrown]]];
      [exact (convertMembers_thrown _ _ _ _ Hthrown)|discriminate Hthrown|].
    destruct (Convert.isInterfaceDeclaration node); discriminate Hthrown. }
  unfold Convert.convertStatementBody in H.
  apply bind_throws in H as [H | [inner [_ H]]].
  - destruct node as [nd importClause moduleSpecifier
                     |nd isTypeOnly exportClause moduleSpecifier assertClause
                     |nd isExportEquals expression
                     |nd declarationList
                     |nd name typeParameters type
                     |nd name signature
                     |nd declaration
                     |nd declaration
                     |nd statementKind];
      cbn [Convert.convertStatementExceptExport] in H.
    + unfold Convert.convertImportDeclaration in H.
      destruct importClause as [clause|]; [|discriminate H].
      destruct (ts.importClauseModifiers clause); [discriminate H|].
      apply bind_throws in H as [H | [source [_ H]]]; [|discriminate H].
      unfold b.stringLiteral in H.
      destruct (ts.expressionText moduleSpecifier) eqn:Htext; [discriminate H|].
      injection H as <-. right; right; left.
      exists moduleSpecifier. repeat split. exact Htext.
    + unfold Convert.convertExportDeclaration in H.
      destruct assertClause; [discriminate H|].
      apply bind_throws in H as [H | [source [_ H]]].
      * destruct moduleSpecifier as [moduleSpecifier|]; [|discriminate H].
        apply bind_throws in H as [H | [literal [_ H]]]; [|discriminate H].
        unfold b.stringLiteral in H.
        destruct (ts.expressionText moduleSpecifier) eqn:Htext; [discriminate H|].
        injection H as <-. right; right; left.
        exists moduleSpecifier. repeat split. exact Htext.
      * destruct exportClause as [[name|elements]|].
        -- injection H as <-. right; right; right; left.
           exists nd, isTypeOnly, name, moduleSpecifier. split; reflexivity.
        -- unfold b.exportNamedDeclaration_from, b.exportNamedDeclaration in H.
           assert (Haccepted :
                     forall l : list ts.ExportSpecifier,
                       forallb b.isExportSpecifier
                         (map (fun spec =>
                                 b.exportSpecifier_from
                                   (Convert.convertIdentifier
                                      (match ts.exportPropertyName spec with
                                       | Some propertyName => propertyName
                                       | None => ts.exportName spec
                                       end) None)
                                   (Convert.convertIdentifier (ts.exportName spec) None)
                                   (if ts.specIsTypeOnly spec
                                    then flow.type else flow.value_))
                              l) = true).
           { intros l. induction l as [|spec rest IH]; [reflexivity|exact IH]. }
           rewrite Haccepted in H. discriminate H.
        -- destruct source; discriminate H.
    + discriminate H.
    + unfold Convert.convertVariableStatement in H.
      apply bind_throws in H as [H | [declarators [_ H]]]; [|discriminate H].
      apply Htypes.
      refine (mapM_throws thrownByTypes _ _ _ _ H).
      apply Forall_forall. intros declaration _ err' H'.
      apply bind_throws in H' as [H' | [type [_ H']]].
      * destruct (ts.variableType declaration) as [type|]; [|discriminate H'].
        apply bind_throws in H' as [H' | [converted [_ H']]]; [|discriminate H'].
        exact (convertType_throws _ _ H').
      * unfold Convert.convertIdentifierCast, b.identifierOf, b.identifierOf_from
          in H'.
        destruct type; destruct (ts.bindingNameText _); try discriminate H';
          injection H' as <-; left; reflexivity.
    + unfold Convert.convertTypeAliasDeclaration in H.
      apply Htypes.
      apply bind_throws in H as [H | [converted [_ H]]];
        [exact (convertTypeParameterDeclaration_throws _ _ H)|].
      apply bind_throws in H as [H | [right_ [_ H]]]; [|discriminate H].
      exact (convertType_throws _ _ H).
    + unfold Convert.convertFunctionDeclaration in H.
      destruct name as [name|]; [|destruct (_ && _); discriminate H].
      apply bind_throws in H as [H | [type [_ H]]]; [|discriminate H].
      apply Htypes. exact (convertFunctionType_throws _ _ H).
    + destruct (Hclass nd declaration (or_introl eq_refl) H)
        as [Hthrown | [member [name Hmember]]]; [exact (Htypes Hthrown)|].
      right; right; right; right.
      exists nd, declaration, member, name. split; [left; reflexivity|exact Hmember].
    + destruct (Hclass nd declaration (or_intror eq_refl) H)
        as [Hthrown | [member [name Hmember]]]; [exact (Htypes Hthrown)|].
      right; right; right; right.
      exists nd, declaration, member, name. split; [right; reflexivity|exact Hmember].
    + destruct statementKind; discriminate H.
  - destruct (hasModifier node ts.SyntaxKind.ExportKeyword); [|discriminate H].
    destruct (modifyStatementAsExport_returns inner node) as [s Hs].
    rewrite Hs in H. discriminate H.
Qed.

End Properties.

(** * The theorems at concrete inputs *)


(** C2 as stated fails: the expression statement [  x = 1;] is an
    executable statement, and its conversion is no invalid placeholder,
    whatever the reason. *)
Lemma executable_statement_not_invalid :
  In (ts.kind expressionStatement) executableStatementKinds
  /\ forall reason,
       Convert.convertStatement syntaxKindName exampleLibraryMessage expressionFile
         exampleMapper exampleChecker expressionStatement
       <> Return (invalidPlaceholder expressionFile expressionStatement reason).
Proof.
  split; [left; reflexivity|].
  intros reason H. vm_compute in H. discriminate H.
Qed.

Lemma executable_statement_unimplemented_witness :
  Convert.convertStatement syntaxKindName exampleLibraryMessage expressionFile
    exampleMapper exampleChecker expressionStatement
  = Return (flow.mkStatement flow.EmptyStatement
              (Some [flow.CommentBlock
                       " tsflower-unimplemented: ExpressionStatement " true false;
                     flow.CommentBlock "   x = 1; " false true])).
Proof.
  exact (executable_statement_unimplemented syntaxKindName exampleLibraryMessage
           expressionFile exampleMapper exampleChecker (plainNode 11 19)
           ts.SyntaxKind.ExpressionStatement (or_introl eq_refl)).
Defined.

(** [Readonly<number>] converts to [$ReadOnly<number>]. *)
Lemma fixed_name_rewrite_witness :
  Convert.convertType syntaxKindName referencesFile exampleMapper exampleChecker
    (ts.TypeReference (spanOf 9 25) readonlyName (Some [numberType 18 24]))
  = Return (flow.GenericTypeAnnotation (flow.Id (b.identifier "$ReadOnly"))
              (Some [flow.NumberTypeAnnotation]) None).
Proof.
  exact (proj1 (proj2 (fixed_name_rewrite syntaxKindName referencesFile exampleMapper
                         exampleChecker (spanOf 9 25) readonlyName
                         (Some [numberType 18 24])
                         (symbolOf 1 [genericDeclaration ["T"]])
                         "$ReadOnly" eq_refl eq_refl))).
Defined.

(** [Omit<number>] converts to the invalid placeholder type. *)
Lemma omit_wrong_argument_count_witness :
  Convert.convertType syntaxKindName referencesFile exampleMapper exampleChecker
    omitReference
  = Return (flow.GenericTypeAnnotation (flow.Id (b.identifier "$FlowFixMe")) None
              (Some [flow.CommentBlock "  Omit<number> " false true;
                     flow.CommentBlock
                       " tsflower-error: bad Omit: 1 arguments (expected 2) "
                       false true])).
Proof.
  assert (Hcount : argumentCount (Some [numberType 41 47]) <> 2)
    by (intros H; discriminate H).
  exact (proj2 (omit_wrong_argument_count syntaxKindName referencesFile exampleMapper
                  exampleChecker omitName (Some [numberType 41 47]) Hcount)
           (spanOf 35 48) (symbolOf 2 [genericDeclaration ["T"; "K"]])
           eq_refl eq_refl).
Defined.

(** C6 as stated fails, in both halves, where a macro rewrites the
    reference.  [React.ReactElement] is written without type arguments
    and its declaration has type parameters, all with defaults; the
    macro gives the reference one argument, not an explicit empty list.
    [JSX.Element] is written without type arguments and its declaration
    has no type parameters; the macro gives the reference the argument
    [any], and the omitted list is not preserved. *)
Lemma omitted_arguments_under_macro :
  (declaresTypeParameters exampleChecker reactElementName = true
   /\ Convert.convertType syntaxKindName referencesFile exampleMapper exampleChecker
        reactElementReference
      = Return (flow.GenericTypeAnnotation (flow.Id (b.identifier "React$Element"))
                  (Some [flow.GenericTypeAnnotation
                           (flow.Id (b.identifier "React$ElementType")) None None])
                  None)
   /\ forall id comments,
        Convert.convertType syntaxKindName referencesFile exampleMapper
          exampleChecker reactElementReference
        <> Return (flow.GenericTypeAnnotation id (Some []) comments))
  /\ (declaresTypeParameters exampleChecker jsxElementName = false
      /\ Convert.convertType syntaxKindName referencesFile exampleMapper
           exampleChecker jsxElementReference
         = Return (flow.GenericTypeAnnotation
                     (flow.Id (b.identifier "React$Element"))
                     (Some [flow.AnyTypeAnnotation]) None)
      /\ forall id comments,
           Convert.convertType syntaxKindName referencesFile exampleMapper
             exampleChecker jsxElementReference
           <> Return (flow.GenericTypeAnnotation id None comments)).
Proof.
  split; (split; [reflexivity|split; [reflexivity|]]);
    intros id comments H; vm_compute in H; discriminate H.
Qed.

(** [Box], declared as [Box<T = any>], converts to [Box<>]. *)
Lemma omitted_type_arguments_witness :
  exists id,
    Convert.convertType syntaxKindName referencesFile exampleMapper exampleChecker
      (ts.TypeReference (spanOf 84 88) boxName None)
    = Return (flow.GenericTypeAnnotation id (Some []) None).
Proof.
  exact (proj2 (omitted_type_arguments syntaxKindName referencesFile exampleMapper
                  exampleChecker (spanOf 84 88) boxName) eq_refl).
Defined.

(** The file [type A = B;  x = 1;] cut at the offsets 11 and 19 of its
    second statement: the placeholder quotes [  x = 1;], with the two
    spaces before [x]. *)
Lemma placeholder_quotes_source_span_witness :
  Convert.unimplementedStatement expressionFile expressionStatement
    "ExpressionStatement"
  = flow.mkStatement flow.EmptyStatement
      (Some [flow.CommentBlock " tsflower-unimplemented: ExpressionStatement "
               true false;
             flow.CommentBlock "   x = 1; " false true])
  /\ exists diagnostic,
       Convert.convertedStatement syntaxKindName exampleLibraryMessage
         expressionFile exampleMapper exampleChecker expressionStatement
       = flow.mkStatement flow.EmptyStatement
           (Some [flow.CommentBlock diagnostic true false;
                  flow.CommentBlock "   x = 1; " false true]).
Proof.
  destruct (placeholder_quotes_source_span syntaxKindName exampleLibraryMessage
              expressionFile exampleMapper exampleChecker expressionStatement
              "type A = B;" "  x = 1;" "" eq_refl eq_refl eq_refl)
    as [Hunimplemented [_ Hconverted]].
  split; [exact (Hunimplemented "ExpressionStatement")|].
  exact (Hconverted _ eq_refl eq_refl).
Defined.

(** [declare function f(...xs): void;] gets no parameter but the rest
    parameter, typed as an array of [any]. *)
Lemma function_type_defaults_witness :
  Convert.convertFunctionType syntaxKindName referencesFile exampleMapper
    exampleChecker restSignature
  = Return (flow.FunctionTypeAnnotation [] flow.VoidTypeAnnotation
              (Some {| flow.paramName := Some (b.identifier "xs");
                       flow.paramTypeAnnotation :=
                         flow.ArrayTypeAnnotation flow.AnyTypeAnnotation;
                       flow.paramOptional := false |})
              None)
  /\ exists params returnType rest typeParameters,
       flow.FunctionTypeAnnotation [] flow.VoidTypeAnnotation
         (Some {| flow.paramName := Some (b.identifier "xs");
                  flow.paramTypeAnnotation :=
                    flow.ArrayTypeAnnotation flow.AnyTypeAnnotation;
                  flow.paramOptional := false |})
         None
       = flow.FunctionTypeAnnotation params returnType rest typeParameters
       /\ List.length params
          + match rest with
            | Some _ => 1
            | None => 0
            end = 1
       /\ rest = Some {| flow.paramName := Some (b.identifier "xs");
                         flow.paramTypeAnnotation :=
                           flow.ArrayTypeAnnotation flow.AnyTypeAnnotation;
                         flow.paramOptional := false |}.
Proof.
  split; [reflexivity|].
  destruct (proj2 (function_type_defaults syntaxKindName referencesFile
                     exampleMapper exampleChecker restSignature eq_refl)
              _ eq_refl)
    as [params [returnType [rest [typeParameters
         [Hconverted [Hcount [Hparameters _]]]]]]].
  exists params, returnType, rest, typeParameters.
  split; [exact Hconverted|split; [exact Hcount|]].
  exact (Hparameters 0 (parameter true "xs" None) eq_refl eq_refl).
Defined.

(** [import 'foo';] becomes the unimplemented placeholder. *)
Lemma import_without_clause_unimplemented_witness :
  Convert.convertStatement syntaxKindName exampleLibraryMessage bareImportFile
    exampleMapper exampleChecker bareImport
  = Return (flow.mkStatement flow.EmptyStatement
              (Some [flow.CommentBlock
                       " tsflower-unimplemented: ImportDeclaration with no import clause "
                       true false;
                     flow.CommentBlock " import 'foo'; " false true])).
Proof.
  exact (proj1 (import_without_clause_unimplemented syntaxKindName
                  exampleLibraryMessage bareImportFile exampleMapper exampleChecker
                  (plainNode 0 13) (moduleNamed "foo"))).
Defined.



(** * The further properties at concrete inputs *)

(** [Foo.Bar] converts alike as a qualified name and as a property
    access at another place of the file. *)
Lemma convertEntityNameAsType_path_witness :
  Convert.convertEntityNameAsType qualifiedFooBar
  = Convert.convertEntityNameAsType accessedFooBar.
Proof.
  exact (proj2 (proj2 (convertEntityNameAsType_path qualifiedFooBar accessedFooBar))
           eq_refl).
Defined.

(** [declare function g(a, b?: number, ...xs);] *)
Lemma function_type_parameters_witness :
  Convert.convertFunctionType syntaxKindName referencesFile exampleMapper
    exampleChecker mixedSignature
  = Return (flow.FunctionTypeAnnotation
              [{| flow.paramName := Some (b.identifier "a");
                  flow.paramTypeAnnotation := flow.AnyTypeAnnotation;
                  flow.paramOptional := false |};
               {| flow.paramName := Some (b.identifier "b");
                  flow.paramTypeAnnotation := flow.NumberTypeAnnotation;
                  flow.paramOptional := true |}]
              flow.AnyTypeAnnotation
              (Some {| flow.paramName := Some (b.identifier "xs");
                       flow.paramTypeAnnotation :=
                         flow.ArrayTypeAnnotation flow.AnyTypeAnnotation;
                       flow.paramOptional := false |})
              None).
Proof.
  exact (function_type_parameters syntaxKindName referencesFile exampleMapper
           exampleChecker mixedSignature).
Defined.

(** In [{ a: number; ['b']: string }] the computed name makes the
    conversion throw; in [{ 'a': number; 1?: string }] the string and the
    number become identifiers. *)
Lemma type_literal_conversion_witness :
  Convert.convertType syntaxKindName computedLiteralFile exampleMapper exampleChecker
    computedLiteral
  = Throw (BuilderError IdentifierName)
  /\ Convert.convertType syntaxKindName computedLiteralFile exampleMapper
       exampleChecker quotedNamesLiteral
     = Return (flow.ObjectTypeAnnotation
                 [{| flow.key := flow.IdentifierKey (b.identifier "a");
                     flow.value := flow.NumberTypeAnnotation;
                     flow.optional := false |};
                  {| flow.key := flow.IdentifierKey (b.identifier "1");
                     flow.value := flow.StringTypeAnnotation;
                     flow.optional := true |}]
                 [] [] (Some false) true).
Proof.
  split.
  - exact (proj1 (type_literal_conversion syntaxKindName computedLiteralFile
                    exampleMapper exampleChecker (spanOf 8 37) _)).
  - exact (proj1 (type_literal_conversion syntaxKindName computedLiteralFile
                    exampleMapper exampleChecker (spanOf 8 36) _)).
Defined.

(** The sample class converts as it does without its member [#p]. *)
Lemma private_members_dropped_witness :
  Convert.convertStatement syntaxKindName exampleLibraryMessage referencesFile
    exampleMapper exampleChecker (ts.ClassDeclaration (plainNode 0 0) sampleClass)
  = Convert.convertStatement syntaxKindName exampleLibraryMessage referencesFile
      exampleMapper exampleChecker
      (ts.ClassDeclaration (plainNode 0 0)
         {| ts.className := Some (ident "C");
            ts.classTypeParameters := None;
            ts.heritageClauses := Some [extendsFooBar];
            ts.members :=
              [ts.Constructor (signatureOf [parameter true "xs" None] None);
               ts.PropertyDeclaration (ts.PropertyIdentifier (ident "a")) true
                 (Some (keyword ts.SyntaxKind.NumberKeyword));
               ts.MethodDeclaration (ts.PropertyIdentifier (ident "m")) false
                 (signatureOf [] (Some (keyword ts.SyntaxKind.VoidKeyword)))] |}).
Proof.
  exact (proj1 (private_members_dropped syntaxKindName exampleLibraryMessage
                  referencesFile exampleMapper exampleChecker (plainNode 0 0)
                  sampleClass)).
Defined.

(** The sample class converts to a [declare class] with three properties:
    [constructor], [a] and [m]. *)
Lemma class_like_conversion_witness :
  exists extends_ constructorType methodType,
    Convert.convertStatementExceptExport syntaxKindName referencesFile exampleMapper
      exampleChecker (ts.ClassDeclaration (plainNode 0 0) sampleClass)
    = Return
        (flow.mkStatement
           (flow.DeclareClass
              {| flow.interfaceId := b.identifier "C";
                 flow.interfaceTypeParameters := None;
                 flow.extends := extends_;
                 flow.body :=
                   flow.ObjectTypeAnnotation
                     [b.objectTypeProperty
                        (flow.IdentifierKey (b.identifier "constructor"))
                        constructorType false;
                      b.objectTypeProperty (flow.IdentifierKey (b.identifier "a"))
                        flow.NumberTypeAnnotation true;
                      b.objectTypeProperty (flow.IdentifierKey (b.identifier "m"))
                        methodType false]
                     [] [] None false |})
           None).
Proof.
  eexists _, _, _.
  exact (proj1 (class_like_conversion syntaxKindName referencesFile exampleMapper
                  exampleChecker (plainNode 0 0) sampleClass (ident "C")
                  eq_refl eq_refl eq_refl)).
Defined.

(** The class with [implements I] is unimplemented; its computed member
    name throws nothing. *)
Lemma implements_clause_unimplemented_witness :
  Convert.convertStatement syntaxKindName exampleLibraryMessage classFile
    exampleMapper exampleChecker
    (ts.ClassDeclaration (plainNode 0 0) implementingClass)
  = Return (unimplementedPlaceholder classFile
              (ts.ClassDeclaration (plainNode 0 0) implementingClass)
              "class 'implements'").
Proof.
  assert (Htoken : ts.token implementsI <> ts.SyntaxKind.ExtendsKeyword)
    by (intros H; discriminate H).
  eapply (proj2 (implements_clause_unimplemented syntaxKindName
                   exampleLibraryMessage classFile exampleMapper exampleChecker
                   (ts.ClassDeclaration (plainNode 0 0) implementingClass)
                   (plainNode 0 0) implementingClass (ident "C")
                   [extendsFooBar] [] implementsI
                   (or_introl eq_refl) eq_refl eq_refl eq_refl Htoken));
    reflexivity.
Defined.

(** [export default class { ['a']: number }] is unimplemented; its
    computed member name throws nothing. *)
Lemma unnamed_declaration_placeholder_witness :
  Convert.convertStatement syntaxKindName exampleLibraryMessage classFile
    exampleMapper exampleChecker
    (ts.ClassDeclaration (exportDefaultNode 0 38) anonymousClass)
  = Return (flow.mkStatement flow.EmptyStatement
              (Some [flow.CommentBlock
                       " tsflower-unimplemented: `export default class` with no name "
                       true false;
                     flow.CommentBlock " export default class { ['a']: number } "
                       false true])).
Proof.
  exact (proj2 (unnamed_declaration_placeholder syntaxKindName exampleLibraryMessage
                  classFile exampleMapper exampleChecker (exportDefaultNode 0 38)
                  (signatureOf [] None) anonymousClass)
           eq_refl (ts.ClassDeclaration (exportDefaultNode 0 38) anonymousClass)
           (or_introl eq_refl)).
Defined.

(** [export type A = B;] becomes a named export of the alias. *)
Lemma exported_statement_shapes_witness :
  exists s,
    Convert.convertStatement syntaxKindName exampleLibraryMessage exportedAliasFile
      exampleMapper exampleChecker exportedAlias = Return s
    /\ ((exists reason,
           s = Convert.unimplementedStatement exportedAliasFile exportedAlias reason
           \/ s = Convert.errorStatement exportedAliasFile exportedAlias reason)
        \/ flow.comments s = None).
Proof.
  eexists. split; [reflexivity|].
  destruct (exported_statement_shapes syntaxKindName exampleLibraryMessage
              exportedAliasFile exampleMapper exampleChecker exportedAlias _ eq_refl)
    as [Hplaceholder | [Hnone _]].
  - left. exact Hplaceholder.
  - right. exact Hnone.
Defined.

(** In [import D, { a as b, T } from 'm';] the specifier of [T] imports
    the interface as a type; [import * as ns from 'm';] becomes a namespace
    import. *)
Lemma import_specifiers_witness :
  (exists named,
     Convert.convertStatementExceptExport syntaxKindName referencesFile exampleMapper
       importChecker
       (ts.ImportDeclaration (plainNode 0 0) (Some namespaceImportClause)
          (moduleNamed "m"))
     = Return (flow.mkStatement (flow.ImportDeclaration named "m") None)
     /\ named = [flow.ImportNamespaceSpecifier (b.identifier "ns")])
  /\ exists named,
    Convert.convertStatementExceptExport syntaxKindName referencesFile exampleMapper
      importChecker
      (ts.ImportDeclaration (plainNode 0 0) (Some sampleImportClause) (moduleNamed "m"))
    = Return (flow.mkStatement
                (flow.ImportDeclaration
                   (flow.ImportDefaultSpecifier (b.identifier "D") :: named) "m")
                None)
    /\ List.length named = 2
    /\ exists importKind,
         nth_error named 1
         = Some (flow.ImportSpecifier (b.identifier "T") (b.identifier "T") importKind)
         /\ (importKind = flow.type <->
             exists localSymbol importedSymbol,
               ts.getSymbolAtLocation importChecker
                 (ts.EntityIdentifier (ts.importName bindingT)) = Some localSymbol
               /\ ts.getImmediateAliasedSymbol importChecker localSymbol
                  = Some importedSymbol
               /\ N.land (ts.flags importedSymbol) ts.SymbolFlags_Value = 0%N).
Proof.
  split.
  - exact (import_specifiers syntaxKindName referencesFile exampleMapper
             importChecker (plainNode 0 0) namespaceImportClause (moduleNamed "m")
             eq_refl).
  - destruct (import_specifiers syntaxKindName referencesFile exampleMapper
                importChecker (plainNode 0 0) sampleImportClause (moduleNamed "m")
                eq_refl)
      as [named [Hconverted [Hlength Hnamed]]].
    exists named. split; [exact Hconverted|]. split; [exact Hlength|].
    exact (Hnamed 1 bindingT eq_refl).
Defined.

(** [export type A = B;] converts alike as [export declare type A = B;]. *)
Lemma other_modifiers_ignored_witness :
  Convert.convertStatement syntaxKindName exampleLibraryMessage exportedAliasFile
    exampleMapper exampleChecker
    (withModifiers exportedAlias (Some [ts.SyntaxKind.ExportKeyword]))
  = Convert.convertStatement syntaxKindName exampleLibraryMessage exportedAliasFile
      exampleMapper exampleChecker exportedAlias.
Proof.
  exact (other_modifiers_ignored syntaxKindName exampleLibraryMessage
           exportedAliasFile exampleMapper exampleChecker exportedAlias
           (Some [ts.SyntaxKind.ExportKeyword]) eq_refl eq_refl).
Defined.

(** [export { a as b, type T } from 'm';] keeps no mark of [type];
    [export * as ns from 'm';] throws. *)
Lemma export_declaration_conversion_witness :
  Convert.convertExportDeclaration referencesFile exportedAlias false
    (Some (ts.NamedExports sampleExports)) (Some (moduleNamed "m")) false
  = Return (flow.mkStatement
              (flow.ExportNamedDeclaration None
                 [flow.ExportSpecifier (b.identifier "a") (b.identifier "b");
                  flow.ExportSpecifier (b.identifier "T") (b.identifier "T")]
                 (Some "m"))
              None)
  /\ Convert.convertExportDeclaration namespaceExportFile namespaceExport false
       (Some (ts.NamespaceExport (ident "ns"))) (Some (moduleNamed "m")) false
     = Throw (BuilderError
                (ExportNamedDeclarationSpecifiers
                   [flow.ExportNamespaceSpecifier (b.identifier "ns")])).
Proof.
  split.
  - exact (export_declaration_conversion referencesFile exportedAlias false
             (Some (ts.NamedExports sampleExports)) (Some (moduleNamed "m")) false).
  - exact (export_declaration_conversion namespaceExportFile namespaceExport false
             (Some (ts.NamespaceExport (ident "ns"))) (Some (moduleNamed "m")) false).
Defined.

(** [declare const { a, b }: number;] throws in the builder of
    identifiers. *)
Lemma variable_statement_conversion_witness :
  Convert.convertStatementExceptExport syntaxKindName patternFile exampleMapper
    exampleChecker patternStatement
  = Throw (BuilderError IdentifierName).
Proof.
  exact (variable_statement_conversion syntaxKindName patternFile exampleMapper
           exampleChecker (plainNode 0 31) _).
Defined.

(** [React.Component], under the converter of the examples: the call of
    the missing method throws. *)
Lemma react_component_arguments_witness :
  convertReactComponent exampleConverter componentName None
  = Throw (TypeError "converter.convertEntityNameAsType").
Proof.
  exact (react_component_arguments exampleConverter componentName None).
Defined.

(** [ReactElement<number>] and [ReactElement<number, string>] *)
Lemma react_element_arguments_witness :
  convertReactElement exampleConverter reactElementName (Some [numberType 0 0])
  = Return (success
              {| flow.id := flow.Id (b.identifier "React$Element");
                 flow.typeParameters :=
                   Some [genericOf "React$ComponentType"
                           (Some [flow.NumberTypeAnnotation])] |})
  /\ convertReactElement exampleConverter reactElementName
       (Some [numberType 0 0; keyword ts.SyntaxKind.StringKeyword])
     = Return (success
                 {| flow.id := flow.Id (b.identifier "React$Element");
                    flow.typeParameters := Some [flow.StringTypeAnnotation] |}).
Proof.
  split.
  - exact (react_element_arguments exampleConverter reactElementName
             (Some [numberType 0 0])).
  - exact (react_element_arguments exampleConverter reactElementName
             (Some [numberType 0 0; keyword ts.SyntaxKind.StringKeyword])).
Defined.

(** [Omit<number, 'a'>] subtracts the one key [a]; [Omit<number, string>]
    subtracts an indexer over [string]. *)
Lemma omit_subtrahend_witness :
  convertOmit exampleConverter omitName (Some [numberType 0 0; stringLiteralType "a"])
  = Return (success
              {| flow.id := flow.Id (b.identifier "$Diff");
                 flow.typeParameters :=
                   Some [flow.NumberTypeAnnotation; objectOfKeys ["a"]] |})
  /\ convertOmit exampleConverter omitName
       (Some [numberType 0 0; keyword ts.SyntaxKind.StringKeyword])
     = Return (success
                 {| flow.id := flow.Id (b.identifier "$Diff");
                    flow.typeParameters :=
                      Some [flow.NumberTypeAnnotation;
                            objectIndexedBy flow.StringTypeAnnotation] |}).
Proof.
  split.
  - exact (proj1 (omit_subtrahend exampleConverter omitName (numberType 0 0)
                    (stringLiteralType "a"))).
  - exact (proj1 (omit_subtrahend exampleConverter omitName (numberType 0 0)
                    (keyword ts.SyntaxKind.StringKeyword))).
Defined.

(** [Geometry.Point], unknown to the checker, keeps its name;
    [React.Component] throws the TypeError. *)
Lemma type_reference_shape_witness :
  (Convert.convertType syntaxKindName referencesFile exampleMapper exampleChecker
     (ts.TypeReference (spanOf 0 0) pointName None)
   = Return (flow.GenericTypeAnnotation (Convert.convertEntityNameAsType pointName)
               None None)
   /\ typeIdentifierParts (Convert.convertEntityNameAsType pointName)
      = ["Geometry"; "Point"])
  /\ exists err,
       Convert.convertType syntaxKindName referencesFile exampleMapper exampleChecker
         componentReference = Throw err
       /\ err = TypeError "converter.convertEntityNameAsType".
Proof.
  split.
  - exact (proj1 (proj2 (type_reference_shape syntaxKindName referencesFile
                           exampleMapper exampleChecker (spanOf 0 0) pointName None))
             eq_refl).
  - destruct (proj2 (proj2 (proj2 (proj2
                (type_reference_shape syntaxKindName referencesFile exampleMapper
                   exampleChecker (spanOf 58 74) componentName None))) eq_refl)
                (le_0_n 2))
      as [err [Hthrown Herr]].
    exists err. split; [exact Hthrown|].
    apply Herr. intros type [].
Defined.

(** The span 11..19 of [type A = B;  x = 1;] is [  x = 1;]. *)
Lemma quotation_bounds_witness :
  slice (ts.sourceText expressionFile) 11 19 = "  x = 1;"
  /\ slice (ts.sourceText expressionFile) 19 30 = "".
Proof.
  split.
  - exact (proj2 (proj2 (proj2 (proj2
             (quotation_bounds expressionFile expressionStatement
                (numberType 0 0) 11 19))))
             "type A = B;" "  x = 1;" "" eq_refl eq_refl eq_refl).
  - exact (proj1 (proj2 (proj2 (proj2
             (quotation_bounds expressionFile expressionStatement
                (numberType 0 0) 19 30))))
             (or_introl (le_n 19))).
Defined.

(** A big-integer literal type is invalid. *)
Lemma literal_type_conversion_witness :
  exists reason,
    Convert.convertType syntaxKindName referencesFile exampleMapper exampleChecker
      (ts.LiteralType (spanOf 0 0) (ts.OtherLiteral ts.SyntaxKind.BigIntLiteral))
    = Return (invalidPlaceholderType referencesFile
                (ts.LiteralType (spanOf 0 0)
                   (ts.OtherLiteral ts.SyntaxKind.BigIntLiteral))
                reason).
Proof.
  exact (proj1 (proj1 (proj2 (literal_type_conversion syntaxKindName referencesFile
                                exampleMapper exampleChecker (spanOf 0 0)
                                (ts.OtherLiteral ts.SyntaxKind.BigIntLiteral))))
           eq_refl).
Defined.

(** The error caught for [interface I { ['a']: number }] is the [Error]
    of [convertName] for the name of its one member. *)
Lemma failure_boundary_origin_witness :
  exists nd declaration member name,
    (computedInterface = ts.ClassDeclaration nd declaration
     \/ computedInterface = ts.InterfaceDeclaration nd declaration)
    /\ In member (ts.members declaration)
    /\ memberPropertyName member = Some name
    /\ identifierOrPrivate name = false
    /\ Error "unimplemented: PropertyName kind ComputedPropertyName"
       = Error ("unimplemented: PropertyName kind "
                  ++ syntaxKindName (ts.propertyNameKind name)).
Proof.
  destruct (proj2 (failure_boundary_origin syntaxKindName computedFile exampleMapper
                     exampleChecker computedInterface)
              (Error "unimplemented: PropertyName kind ComputedPropertyName")
              eq_refl)
    as [H | [H | [[moduleSpecifier [H _]] | [[nd [isTypeOnly [name [m [H _]]]]] | H]]]];
    try discriminate H.
  exact H.
Defined.
